(** * libuv-java: the native file bridge (src/main/native/file.cpp)

    A shallow embedding of the JNI bridge between libuv's [uv_fs_*] calls
    and the Java class [net.java.libuv.handles.Files]: the [FileRequest]
    record, the [FileCallbacks] dispatcher with its two [fs_cb] overloads,
    the completion hook [_fs_cb] and the dual-mode entry points
    ([_read], [_write], [_stat], [_readdir], [_sendfile], ...).

    Conventions.
    - C and JNI integers are [Z] with the wrap-around of their width written
      out ([to_jint], [to_jlong]); [jbyte]s are [Z], C [char]s are [ascii].
    - The code runs in a small state-and-crash monad [M] over a [world]:
      the Java byte arrays, the JNI global references, the pending Java
      exception, the live [FileRequest] objects and a trace of the effects
      the bridge has on the managed side.
    - A native byte buffer is the list of bytes readable from its base
      address; the size it was allocated with is kept next to it.
    - What the native engine does (the outcome of a [uv_fs_*] call, the
      completed [uv_fs_t]) is an input of the functions below.
    - [assert] aborts unless the build defines NDEBUG; the build is a
      parameter ([build]).
    - [static_initialize] has run: [_env] and the cached class and method
      ids are set, so [assert(_env)] holds and is left out. The [uv_fs_t]
      objects are values: [assert(req)] and [delete(req)] have no
      counterpart. *)

From stdpp Require Import base gmap list.
From Stdlib Require Import ZArith Lia Ascii String.
From stdpp Require Import strings.

Set Warnings "-register-all".
Local Open Scope Z_scope.

(** ** Machine integers *)

(** Signed two's complement value of the low [w] bits of [x]. *)
Definition wrap (w : Z) (x : Z) : Z :=
  (x + 2 ^ (w - 1)) mod 2 ^ w - 2 ^ (w - 1).

Definition to_jint (x : Z) : Z := wrap 32 x.     (* jint, jsize, int *)
Definition to_jlong (x : Z) : Z := wrap 64 x.    (* jlong, ssize_t, time_t *)
Definition to_jsize (x : Z) : Z := to_jint x.

Definition jint_range (x : Z) : Prop := - 2 ^ 31 <= x < 2 ^ 31.
Definition jlong_range (x : Z) : Prop := - 2 ^ 63 <= x < 2 ^ 63.

Definition jbyte := Z.
Definition jref := nat.          (* identity of a Java object *)

(** ** Build configuration *)

Record build := {
  ndebug : bool;      (* NDEBUG defined: assert() expands to nothing *)
  posix : bool        (* __POSIX__ defined: st_blksize / st_blocks exist *)
}.

(** ** uv.h *)

(** Modelled from the spec: uv.h is not part of the sources; the operation
    kinds are the ones the entry points of file.cpp submit. *)
Inductive uv_fs_type :=
| UV_FS_OPEN | UV_FS_CLOSE | UV_FS_READ | UV_FS_WRITE | UV_FS_SENDFILE
| UV_FS_STAT | UV_FS_LSTAT | UV_FS_FSTAT | UV_FS_FTRUNCATE
| UV_FS_UTIME | UV_FS_FUTIME | UV_FS_CHMOD | UV_FS_FCHMOD
| UV_FS_FSYNC | UV_FS_FDATASYNC | UV_FS_UNLINK | UV_FS_RMDIR
| UV_FS_MKDIR | UV_FS_RENAME | UV_FS_READDIR | UV_FS_LINK
| UV_FS_SYMLINK | UV_FS_READLINK | UV_FS_CHOWN | UV_FS_FCHOWN.

#[global] Instance uv_fs_type_eq_dec : EqDecision uv_fs_type.
Proof. solve_decision. Defined.

(** [uv_statbuf_t] (struct stat): the fields [build_stats] reads. *)
Record uv_statbuf_t := {
  st_dev : Z; st_ino : Z; st_mode : Z; st_nlink : Z;
  st_uid : Z; st_gid : Z; st_rdev : Z; st_size : Z;
  st_blksize : Z; st_blocks : Z;
  st_atime : Z; st_mtime : Z; st_ctime : Z
}.

(** What [req->ptr] (a [void*]) points to. *)
Inductive native_ptr :=
| PNull
| PStat (sb : uv_statbuf_t)
| PChars (mem : list ascii).     (* the chars from the pointer onwards *)

(** A completed [uv_fs_t]. [data] is the address of the [FileRequest]. *)
Record uv_fs_t := {
  fs_type : uv_fs_type;
  result : Z;                    (* ssize_t *)
  errorno : Z;
  path : option string;          (* const char*, NULL when there is none *)
  ptr : native_ptr;
  data : Z
}.

(** ** Java values *)

(** [net.java.libuv.handles.Stats], constructor signature
    (IIIIIIIJIJJJJ)V. *)
Record Stats := {
  stats_dev : Z; stats_ino : Z; stats_mode : Z; stats_nlink : Z;
  stats_uid : Z; stats_gid : Z; stats_rdev : Z;
  stats_size : Z; stats_blksize : Z; stats_blocks : Z;
  stats_atime : Z; stats_mtime : Z; stats_ctime : Z
}.

Inductive jobject :=
| JNull
| JInteger (i : Z)                       (* java.lang.Integer *)
| JLong (l : Z)                          (* java.lang.Long *)
| JString (s : string)
| JStats (s : Stats)
| JByteArray (r : jref)                  (* a byte[] of the Java heap *)
| JObjectArray (elems : list jobject)    (* a freshly built Object[] *)
| JException (errorno : Z) (syscall message path : option string)
| JIndeterminate.                        (* an uninitialised local *)

Inductive jthrowable :=
| ArrayIndexOutOfBounds
| NegativeArraySize
| Thrown (errorno : Z) (syscall message path : option string).

(** ** Native objects *)

(** A native byte buffer ([jbyte*]). *)
Record nbuf := {
  nb_size : Z;                 (* the size given to new[] *)
  nb_mem : list jbyte          (* the bytes readable from the base address *)
}.

Record FileRequest := {
  _callback_ptr : Z;
  _callback_id : Z;
  _read_buffer_offset : Z;
  _read_buffer : jobject;              (* JNull, or a global reference *)
  _byte_array : option nbuf            (* None is NULL *)
}.

Record FileCallbacks := {
  _instance : jref
}.

(** ** The world and its trace *)

Inductive event :=
| EvCallback1 (instance : jref) (ty : uv_fs_type) (id : Z) (arg : jobject)
| EvCallbackN (instance : jref) (ty : uv_fs_type) (id : Z) (args : jobject)
| EvSetByteArrayRegion (array : jobject) (start len : Z)
| EvGetByteArrayRegion (array : jobject) (start len : Z)
| EvNewGlobalRef (o : jref)
| EvDeleteGlobalRef (o : jref)
| EvSubmit (ty : uv_fs_type) (data : Z) (buf : option nbuf) (len : Z)
                                        (* uv_fs_<ty>(loop, req, ..., _fs_cb) *)
| EvReqCleanup                          (* uv_fs_req_cleanup *)
| EvDeleteRequest (p : Z).              (* delete(request) *)

Record world := {
  jheap : gmap jref (list jbyte);       (* the Java byte arrays *)
  grefs : gmap jref nat;                (* global references held per object *)
  pending : option jthrowable;          (* the pending Java exception *)
  requests : gmap Z FileRequest;        (* live FileRequest objects *)
  callbacks : gmap Z FileCallbacks;     (* live FileCallbacks objects *)
  brk : Z;                              (* next free native address *)
  uninit : Z -> jbyte;                  (* what fresh native memory holds *)
  trace : list event                    (* effects so far, oldest first *)
}.

Inductive crash :=
| AssertionFailed (msg : string)        (* assert() in a debug build *)
| BadAlloc                              (* new[] of a negative size *)
| WildPointer                           (* NULL or mistyped pointer used *)
| NativeOutOfBounds.                    (* read or write past a native buffer *)

Inductive outcome (A : Type) :=
| Ret (a : A) (w : world)
| Crashed (c : crash) (w : world).
Arguments Ret {A} a w.
Arguments Crashed {A} c w.

Definition M (A : Type) : Type := world -> outcome A.

#[global] Instance M_ret : MRet M := fun A a w => Ret a w.
#[global] Instance M_bind : MBind M := fun A B f m w =>
  match m w with
  | Ret a w' => f a w'
  | Crashed c w' => Crashed c w'
  end.

Definition die {A} (c : crash) : M A := fun w => Crashed c w.
Definition gets {A} (f : world -> A) : M A := fun w => Ret (f w) w.
Definition modify (f : world -> world) : M unit := fun w => Ret tt (f w).

Definition set_jheap (h : gmap jref (list jbyte)) (w : world) : world :=
  {| jheap := h; grefs := grefs w; pending := pending w;
     requests := requests w; callbacks := callbacks w; brk := brk w;
     uninit := uninit w; trace := trace w |}.
Definition set_grefs (g : gmap jref nat) (w : world) : world :=
  {| jheap := jheap w; grefs := g; pending := pending w;
     requests := requests w; callbacks := callbacks w; brk := brk w;
     uninit := uninit w; trace := trace w |}.
Definition set_pending (p : option jthrowable) (w : world) : world :=
  {| jheap := jheap w; grefs := grefs w; pending := p;
     requests := requests w; callbacks := callbacks w; brk := brk w;
     uninit := uninit w; trace := trace w |}.
Definition set_requests (r : gmap Z FileRequest) (w : world) : world :=
  {| jheap := jheap w; grefs := grefs w; pending := pending w;
     requests := r; callbacks := callbacks w; brk := brk w;
     uninit := uninit w; trace := trace w |}.
Definition set_brk (b : Z) (w : world) : world :=
  {| jheap := jheap w; grefs := grefs w; pending := pending w;
     requests := requests w; callbacks := callbacks w; brk := b;
     uninit := uninit w; trace := trace w |}.
Definition push (e : event) (w : world) : world :=
  {| jheap := jheap w; grefs := grefs w; pending := pending w;
     requests := requests w; callbacks := callbacks w; brk := brk w;
     uninit := uninit w; trace := trace w ++ [e] |}.
Definition emit (e : event) : M unit := modify (push e).

(** [assert(c)]: aborts in a debug build, vanishes under NDEBUG. *)
Definition assert (b : build) (c : bool) (msg : string) : M unit :=
  if ndebug b then mret tt
  else if c then mret tt else die (AssertionFailed msg).

(** ** JNI *)

Definition gref_count (w : world) (o : jref) : nat := default 0%nat (grefs w !! o).

(** [NewGlobalRef]: one more global reference on the object. *)
Definition NewGlobalRef (o : jobject) : M jobject :=
  match o with
  | JByteArray r =>
      n ← gets (fun w => gref_count w r);
      modify (fun w => set_grefs (<[r := S n]> (grefs w)) w);;
      emit (EvNewGlobalRef r);;
      mret o
  | _ => mret o
  end.

(** [DeleteGlobalRef]: one global reference less. *)
Definition DeleteGlobalRef (o : jobject) : M unit :=
  match o with
  | JByteArray r =>
      n ← gets (fun w => gref_count w r);
      modify (fun w => set_grefs (<[r := Nat.pred n]> (grefs w)) w);;
      emit (EvDeleteGlobalRef r)
  | _ => mret tt
  end.

(** [a] with the bytes [bs] written at index [start]. *)
Definition splice (a : list jbyte) (start : Z) (bs : list jbyte) : list jbyte :=
  take (Z.to_nat start) a ++ bs ++ drop (Z.to_nat start + length bs) a.

(** The JNI bounds check of the array region functions. *)
Definition region_ok (a : list jbyte) (start len : Z) : bool :=
  bool_decide (0 <= start ∧ 0 <= len ∧ start + len <= Z.of_nat (length a)).

(** [SetByteArrayRegion(array, start, len, buf)]: copies [len] bytes from
    the native buffer into the Java array; a region outside the array
    raises ArrayIndexOutOfBoundsException and copies nothing. *)
Definition SetByteArrayRegion (array : jobject) (start len : Z)
    (buf : option (list jbyte)) : M unit :=
  emit (EvSetByteArrayRegion array start len);;
  match array with
  | JByteArray r =>
      h ← gets jheap;
      match h !! r with
      | None => die WildPointer
      | Some a =>
          if negb (region_ok a start len) then
            modify (set_pending (Some ArrayIndexOutOfBounds))
          else if len =? 0 then mret tt
          else match buf with
               | None => die WildPointer
               | Some mem =>
                   if bool_decide (len <= Z.of_nat (length mem)) then
                     modify (set_jheap
                       (<[r := splice a start (take (Z.to_nat len) mem)]> h))
                   else die NativeOutOfBounds
               end
      end
  | _ => die WildPointer
  end.

(** [GetByteArrayRegion(array, start, len, buf)]: copies [len] bytes of the
    Java array into the native buffer, whose new contents are returned. *)
Definition GetByteArrayRegion (array : jobject) (start len : Z)
    (buf : option (list jbyte)) : M (option (list jbyte)) :=
  emit (EvGetByteArrayRegion array start len);;
  match array with
  | JByteArray r =>
      h ← gets jheap;
      match h !! r with
      | None => die WildPointer
      | Some a =>
          if negb (region_ok a start len) then
            modify (set_pending (Some ArrayIndexOutOfBounds));; mret buf
          else if len =? 0 then mret buf
          else match buf with
               | None => die WildPointer
               | Some mem =>
                   if bool_decide (len <= Z.of_nat (length mem)) then
                     mret (Some (take (Z.to_nat len) (drop (Z.to_nat start) a)
                                 ++ drop (Z.to_nat len) mem))
                   else die NativeOutOfBounds
               end
      end
  | _ => die WildPointer
  end.

Definition GetArrayLength (array : jobject) : M Z :=
  match array with
  | JByteArray r =>
      h ← gets jheap;
      match h !! r with
      | Some a => mret (Z.of_nat (length a))
      | None => die WildPointer
      end
  | _ => die WildPointer
  end.

(** [NewObjectArray(n, Object, 0)]: [n] null elements; a negative [n]
    raises NegativeArraySizeException and yields NULL. *)
Definition NewObjectArray (n : Z) : M jobject :=
  if n <? 0 then modify (set_pending (Some NegativeArraySize));; mret JNull
  else mret (JObjectArray (replicate (Z.to_nat n) JNull)).

(** [SetObjectArrayElement(array, i, v)]; the array is local to the caller
    until it is handed to the callback, so the updated array is returned. *)
Definition SetObjectArrayElement (array : jobject) (i : Z) (v : jobject) : M jobject :=
  match array with
  | JObjectArray l =>
      if bool_decide (0 <= i < Z.of_nat (length l)) then
        mret (JObjectArray (<[Z.to_nat i := v]> l))
      else modify (set_pending (Some ArrayIndexOutOfBounds));; mret array
  | _ => die WildPointer
  end.

(** [Integer.valueOf] and [Long.valueOf] through [CallStaticObjectMethod]:
    the variadic argument is read at the width of the Java parameter. *)
Definition Integer_valueOf (x : Z) : jobject := JInteger (to_jint x).
Definition Long_valueOf (x : Z) : jobject := JLong (to_jlong x).

(** ** C strings *)

Definition NUL : ascii := Ascii.zero.

(** [strlen]: the number of chars before the first NUL, [None] when the
    readable memory ends before one is found. *)
Fixpoint strlen (mem : list ascii) : option nat :=
  match mem with
  | [] => None
  | c :: mem' => if decide (c = NUL) then Some 0%nat else S <$> strlen mem'
  end.

(** The C string at the start of [mem], without its terminator. *)
Definition c_str (mem : list ascii) : option (list ascii) :=
  n ← strlen mem; Some (take n mem).

(** [NewStringUTF]: NULL gives NULL. *)
Definition NewStringUTF (p : native_ptr) : M jobject :=
  match p with
  | PNull => mret JNull
  | PChars mem =>
      match c_str mem with
      | Some cs => mret (JString (string_of_list_ascii cs))
      | None => die NativeOutOfBounds
      end
  | PStat _ => die WildPointer
  end.

(** ** FileRequest *)

(** [new jbyte[n]]: a negative size cannot be allocated. The memory is not
    initialised. *)
Definition new_jbytes (n : Z) : M nbuf :=
  if n <? 0 then die BadAlloc
  else f ← gets uninit;
       mret {| nb_size := n; nb_mem := f <$> seqZ 0 n |}.

Definition deref_request (p : Z) : M FileRequest :=
  r ← gets (fun w => requests w !! p);
  match r with
  | Some req => mret req
  | None => die WildPointer
  end.

Definition deref_callbacks (p : Z) : M FileCallbacks :=
  r ← gets (fun w => callbacks w !! p);
  match r with
  | Some cb => mret cb
  | None => die WildPointer
  end.

(** [FileRequest::FileRequest]; the result is the address of the object. *)
Definition FileRequest_new (cb_ptr : Z) (id : Z) (read_buffer : jobject)
    (byte_array_size : Z) (offset : Z) : M Z :=
  byte_array ← (if 0 <? byte_array_size
                then b ← new_jbytes byte_array_size; mret (Some b)
                else mret None);
  rb ← (match read_buffer with
        | JNull => mret JNull
        | o => NewGlobalRef o
        end);
  p ← gets brk;
  modify (fun w => set_brk (p + 1) (set_requests
    (<[p := {| _callback_ptr := cb_ptr; _callback_id := id;
               _read_buffer_offset := offset; _read_buffer := rb;
               _byte_array := byte_array |}]> (requests w)) w));;
  mret p.

(** [FileRequest::~FileRequest], run by [delete(request)]. *)
Definition FileRequest_delete (p : Z) : M unit :=
  req ← deref_request p;
  (match _read_buffer req with
   | JNull => mret tt
   | o => DeleteGlobalRef o
   end);;
  modify (fun w => set_requests (delete p (requests w)) w);;
  emit (EvDeleteRequest p).

(** [FileRequest::get_array_region_from_bytes] (the spec's commitOut). *)
Definition get_array_region_from_bytes (p : Z) (len : Z) : M jobject :=
  req ← deref_request p;
  SetByteArrayRegion (_read_buffer req) (to_jsize (_read_buffer_offset req)) len
    (nb_mem <$> _byte_array req);;
  mret (_read_buffer req).

(** [FileRequest::get_bytes_from_array_region] (the spec's stageIn). *)
Definition get_bytes_from_array_region (p : Z) (data : jobject)
    (length offset : Z) : M (option nbuf) :=
  req ← deref_request p;
  mem ← GetByteArrayRegion data offset length (nb_mem <$> _byte_array req);
  let byte_array :=
    match _byte_array req, mem with
    | Some b, Some m => Some {| nb_size := nb_size b; nb_mem := m |}
    | ba, _ => ba
    end in
  modify (fun w => set_requests
    (<[p := {| _callback_ptr := _callback_ptr req;
               _callback_id := _callback_id req;
               _read_buffer_offset := _read_buffer_offset req;
               _read_buffer := _read_buffer req;
               _byte_array := byte_array |}]> (requests w)) w);;
  mret byte_array.

Definition new_request (cb_ptr : Z) (id : Z) (read_buffer : jobject)
    (byte_array_size : Z) (offset : Z) : M Z :=
  FileRequest_new cb_ptr id read_buffer byte_array_size offset.

Definition new_request0 (cb_ptr : Z) (id : Z) : M Z :=
  new_request cb_ptr id JNull 0 0.

(** ** FileCallbacks *)

(** [FileCallbacks::build_stats]. The integer arguments of NewObject are
    read at the width the constructor signature gives them; the timestamps
    are multiplied in [time_t] (64 bits). *)
Definition build_stats (b : build) (ptr : option uv_statbuf_t) : jobject :=
  match ptr with
  | Some sb =>
      let blksize := if posix b then to_jint (st_blksize sb) else 0 in
      let blocks := if posix b then to_jlong (st_blocks sb) else 0 in
      JStats {| stats_dev := to_jint (st_dev sb);
                stats_ino := to_jint (st_ino sb);
                stats_mode := to_jint (st_mode sb);
                stats_nlink := to_jint (st_nlink sb);
                stats_uid := to_jint (st_uid sb);
                stats_gid := to_jint (st_gid sb);
                stats_rdev := to_jint (st_rdev sb);
                stats_size := to_jlong (st_size sb);
                stats_blksize := blksize;
                stats_blocks := blocks;
                stats_atime := to_jlong (st_atime sb * 1000);
                stats_mtime := to_jlong (st_mtime sb * 1000);
                stats_ctime := to_jlong (st_ctime sb * 1000) |}
  | None => JNull
  end.

(** [static_cast<uv_statbuf_t*>(ptr)]. *)
Definition as_statbuf (p : native_ptr) : M (option uv_statbuf_t) :=
  match p with
  | PNull => mret None
  | PStat sb => mret (Some sb)
  | PChars _ => die WildPointer
  end.

Definition is_null (o : jobject) : bool :=
  match o with JNull => true | _ => false end.

(** [_env->CallVoidMethod(_instance, _callback_1arg_mid, ...)]. *)
Definition callback_1arg (this : Z) (ty : uv_fs_type) (id : Z) (arg : jobject) : M unit :=
  cb ← deref_callbacks this;
  emit (EvCallback1 (_instance cb) ty id arg).

(** [_env->CallVoidMethod(_instance, _callback_narg_mid, ...)]. *)
Definition callback_narg (this : Z) (ty : uv_fs_type) (id : Z) (args : jobject) : M unit :=
  cb ← deref_callbacks this;
  emit (EvCallbackN (_instance cb) ty id args).

(** [namebuf += strlen(namebuf) + 1] (and the assertion of the debug
    build): the cursor moves past the name and its terminator. *)
Definition next_name (b : build) (namebuf : native_ptr) : M native_ptr :=
  match namebuf with
  | PChars mem =>
      match strlen mem with
      | None => die NativeOutOfBounds
      | Some n =>
          if ndebug b then mret (PChars (drop (n + 1)%nat mem))
          else
            let mem1 := drop n mem in
            assert b (bool_decide (head mem1 = Some NUL)) "*namebuf == 0";;
            mret (PChars (drop 1%nat mem1))
      end
  | _ => die WildPointer
  end.

(** [for (int i = 0; i < nnames; i++) { ... }] of the readdir branches,
    with [todo] turns left; yields the array and the final cursor. *)
Fixpoint name_loop (b : build) (todo : nat) (i : Z) (namebuf : native_ptr)
    (names : jobject) : M (jobject * native_ptr) :=
  match todo with
  | O => mret (names, namebuf)
  | S todo' =>
      name ← NewStringUTF namebuf;
      names' ← SetObjectArrayElement names i name;
      namebuf' ← next_name b namebuf;
      name_loop b todo' (i + 1) namebuf' names'
  end.

(** The switch of the success overload: [Some arg] falls through to the
    single-argument call, [None] has returned from [fs_cb]. *)
Definition fs_cb_switch (b : build) (this : Z) (request : Z) (callback_id : Z)
    (ty : uv_fs_type) (result : Z) (ptr : native_ptr) : M (option jobject) :=
  match ty with
  | UV_FS_CLOSE | UV_FS_RENAME | UV_FS_UNLINK | UV_FS_RMDIR | UV_FS_MKDIR
  | UV_FS_FTRUNCATE | UV_FS_FSYNC | UV_FS_FDATASYNC | UV_FS_LINK
  | UV_FS_SYMLINK | UV_FS_CHMOD | UV_FS_FCHMOD | UV_FS_CHOWN | UV_FS_FCHOWN =>
      mret (Some JNull)
  | UV_FS_OPEN =>
      mret (Some (Integer_valueOf result))
  | UV_FS_UTIME | UV_FS_FUTIME | UV_FS_WRITE =>
      mret (Some (Long_valueOf result))
  | UV_FS_READ =>
      args ← NewObjectArray 2;
      assert b (negb (is_null args)) "args";;
      let bytesRead := Long_valueOf result in
      args ← SetObjectArrayElement args 0 bytesRead;
      buffer ← get_array_region_from_bytes request (to_jsize result);
      args ← SetObjectArrayElement args 1 buffer;
      callback_narg this ty callback_id args;;
      mret None
  | UV_FS_STAT | UV_FS_LSTAT | UV_FS_FSTAT =>
      sb ← as_statbuf ptr;
      mret (Some (build_stats b sb))
  | UV_FS_READLINK =>
      link ← NewStringUTF ptr;
      mret (Some link)
  | UV_FS_READDIR =>
      let nnames := to_jint result in
      names ← NewObjectArray nnames;
      '(names, _) ← name_loop b (Z.to_nat nnames) 0 ptr names;
      callback_narg this ty callback_id names;;
      mret None
  | UV_FS_SENDFILE =>
      (* default: *)
      assert b false "Unhandled eio response";;
      mret (Some JIndeterminate)
  end.

(** [FileCallbacks::fs_cb(request, fs_type, ssize_t result, void* ptr)]. *)
Definition fs_cb (b : build) (this : Z) (request : Z) (ty : uv_fs_type)
    (result : Z) (ptr : native_ptr) : M unit :=
  req ← deref_request request;
  let callback_id := _callback_id req in
  arg ← fs_cb_switch b this request callback_id ty result ptr;
  match arg with
  | Some arg => callback_1arg this ty callback_id arg
  | None => mret tt
  end.

(** Modelled from the spec: [NewException] is declared in throw.h, which is
    not part of the sources; the error object is represented by the
    arguments it is built from (native error code, system call name,
    message, path). *)
Definition NewException (errorno : Z) (syscall message path : option string) : jobject :=
  JException errorno syscall message path.

(** Modelled from the spec: [ThrowException] of throw.h raises the same
    object as a pending Java exception. *)
Definition ThrowException (errorno : Z) (syscall message path : option string) : M unit :=
  modify (set_pending (Some (Thrown errorno syscall message path))).

(** [FileCallbacks::fs_cb(request, fs_type, int errorno, const char* path)]. *)
Definition fs_cb_error (b : build) (this : Z) (request : Z) (ty : uv_fs_type)
    (errorno : Z) (path : option string) : M unit :=
  req ← deref_request request;
  let callback_id := _callback_id req in
  let error := Integer_valueOf (-1) in
  let exception := NewException errorno None None path in
  args ← NewObjectArray 2;
  assert b (negb (is_null args)) "args";;
  args ← SetObjectArrayElement args 0 error;
  args ← SetObjectArrayElement args 1 exception;
  callback_narg this ty callback_id args.

(** The completion hook [_fs_cb(uv_fs_t* req)]. *)
Definition _fs_cb (b : build) (req : uv_fs_t) : M unit :=
  assert b (negb (data req =? 0)) "req->data";;
  request ← deref_request (data req);
  assert b (negb (_callback_ptr request =? 0)) "request->get_callback_ptr()";;
  let cb := _callback_ptr request in
  (if result req =? -1
   then fs_cb_error b cb (data req) (fs_type req) (errorno req) (path req)
   else fs_cb b cb (data req) (fs_type req) (result req) (ptr req));;
  emit EvReqCleanup;;
  FileRequest_delete (data req).

(** ** The native engine, as seen from the entry points *)

(** An asynchronous [uv_fs_<ty>(loop, req, ..., _fs_cb)] with
    [req->data = data]: the engine is handed the buffer and the length, and
    answers the submission with [r]. *)
Definition uv_submit (ty : uv_fs_type) (data : Z) (buf : option nbuf)
    (len : Z) (r : Z) : M Z :=
  emit (EvSubmit ty data buf len);;
  mret r.

(** What a blocking [uv_fs_<ty>(loop, &req, ..., NULL)] leaves behind. *)
Record uv_sync := {
  sy_r : Z;                    (* the return value *)
  sy_result : Z;               (* req.result *)
  sy_ptr : native_ptr;         (* req.ptr *)
  sy_code : Z;                 (* uv_last_error(loop).code *)
  sy_mem : list jbyte          (* the bytes the engine stores at the I/O buffer *)
}.

(** The engine stores [bytes] at the start of the buffer [b]; the rest of
    the buffer keeps its contents. Storing more than the [nb_size] bytes of
    the allocation runs past its end. *)
Definition engine_write (b : nbuf) (bytes : list jbyte) : option nbuf :=
  if bool_decide (Z.of_nat (length bytes) <= nb_size b)
  then Some {| nb_size := nb_size b;
               nb_mem := bytes ++ drop (length bytes) (nb_mem b) |}
  else None.

(** ** Entry points of net.java.libuv.handles.Files *)

(** [_read]: [engine] is the blocking read, given the transient buffer, in
    which it stores the bytes it has read before the copy into the Java
    array; [r] is the answer to the asynchronous submission. *)
Definition Files__read (b : build) (loop_ptr : Z) (buffer : jobject)
    (length offset position : Z) (callback : Z) (callback_ptr : Z)
    (r : Z) (engine : nbuf -> uv_sync) : M Z :=
  assert b (negb (loop_ptr =? 0)) "loop_ptr";;
  if negb (callback =? 0) then
    let buffer_size := to_jlong (length - offset) in
    request ← new_request callback_ptr callback buffer buffer_size offset;
    req ← deref_request request;
    uv_submit UV_FS_READ request (_byte_array req) length r
  else
    base ← new_jbytes (to_jlong (length - offset));
    let done := engine base in
    base ← (match engine_write base (sy_mem done) with
            | Some filled => mret filled
            | None => die NativeOutOfBounds
            end);
    SetByteArrayRegion buffer (to_jsize offset) (to_jsize length) (Some (nb_mem base));;
    emit EvReqCleanup;;
    (if sy_r done <? 0
     then ThrowException (sy_code done) (Some "uv_fs_read") None None
     else mret tt);;
    mret (sy_r done).

(** [_write]. *)
Definition Files__write (b : build) (loop_ptr : Z) (data : jobject)
    (length offset position : Z) (callback : Z) (callback_ptr : Z)
    (r : Z) (engine : nbuf -> uv_sync) : M Z :=
  assert b (negb (loop_ptr =? 0)) "loop_ptr";;
  if negb (callback =? 0) then
    buffer_size ← GetArrayLength data;
    request ← new_request callback_ptr callback JNull buffer_size 0;
    base ← get_bytes_from_array_region request data
              (to_jsize (buffer_size - offset)) (to_jsize offset);
    uv_submit UV_FS_WRITE request base length r
  else
    buffer_size ← GetArrayLength data;
    base ← new_jbytes buffer_size;
    mem ← GetByteArrayRegion data (to_jsize offset)
            (to_jsize (buffer_size - offset)) (Some (nb_mem base));
    let done := engine {| nb_size := nb_size base;
                          nb_mem := default [] mem |} in
    emit EvReqCleanup;;
    (if sy_r done <? 0
     then ThrowException (sy_code done) (Some "uv_fs_write") None None
     else mret tt);;
    mret (sy_r done).

(** [_sendfile]. *)
Definition Files__sendfile (b : build) (loop_ptr : Z)
    (offset length : Z) (callback : Z) (callback_ptr : Z)
    (r : Z) (done : uv_sync) : M Z :=
  assert b (negb (loop_ptr =? 0)) "loop_ptr";;
  if negb (callback =? 0) then
    request ← new_request0 callback_ptr callback;
    uv_submit UV_FS_SENDFILE request None length r
  else
    emit EvReqCleanup;;
    (if sy_r done <? 0
     then ThrowException (sy_code done) (Some "uv_fs_sendfile") None None
     else mret tt);;
    mret (sy_r done).

(** The three status entry points differ in the engine call, the name given
    to the exception and whether a path is attached to it. *)
Definition stat_entry (ty : uv_fs_type) (syscall : string) (cpath : option string)
    (b : build) (loop_ptr : Z) (callback : Z) (callback_ptr : Z)
    (done : uv_sync) : M jobject :=
  assert b (negb (loop_ptr =? 0)) "loop_ptr";;
  if negb (callback =? 0) then
    request ← new_request0 callback_ptr callback;
    uv_submit ty request None 0 0;;
    mret JNull
  else
    sb ← as_statbuf (sy_ptr done);
    let stats := build_stats b sb in
    emit EvReqCleanup;;
    (if sy_r done <? 0
     then ThrowException (sy_code done) (Some syscall) None cpath
     else mret tt);;
    mret stats.

(** [_stat]. *)
Definition Files__stat (cpath : string) :=
  stat_entry UV_FS_STAT "uv_fs_stat" (Some cpath).

(** [_lstat]. *)
Definition Files__lstat (cpath : string) :=
  stat_entry UV_FS_LSTAT "uv_fs_lstat" (Some cpath).


(** [_readdir]. *)
Definition Files__readdir (b : build) (loop_ptr : Z) (cpath : string)
    (callback : Z) (callback_ptr : Z) (done : uv_sync) : M jobject :=
  assert b (negb (loop_ptr =? 0)) "loop_ptr";;
  if negb (callback =? 0) then
    request ← new_request0 callback_ptr callback;
    uv_submit UV_FS_READDIR request None 0 0;;
    mret JNull
  else
    names ← (if 0 <=? sy_r done then
               let nnames := to_jint (sy_result done) in
               names ← NewObjectArray nnames;
               '(names, _) ← name_loop b (Z.to_nat nnames) 0 (sy_ptr done) names;
               mret names
             else
               ThrowException (sy_code done) (Some "uv_fs_readdir") None (Some cpath);;
               mret JNull);
    emit EvReqCleanup;;
    mret names.

(** The entry points that return the engine's status ([_close], [_unlink],
    [_mkdir], [_rmdir], [_rename], [_fsync], [_fdatasync], [_ftruncate],
    [_chmod], [_utime], [_futime], [_link], [_symlink], [_fchmod], [_chown],
    [_fchown]) share one body; they differ in the engine call, the name
    given to the exception and the path attached to it. The arguments that
    only travel to the engine (descriptor, mode, times, ...) are left out.
    [r] answers the asynchronous submission, [done] is what the blocking
    call leaves. *)
Definition status_entry (ty : uv_fs_type) (syscall : string) (cpath : option string)
    (b : build) (loop_ptr : Z) (callback : Z) (callback_ptr : Z)
    (r : Z) (done : uv_sync) : M Z :=
  assert b (negb (loop_ptr =? 0)) "loop_ptr";;
  if negb (callback =? 0) then
    request ← new_request0 callback_ptr callback;
    uv_submit ty request None 0 r
  else
    emit EvReqCleanup;;
    (if sy_r done <? 0
     then ThrowException (sy_code done) (Some syscall) None cpath
     else mret tt);;
    mret (sy_r done).

Definition Files__close := status_entry UV_FS_CLOSE "uv_fs_close" None.
Definition Files__unlink (cpath : string) :=
  status_entry UV_FS_UNLINK "uv_fs_unlink" (Some cpath).
Definition Files__mkdir (cpath : string) :=
  status_entry UV_FS_MKDIR "uv_fs_mkdir" (Some cpath).
Definition Files__rmdir (cpath : string) :=
  status_entry UV_FS_RMDIR "uv_fs_rmdir" (Some cpath).
Definition Files__rename (src_path dst_path : string) :=
  status_entry UV_FS_RENAME "uv_fs_rename" (Some src_path).
Definition Files__fsync := status_entry UV_FS_FSYNC "uv_fs_fsync" None.
Definition Files__fdatasync := status_entry UV_FS_FDATASYNC "uv_fs_fdatasync" None.
Definition Files__ftruncate := status_entry UV_FS_FTRUNCATE "uv_fs_ftruncate" None.
Definition Files__chmod (cpath : string) :=
  status_entry UV_FS_CHMOD "uv_fs_chmod" (Some cpath).
Definition Files__utime (cpath : string) :=
  status_entry UV_FS_UTIME "uv_fs_utime" (Some cpath).
Definition Files__futime := status_entry UV_FS_FUTIME "uv_fs_futime" None.
Definition Files__link (src_path dst_path : string) :=
  status_entry UV_FS_LINK "uv_fs_link" (Some src_path).
Definition Files__symlink (src_path dst_path : string) :=
  status_entry UV_FS_SYMLINK "uv_fs_symlink" (Some src_path).
Definition Files__fchmod := status_entry UV_FS_FCHMOD "uv_fs_fchmod" None.
Definition Files__chown (cpath : string) :=
  status_entry UV_FS_CHOWN "uv_fs_chown" (Some cpath).
Definition Files__fchown := status_entry UV_FS_FCHOWN "uv_fs_fchown" None.

(** [_open]: the blocking branch tests [fd == -1]. *)
Definition Files__open (b : build) (loop_ptr : Z) (cpath : string)
    (callback : Z) (callback_ptr : Z) (r : Z) (done : uv_sync) : M Z :=
  assert b (negb (loop_ptr =? 0)) "loop_ptr";;
  if negb (callback =? 0) then
    request ← new_request0 callback_ptr callback;
    uv_submit UV_FS_OPEN request None 0 r
  else
    emit EvReqCleanup;;
    (if sy_r done =? -1
     then ThrowException (sy_code done) (Some "uv_fs_open") None (Some cpath)
     else mret tt);;
    mret (sy_r done).

(** [_readlink]. *)
Definition Files__readlink (b : build) (loop_ptr : Z) (cpath : string)
    (callback : Z) (callback_ptr : Z) (done : uv_sync) : M jobject :=
  assert b (negb (loop_ptr =? 0)) "loop_ptr";;
  if negb (callback =? 0) then
    request ← new_request0 callback_ptr callback;
    uv_submit UV_FS_READLINK request None 0 0;;
    mret JNull
  else
    link ← NewStringUTF (sy_ptr done);
    emit EvReqCleanup;;
    (if sy_r done <? 0
     then ThrowException (sy_code done) (Some "uv_fs_readklink") None (Some cpath)
     else mret tt);;
    mret link.

(** ** snprintf *)

Definition digit (d : Z) : ascii := ascii_of_nat (48 + Z.to_nat d).

(** The decimal digits of [n >= 0], most significant first, in front of
    [acc]; [fuel] bounds the number of digits. *)
Fixpoint digits (fuel : nat) (n : Z) (acc : list ascii) : list ascii :=
  match fuel with
  | O => acc
  | S fuel' =>
      let acc' := digit (n mod 10) :: acc in
      if n <? 10 then acc' else digits fuel' (n / 10) acc'
  end.

(** What [%d] prints for an [int]. *)
Definition decimal (x : Z) : list ascii :=
  if x <? 0 then "-"%char :: digits 20 (- x) [] else digits 20 x [].

(** [snprintf(buf, size, ...)]: at most [size - 1] chars are stored, before
    the terminator. *)
Definition snprintf (size : Z) (text : list ascii) : list ascii :=
  take (Z.to_nat (size - 1)) text.

(** [sizeof("/proc/self/fd/") + 3 * sizeof(int)], with the terminator of
    the literal and a four-byte [int]. *)
Definition proc_path_size : Z := 15 + 3 * 4.

Definition proc_path (fd : Z) : list ascii :=
  snprintf proc_path_size (list_ascii_of_string "/proc/self/fd/" ++ decimal fd).

(** [_get_path], the POSIX branch: [engine] is the blocking readlink, given
    the path it is asked to resolve. *)
Definition Files__get_1path (b : build) (loop_ptr : Z) (fd : Z)
    (engine : list ascii -> uv_sync) : M jobject :=
  assert b (negb (loop_ptr =? 0)) "loop_ptr";;
  let done := engine (proc_path fd) in
  path ← NewStringUTF (sy_ptr done);
  emit EvReqCleanup;;
  if sy_r done <? 0
  then ThrowException (sy_code done) (Some "uv_fs_readlink") None None;;
       mret JNull
  else mret path.

(** * Definitions used by the statements *)

(** ** Worlds reached by the pieces of the bridge *)

Definition world_of {A} (o : outcome A) : world :=
  match o with Ret _ w => w | Crashed _ w => w end.

(** The bytes of a scratch buffer; none when it is NULL. *)
Definition mem_of (o : option nbuf) : list jbyte := from_option nb_mem [] o.

(** The world after [~FileRequest]: the global reference on the destination
    buffer, if there is one, has been given back. *)
Definition released (rq : FileRequest) (w : world) : world :=
  match _read_buffer rq with
  | JByteArray r =>
      push (EvDeleteGlobalRef r)
        (set_grefs (<[r := Nat.pred (gref_count w r)]> (grefs w)) w)
  | _ => w
  end.

(** The world after [delete(request)]. *)
Definition disposed (p : Z) (rq : FileRequest) (w : world) : world :=
  let w' := released rq w in
  push (EvDeleteRequest p) (set_requests (delete p (requests w')) w').

(** The events of a disposal. *)
Definition dispose_events (p : Z) (rq : FileRequest) : list event :=
  match _read_buffer rq with
  | JByteArray r => [EvDeleteGlobalRef r; EvDeleteRequest p]
  | _ => [EvDeleteRequest p]
  end.

(** The world after [NewGlobalRef] on the destination buffer, if any. *)
Definition retained (read_buffer : jobject) (w : world) : world :=
  match read_buffer with
  | JByteArray r =>
      push (EvNewGlobalRef r) (set_grefs (<[r := S (gref_count w r)]> (grefs w)) w)
  | _ => w
  end.

(** The scratch buffer the constructor allocates. *)
Definition scratch_of (w : world) (byte_array_size : Z) : option nbuf :=
  if 0 <? byte_array_size
  then Some {| nb_size := byte_array_size;
               nb_mem := uninit w <$> seqZ 0 byte_array_size |}
  else None.

Definition request_of (w : world) (cb_ptr id : Z) (read_buffer : jobject)
    (byte_array_size offset : Z) : FileRequest :=
  {| _callback_ptr := cb_ptr; _callback_id := id;
     _read_buffer_offset := offset; _read_buffer := read_buffer;
     _byte_array := scratch_of w byte_array_size |}.

(** The world after [new_request]. *)
Definition created (rq : FileRequest) (w : world) : world :=
  let w1 := retained (_read_buffer rq) w in
  set_brk (brk w + 1) (set_requests (<[brk w := rq]> (requests w1)) w1).

(** The request with its scratch bytes replaced. *)
Definition with_scratch (rq : FileRequest) (byte_array : option nbuf) : FileRequest :=
  {| _callback_ptr := _callback_ptr rq; _callback_id := _callback_id rq;
     _read_buffer_offset := _read_buffer_offset rq;
     _read_buffer := _read_buffer rq; _byte_array := byte_array |}.

Definition refill (f : list jbyte -> list jbyte) (o : option nbuf) : option nbuf :=
  match o with
  | Some b => Some {| nb_size := nb_size b; nb_mem := f (nb_mem b) |}
  | None => None
  end.

(** ** Predicates of the statements *)

(** The three timestamps of the Stats object built from [sb] are the native
    ones times 1000. *)
Definition timestamps_exact (b : build) (sb : uv_statbuf_t) : Prop :=
  exists s, build_stats b (Some sb) = JStats s /\
    stats_atime s = st_atime sb * 1000 /\
    stats_mtime s = st_mtime sb * 1000 /\
    stats_ctime s = st_ctime sb * 1000.

Definition nul_free (s : list ascii) : Prop := Forall (fun c => c <> NUL) s.

(** The native name list: every name followed by its terminator. *)
Definition name_buffer (names : list (list ascii)) : list ascii :=
  mjoin ((fun s => s ++ [NUL]) <$> names).

Definition jstring_of (s : list ascii) : jobject := JString (string_of_list_ascii s).

Definition is_callback (e : event) : bool :=
  match e with
  | EvCallback1 _ _ _ _ | EvCallbackN _ _ _ _ => true
  | _ => false
  end.

(** The calls made on the managed receiver, oldest first. *)
Definition callbacks_made (tr : list event) : list event :=
  List.filter is_callback tr.

(** The failure shape of an array-valued call: the first element is an
    Integer. *)
Definition error_args (args : jobject) : bool :=
  match args with
  | JObjectArray (JInteger _ :: _) => true
  | _ => false
  end.

Definition error_shaped (e : event) : bool :=
  match e with
  | EvCallbackN _ _ _ args => error_args args
  | _ => false
  end.

(** An array of names, as the readdir branches build it. *)
Definition is_name (o : jobject) : bool :=
  match o with JNull | JString _ => true | _ => false end.

Definition name_array (o : jobject) : Prop :=
  match o with
  | JNull => True
  | JObjectArray l => Forall (fun e => is_name e = true) l
  | _ => False
  end.

Definition any {A} : A -> Prop := fun _ => True.

(** [emits P m R]: whatever [m] does, crash included, it only appends
    events satisfying [P] to the trace; a value it returns satisfies [R]. *)
Definition emits (P : event -> Prop) {A} (m : M A) (R : A -> Prop) : Prop :=
  forall w,
    (exists evs, trace (world_of (m w)) = trace w ++ evs /\ Forall P evs) /\
    (forall a w', m w = Ret a w' -> R a).

Definition top : event -> Prop := fun _ => True.

(** [starts_at e m w]: run from [w], the first thing [m] adds to the trace
    is [e]. *)
Definition starts_at {A} (e : event) (m : M A) (w : world) : Prop :=
  exists rest, trace (world_of (m w)) = trace w ++ e :: rest.

(** The kinds whose success value needs neither the request nor [req->ptr]. *)
Definition simple_arg (ty : uv_fs_type) (n : Z) : option jobject :=
  match ty with
  | UV_FS_CLOSE | UV_FS_RENAME | UV_FS_UNLINK | UV_FS_RMDIR | UV_FS_MKDIR
  | UV_FS_FTRUNCATE | UV_FS_FSYNC | UV_FS_FDATASYNC | UV_FS_LINK
  | UV_FS_SYMLINK | UV_FS_CHMOD | UV_FS_FCHMOD | UV_FS_CHOWN | UV_FS_FCHOWN =>
      Some JNull
  | UV_FS_OPEN => Some (Integer_valueOf n)
  | UV_FS_UTIME | UV_FS_FUTIME | UV_FS_WRITE => Some (Long_valueOf n)
  | _ => None
  end.

(** What matters of an event for the exactly-once discipline. *)
Inductive mark := Called | Disposed.

Definition mark_of (e : event) : option mark :=
  match e with
  | EvCallback1 _ _ _ _ | EvCallbackN _ _ _ _ => Some Called
  | EvDeleteRequest _ => Some Disposed
  | _ => None
  end.

Definition marks (evs : list event) : list mark := omap mark_of evs.

(** [yields m Q]: when [m] returns [a], the marks [l] of the events it has
    appended to the trace satisfy [Q a l]. *)
Definition yields {A} (m : M A) (Q : A -> list mark -> Prop) : Prop :=
  forall w a w', m w = Ret a w' ->
    exists evs, trace w' = trace w ++ evs /\ Q a (marks evs).

Definition silent {A} : A -> list mark -> Prop := fun _ l => l = [].

(** The success switch either leaves the call to its caller or has made it. *)
Definition switch_post (arg : option jobject) (l : list mark) : Prop :=
  match arg with
  | Some _ => l = []
  | None => l = [Called]
  end.

(** [after] is [before] with exactly [n] bytes of [src], taken from index
    [offset], placed at its start. *)
Definition staged (src : list jbyte) (n offset : Z) (before after : list jbyte) : Prop :=
  after = take (Z.to_nat n) (drop (Z.to_nat offset) src) ++ drop (Z.to_nat n) before.

(** The destination [dst] holds the first [n] bytes of [scratch] at index
    [offset]: what the spec's commitOut(n) is to leave behind. *)
Definition committed (dst : list jbyte) (offset n : Z) (scratch : list jbyte) : Prop :=
  take (Z.to_nat n) (drop (Z.to_nat offset) dst) = take (Z.to_nat n) scratch.

(** The size the scratch buffer of a request was allocated with, and what
    the constructor establishes: that many bytes are readable there. *)
Definition scratch_size (rq : FileRequest) : Z :=
  from_option nb_size 0 (_byte_array rq).

Definition scratch_wf (rq : FileRequest) : Prop :=
  Z.of_nat (length (mem_of (_byte_array rq))) = scratch_size rq.

(** ** Concrete builds, worlds and completions *)

Definition debug_build : build := {| ndebug := false; posix := true |}.
Definition release_build : build := {| ndebug := true; posix := true |}.

Definition world0 : world :=
  {| jheap := ∅; grefs := ∅; pending := None; requests := ∅;
     callbacks := ∅; brk := 1; uninit := fun _ => 0; trace := [] |}.

Definition stat_at (a m c : Z) : uv_statbuf_t :=
  {| st_dev := 0; st_ino := 0; st_mode := 0; st_nlink := 0; st_uid := 0;
     st_gid := 0; st_rdev := 0; st_size := 0; st_blksize := 0; st_blocks := 0;
     st_atime := a; st_mtime := m; st_ctime := c |}.

Definition enoent_stat : uv_sync :=
  {| sy_r := -1; sy_result := -1; sy_ptr := PNull; sy_code := 34; sy_mem := [] |}.

(** A world with one dispatcher (at address 100, bound to the Java object
    7) and one plain request (at address 1, callback id 5). *)
Definition plain_request : FileRequest :=
  {| _callback_ptr := 100; _callback_id := 5; _read_buffer_offset := 0;
     _read_buffer := JNull; _byte_array := None |}.

Definition world1 : world :=
  {| jheap := ∅; grefs := ∅; pending := None;
     requests := {[ 1 := plain_request ]};
     callbacks := {[ 100 := {| _instance := 7%nat |} ]};
     brk := 2; uninit := fun _ => 0; trace := [] |}.

Definition chars (s : string) : list ascii := list_ascii_of_string s.

Definition readdir_ab : uv_sync :=
  {| sy_r := 2; sy_result := 2;
     sy_ptr := PChars (name_buffer [chars "a"; chars "b"] ++ []);
     sy_code := 0; sy_mem := [] |}.

(** An asynchronous open of "missing" that failed with ENOENT (34). *)
Definition open_failed : uv_fs_t :=
  {| fs_type := UV_FS_OPEN; result := -1; errorno := 34;
     path := Some "missing"; ptr := PNull; data := 1 |}.

(** A world in which a read of five bytes into the Java array 3 (five
    zeroes) is in flight; the engine has left "hello" in the scratch. *)
Definition hello : list jbyte := [104; 101; 108; 108; 111].

Definition read_request : FileRequest :=
  {| _callback_ptr := 100; _callback_id := 5; _read_buffer_offset := 0;
     _read_buffer := JByteArray 3%nat;
     _byte_array := Some {| nb_size := 5; nb_mem := hello |} |}.

Definition world_reading : world :=
  {| jheap := {[ 3%nat := [0; 0; 0; 0; 0] ]}; grefs := {[ 3%nat := 1%nat ]};
     pending := None;
     requests := {[ 1 := read_request ]};
     callbacks := {[ 100 := {| _instance := 7%nat |} ]};
     brk := 2; uninit := fun _ => 0; trace := [] |}.

Definition read_done (n : Z) : uv_fs_t :=
  {| fs_type := UV_FS_READ; result := n; errorno := 0; path := None;
     ptr := PNull; data := 1 |}.

(** The same read in flight into the Java array 3 of three bytes only:
    what [_read] sets up for a buffer of three bytes, length 5 and offset 0,
    once the engine has stored "hello" in the scratch of five bytes. *)
Definition world_short_dest : world :=
  {| jheap := {[ 3%nat := [0; 0; 0] ]}; grefs := {[ 3%nat := 1%nat ]};
     pending := None;
     requests := {[ 1 := read_request ]};
     callbacks := {[ 100 := {| _instance := 7%nat |} ]};
     brk := 2; uninit := fun _ => 0; trace := [] |}.

(** A world with the dispatcher of [world1] and nothing in flight. *)
Definition world_idle : world :=
  {| jheap := ∅; grefs := ∅; pending := None; requests := ∅;
     callbacks := {[ 100 := {| _instance := 7%nat |} ]};
     brk := 1; uninit := fun _ => 0; trace := [] |}.

Definition no_sync : uv_sync :=
  {| sy_r := 0; sy_result := 0; sy_ptr := PNull; sy_code := 0; sy_mem := [] |}.

(** The world after [_sendfile] has submitted ten bytes with callback 5. *)
Definition world_sendfile : world :=
  {| jheap := ∅; grefs := ∅; pending := None;
     requests := {[ 1 := plain_request ]};
     callbacks := {[ 100 := {| _instance := 7%nat |} ]};
     brk := 2; uninit := fun _ => 0;
     trace := [EvSubmit UV_FS_SENDFILE 1 None 10] |}.

Definition sendfile_done : uv_fs_t :=
  {| fs_type := UV_FS_SENDFILE; result := 10; errorno := 0; path := None;
     ptr := PNull; data := 1 |}.

(** A world holding the Java array 3 (sixteen zeroes) and the dispatcher. *)
Definition world_buffer : world :=
  {| jheap := {[ 3%nat := replicate 16 0 ]}; grefs := ∅; pending := None;
     requests := ∅;
     callbacks := {[ 100 := {| _instance := 7%nat |} ]};
     brk := 1; uninit := fun _ => 0; trace := [] |}.

Definition six_bytes : nbuf := {| nb_size := 6; nb_mem := replicate 6 0 |}.

(** The world after the read of 10 bytes to offset 4 has been submitted. *)
Definition world_read_submitted : world :=
  {| jheap := {[ 3%nat := replicate 16 0 ]}; grefs := {[ 3%nat := 1%nat ]};
     pending := None;
     requests := {[ 1 := {| _callback_ptr := 100; _callback_id := 5;
                            _read_buffer_offset := 4;
                            _read_buffer := JByteArray 3%nat;
                            _byte_array := Some six_bytes |} ]};
     callbacks := {[ 100 := {| _instance := 7%nat |} ]};
     brk := 2; uninit := fun _ => 0;
     trace := [EvNewGlobalRef 3%nat; EvSubmit UV_FS_READ 1 (Some six_bytes) 10] |}.

(** A world holding the Java array 4 = [1;2;3;4;5]; fresh native memory
    reads as -1. *)
Definition world_source : world :=
  {| jheap := {[ 4%nat := [1; 2; 3; 4; 5] ]}; grefs := ∅; pending := None;
     requests := ∅;
     callbacks := {[ 100 := {| _instance := 7%nat |} ]};
     brk := 1; uninit := fun _ => -1; trace := [] |}.

(** A failed and a short read into the sixteen zeroes of [world_buffer]:
    eight bytes are asked for at offset 0; the engine stores [1..8] in the
    transient buffer and answers -1, respectively 3. *)
Definition failed_read (_ : nbuf) : uv_sync :=
  {| sy_r := -1; sy_result := -1; sy_ptr := PNull; sy_code := 9;
     sy_mem := [1; 2; 3; 4; 5; 6; 7; 8] |}.

Definition short_read (_ : nbuf) : uv_sync :=
  {| sy_r := 3; sy_result := 3; sy_ptr := PNull; sy_code := 0;
     sy_mem := [1; 2; 3; 4; 5; 6; 7; 8] |}.

(** ** Definitions for the properties beyond the claims *)

(** [preserves f m]: whatever [m] does, crash included, it leaves the
    component [f] of the world as it was. *)
Definition preserves {X A} (f : world -> X) (m : M A) : Prop :=
  forall w, f (world_of (m w)) = f w.

(** Whether the request holds its global reference on the Java object [o]. *)
Definition holds_ref (rq : FileRequest) (o : jref) : bool :=
  match _read_buffer rq with
  | JByteArray r => bool_decide (r = o)
  | _ => false
  end.

(** What the disposal of a request does to the requests and to the global
    references, and what a crash of the hook leaves of them. *)
Definition disposal (p : Z) (w : world) (o : outcome unit) : Prop :=
  match o with
  | Ret _ w' =>
      requests w' = delete p (requests w) /\
      forall rq, requests w !! p = Some rq ->
        forall obj, gref_count w' obj =
          if holds_ref rq obj then Nat.pred (gref_count w obj)
          else gref_count w obj
  | Crashed _ w' => requests w' = requests w /\ grefs w' = grefs w
  end.

(** The engine at work on an asynchronous read: it stores [bytes] at the
    scratch buffer of the request at [p]. There is no such world when the
    request or its scratch buffer is missing, or when [bytes] do not fit
    the allocation. *)
Definition engine_fills (p : Z) (bytes : list jbyte) (w : world) : option world :=
  rq ← requests w !! p;
  nb ← _byte_array rq;
  filled ← engine_write nb bytes;
  Some (set_requests (<[p := with_scratch rq (Some filled)]> (requests w)) w).

(** A completion of the request at [p]. *)
Definition completion (ty : uv_fs_type) (n code : Z) (pth : option string)
    (q : native_ptr) (p : Z) : uv_fs_t :=
  {| fs_type := ty; result := n; errorno := code; path := pth; ptr := q;
     data := p |}.

(** The call a completion of a status operation makes on the receiver. *)
Definition status_callback (inst : jref) (ty : uv_fs_type) (id n code : Z)
    (pth : option string) (arg : jobject) : event :=
  if n =? -1
  then EvCallbackN inst ty id
         (JObjectArray [JInteger (-1); NewException code None None pth])
  else EvCallback1 inst ty id arg.



(** [keeps_java m]: whatever [m] does, crash included, the Java arrays and
    the global references are afterwards what they were. *)
Definition keeps_java {A} (m : M A) : Prop :=
  preserves jheap m /\ preserves grefs m.

(** ** Concrete inputs of the properties beyond the claims *)

(** A completion of the read of [world_reading] that the engine failed. *)
Definition read_failed : uv_fs_t := completion UV_FS_READ (-1) 9 None PNull 1.

(** A blocking unlink that failed with ENOENT, and one that succeeded. *)
Definition unlink_failed : uv_sync :=
  {| sy_r := -1; sy_result := -1; sy_ptr := PNull; sy_code := 34; sy_mem := [] |}.

(** A blocking open to which the engine answered -2. *)
Definition open_minus_two : uv_sync :=
  {| sy_r := -2; sy_result := -2; sy_ptr := PNull; sy_code := 34; sy_mem := [] |}.

(** A completion of the read of [world_reading] with 9 bytes, more than
    the five of the destination. *)
Definition read_too_long : uv_fs_t := completion UV_FS_READ 9 0 None PNull 1.





(** The link target "t", followed by its terminator and a stray byte. *)
Definition target_t : native_ptr := PChars (chars "t" ++ NUL :: chars "x").

Definition readlink_sync (r : Z) : uv_sync :=
  {| sy_r := r; sy_result := r; sy_ptr := target_t; sy_code := 34; sy_mem := [] |}.

(** A blocking write that wrote three bytes. *)
Definition wrote_three (_ : nbuf) : uv_sync :=
  {| sy_r := 3; sy_result := 3; sy_ptr := PNull; sy_code := 0; sy_mem := [] |}.

(** A blocking readlink that resolves every name it is given to "t". *)
Definition resolves_to_t (_ : list ascii) : uv_sync := readlink_sync 1.

(** * Properties *)

(** ** Integers *)

Lemma wrap_id (w x : Z) :
  0 < w -> - 2 ^ (w - 1) <= x < 2 ^ (w - 1) -> wrap w x = x.
Proof.
  intros Hw Hx. unfold wrap.
  assert (E : 2 ^ w = 2 * 2 ^ (w - 1)).
  { replace w with (Z.succ (w - 1)) at 1 by lia. apply Z.pow_succ_r. lia. }
  rewrite Z.mod_small; lia.
Qed.

Lemma to_jint_id x : jint_range x -> to_jint x = x.
Proof. intros H. apply wrap_id; [lia | exact H]. Qed.

Lemma to_jlong_id x : jlong_range x -> to_jlong x = x.
Proof. intros H. apply wrap_id; [lia | exact H]. Qed.

Lemma to_jsize_id x : jint_range x -> to_jsize x = x.
Proof. apply to_jint_id. Qed.

(** ** Stat codec *)

(** C7, counterexample: a 64-bit [time_t] of 2^62 seconds is a value the
    field can hold, but its product with 1000 does not fit the Java long of
    the Stats object, so the access time delivered is not that product. *)
Lemma C7_timestamp_overflow :
  jlong_range (2 ^ 62) /\ ~ timestamps_exact debug_build (stat_at (2 ^ 62) 0 0).
Proof.
  split; [unfold jlong_range; lia |].
  intros (s & Hs & Ha & _). inversion Hs; subst s; clear Hs.
  vm_compute in Ha. discriminate.
Qed.

(** C7, amended: whenever the three products fit in 64 bits (which covers
    zero and every negative timestamp down to -2^63/1000), each timestamp
    of the Stats object is exactly the native one times 1000. *)
Theorem C7_timestamps_times_1000 (b : build) (sb : uv_statbuf_t) :
  jlong_range (st_atime sb * 1000) ->
  jlong_range (st_mtime sb * 1000) ->
  jlong_range (st_ctime sb * 1000) ->
  timestamps_exact b sb.
Proof.
  intros Ha Hm Hc. eexists. split; [reflexivity |]. simpl.
  rewrite !to_jlong_id by assumption. auto.
Qed.

Lemma C7_timestamps_witness :
  timestamps_exact debug_build (stat_at 0 (-86400) 1370000000).
Proof.
  apply C7_timestamps_times_1000; unfold jlong_range; simpl; lia.
Defined.

Example stat_pre_epoch :
  build_stats debug_build (Some (stat_at 0 (-86400) 1370000000)) =
  JStats {| stats_dev := 0; stats_ino := 0; stats_mode := 0; stats_nlink := 0;
            stats_uid := 0; stats_gid := 0; stats_rdev := 0; stats_size := 0;
            stats_blksize := 0; stats_blocks := 0; stats_atime := 0;
            stats_mtime := -86400000; stats_ctime := 1370000000000 |}.
Proof. reflexivity. Qed.

(** C8: a null structure pointer is encoded as the null value, without an
    error of the codec's own: [build_stats] gives NULL; a blocking stat,
    lstat or fstat that left [req.ptr] null returns NULL, and the only
    exception pending afterwards is the one the entry point raises after
    the codec has run, when the engine reported a failure; the completion
    hook's stat branches hand NULL to the single-argument callback. *)
Theorem C8_null_stat_is_null (b : build) (ty : uv_fs_type) (syscall : string)
    (cpath : option string) (loop_ptr callback_ptr this request cid r : Z)
    (done : uv_sync) (w : world) :
  loop_ptr <> 0 ->
  sy_ptr done = PNull ->
  build_stats b None = JNull /\
  stat_entry ty syscall cpath b loop_ptr 0 callback_ptr done w =
    Ret JNull
      ((if sy_r done <? 0
        then set_pending (Some (Thrown (sy_code done) (Some syscall) None cpath))
        else id) (push EvReqCleanup w)) /\
  (ty = UV_FS_STAT \/ ty = UV_FS_LSTAT \/ ty = UV_FS_FSTAT ->
   fs_cb_switch b this request cid ty r PNull w = Ret (Some JNull) w).
Proof.
  intros Hloop Hptr. split; [reflexivity |]. split.
  - unfold stat_entry, assert.
    apply Z.eqb_neq in Hloop.
    unfold mbind, M_bind, mret, M_ret. rewrite Hloop, Hptr. simpl.
    destruct (ndebug b); simpl; destruct (sy_r done <? 0); reflexivity.
  - intros [-> | [-> | ->]]; reflexivity.
Qed.

Lemma C8_null_stat_witness :
  build_stats debug_build None = JNull /\
  Files__stat "missing" debug_build 1 0 0 enoent_stat world0 =
    Ret JNull
      (set_pending (Some (Thrown 34 (Some "uv_fs_stat") None (Some "missing")))
         (push EvReqCleanup world0)) /\
  (UV_FS_STAT = UV_FS_STAT \/ UV_FS_STAT = UV_FS_LSTAT \/ UV_FS_STAT = UV_FS_FSTAT ->
   fs_cb_switch debug_build 0 0 0 UV_FS_STAT 0 PNull world0 = Ret (Some JNull) world0).
Proof.
  apply (C8_null_stat_is_null debug_build UV_FS_STAT "uv_fs_stat"
           (Some "missing") 1 0 0 0 0 0 enoent_stat world0); [lia | reflexivity].
Defined.

(** ** Name lists *)

Lemma strlen_name (s tl : list ascii) :
  nul_free s -> strlen (s ++ NUL :: tl) = Some (length s).
Proof.
  induction 1 as [| c s Hc _ IH].
  - reflexivity.
  - cbn [app strlen]. destruct (decide (c = NUL)) as [E | _]; [contradiction |].
    rewrite IH. reflexivity.
Qed.

Lemma c_str_name (s tl : list ascii) :
  nul_free s -> c_str (s ++ NUL :: tl) = Some s.
Proof.
  intros H. unfold c_str. rewrite strlen_name by assumption. simpl.
  rewrite take_app_length. reflexivity.
Qed.

Lemma next_name_name (b : build) (s tl : list ascii) (w : world) :
  nul_free s -> next_name b (PChars (s ++ NUL :: tl)) w = Ret (PChars tl) w.
Proof.
  intros H. unfold next_name, assert. rewrite strlen_name by assumption.
  destruct (ndebug b).
  - rewrite <- drop_drop, drop_app_length. reflexivity.
  - rewrite drop_app_length. reflexivity.
Qed.

Lemma name_loop_names (b : build) (ns : list (list ascii)) :
  forall (pre : list jobject) (rest : list ascii) (w : world),
    Forall nul_free ns ->
    name_loop b (length ns) (Z.of_nat (length pre))
      (PChars (name_buffer ns ++ rest))
      (JObjectArray (pre ++ replicate (length ns) JNull)) w =
    Ret (JObjectArray (pre ++ (jstring_of <$> ns)), PChars rest) w.
Proof.
  induction ns as [| s ns IH]; intros pre rest w Hns.
  - reflexivity.
  - inversion Hns as [| ? ? Hs Hns']; subst.
    unfold name_buffer. rewrite fmap_cons. simpl mjoin.
    fold (name_buffer ns).
    rewrite <- !app_assoc. simpl app.
    cbn [name_loop length replicate].
    unfold mbind at 1, M_bind at 1.
    unfold NewStringUTF. rewrite c_str_name by assumption.
    unfold mret at 1, M_ret at 1.
    unfold mbind at 1, M_bind at 1.
    unfold SetObjectArrayElement.
    rewrite bool_decide_eq_true_2
      by (rewrite length_app; simpl; lia).
    unfold mret at 1, M_ret at 1.
    unfold mbind at 1, M_bind at 1.
    rewrite next_name_name by assumption.
    rewrite Nat2Z.id.
    replace (<[length pre := JString (string_of_list_ascii s)]>
               (pre ++ JNull :: replicate (length ns) JNull))
      with ((pre ++ [jstring_of s]) ++ replicate (length ns) JNull).
    2:{ rewrite <- app_assoc. simpl.
        rewrite insert_app_r_alt by lia.
        rewrite Nat.sub_diag. reflexivity. }
    replace (Z.of_nat (length pre) + 1) with (Z.of_nat (length (pre ++ [jstring_of s])))
      by (rewrite length_app; simpl; lia).
    rewrite IH by assumption.
    rewrite <- app_assoc. reflexivity.
Qed.

Lemma name_loop_from_start (b : build) (ns : list (list ascii))
    (rest : list ascii) (w : world) :
  Forall nul_free ns ->
  name_loop b (length ns) 0 (PChars (name_buffer ns ++ rest))
    (JObjectArray (replicate (length ns) JNull)) w =
  Ret (JObjectArray (jstring_of <$> ns), PChars rest) w.
Proof.
  intros H. exact (name_loop_names b ns [] rest w H).
Qed.

(** C5: a readdir completion with count N over a buffer that starts with N
    NUL-terminated names (followed by anything, or by nothing at all) makes
    the loop run N turns; it leaves the cursor just past the N-th
    terminator, so nothing after it is read, and yields the N names in
    order, which the hook delivers in one array-valued call. The blocking
    entry point builds the same array. *)
Theorem C5_readdir_names (b : build) (this request loop_ptr : Z)
    (rq : FileRequest) (cb : FileCallbacks) (cpath : string)
    (names : list (list ascii)) (rest : list ascii) (done : uv_sync) (w : world) :
  requests w !! request = Some rq ->
  callbacks w !! this = Some cb ->
  Forall nul_free names ->
  Z.of_nat (length names) < 2 ^ 31 ->
  loop_ptr <> 0 ->
  0 <= sy_r done ->
  sy_result done = Z.of_nat (length names) ->
  sy_ptr done = PChars (name_buffer names ++ rest) ->
  let N := Z.of_nat (length names) in
  let buf := PChars (name_buffer names ++ rest) in
  let strings := jstring_of <$> names in
  Z.to_nat (to_jint N) = length names /\
  length strings = length names /\
  name_loop b (Z.to_nat (to_jint N)) 0 buf
    (JObjectArray (replicate (Z.to_nat (to_jint N)) JNull)) w =
    Ret (JObjectArray strings, PChars rest) w /\
  fs_cb b this request UV_FS_READDIR N buf w =
    Ret tt (push (EvCallbackN (_instance cb) UV_FS_READDIR (_callback_id rq)
                    (JObjectArray strings)) w) /\
  Files__readdir b loop_ptr cpath 0 0 done w =
    Ret (JObjectArray strings) (push EvReqCleanup w).
Proof.
  intros Hreq Hcb Hnames Hlen Hloop Hr Hres Hptr N buf strings.
  assert (HN : to_jint N = N) by (apply to_jint_id; unfold jint_range, N; lia).
  assert (Hturns : Z.to_nat (to_jint N) = length names)
    by (rewrite HN; apply Nat2Z.id).
  assert (Hpos : (N <? 0) = false) by (apply Z.ltb_ge; unfold N; lia).
  assert (Hloop' : name_loop b (Z.to_nat (to_jint N)) 0 buf
            (JObjectArray (replicate (Z.to_nat (to_jint N)) JNull)) w =
          Ret (JObjectArray strings, PChars rest) w).
  { rewrite Hturns. apply name_loop_from_start; assumption. }
  split; [exact Hturns |].
  split; [apply length_fmap |].
  split; [exact Hloop' |].
  split.
  - unfold fs_cb, fs_cb_switch, deref_request, gets, NewObjectArray.
    unfold mbind, M_bind. rewrite Hreq. simpl.
    rewrite HN, Hpos. unfold mret at 1, M_ret at 1.
    rewrite HN in Hloop'. rewrite Hloop'.
    unfold callback_narg, deref_callbacks, gets, mbind, M_bind.
    rewrite Hcb. reflexivity.
  - unfold Files__readdir, assert, NewObjectArray.
    apply Z.eqb_neq in Hloop. apply Z.leb_le in Hr.
    unfold mbind, M_bind. rewrite Hloop. simpl.
    rewrite Hr, Hres, Hptr. fold N. rewrite HN, Hpos.
    unfold mret at 1 2, M_ret at 1 2.
    rewrite HN in Hloop'.
    destruct (ndebug b); simpl; fold buf; rewrite Hloop'; reflexivity.
Qed.

Lemma C5_readdir_witness :
  fs_cb debug_build 100 1 UV_FS_READDIR 2
    (PChars (name_buffer [chars "a"; chars "b"] ++ [])) world1 =
  Ret tt (push (EvCallbackN 7%nat UV_FS_READDIR 5
                  (JObjectArray [JString "a"; JString "b"])) world1).
Proof.
  refine (proj1 (proj2 (proj2 (proj2
    (C5_readdir_names debug_build 100 1 1 plain_request {| _instance := 7%nat |}
       "d" [chars "a"; chars "b"] [] readdir_ab world1 _ _ _ _ _ _ _ _))))).
  - reflexivity.
  - reflexivity.
  - repeat constructor; discriminate.
  - simpl; lia.
  - lia.
  - simpl; lia.
  - reflexivity.
  - reflexivity.
Defined.

(** The reads of the loop are checked against the readable memory: a count
    of 3 over a buffer that holds two names runs off its end. *)
Example readdir_count_too_large :
  fs_cb debug_build 100 1 UV_FS_READDIR 3
    (PChars (name_buffer [chars "a"; chars "b"])) world1 =
  Crashed NativeOutOfBounds world1.
Proof. reflexivity. Qed.

(** ** Running the pieces *)

Lemma bind_ret {A B} (m : M A) (f : A -> M B) (a : A) (w w' : world) :
  m w = Ret a w' -> (m ≫= f) w = f a w'.
Proof. intros H. unfold mbind, M_bind. rewrite H. reflexivity. Qed.

Lemma bind_crashed {A B} (m : M A) (f : A -> M B) (c : crash) (w w' : world) :
  m w = Crashed c w' -> (m ≫= f) w = Crashed c w'.
Proof. intros H. unfold mbind, M_bind. rewrite H. reflexivity. Qed.

Lemma assert_true (b : build) (msg : string) (w : world) :
  assert b true msg w = Ret tt w.
Proof. unfold assert. destruct (ndebug b); reflexivity. Qed.

Lemma assert_nonzero (b : build) (x : Z) (msg : string) (w : world) :
  x <> 0 -> assert b (negb (x =? 0)) msg w = Ret tt w.
Proof.
  intros H. apply Z.eqb_neq in H. rewrite H. apply assert_true.
Qed.

Lemma deref_request_run (p : Z) (rq : FileRequest) (w : world) :
  requests w !! p = Some rq -> deref_request p w = Ret rq w.
Proof.
  intros H. unfold deref_request, gets, mbind, M_bind. rewrite H. reflexivity.
Qed.

Lemma deref_callbacks_run (p : Z) (cb : FileCallbacks) (w : world) :
  callbacks w !! p = Some cb -> deref_callbacks p w = Ret cb w.
Proof.
  intros H. unfold deref_callbacks, gets, mbind, M_bind. rewrite H. reflexivity.
Qed.

Lemma callback_1arg_run (this : Z) (cb : FileCallbacks) (ty : uv_fs_type)
    (cid : Z) (arg : jobject) (w : world) :
  callbacks w !! this = Some cb ->
  callback_1arg this ty cid arg w = Ret tt (push (EvCallback1 (_instance cb) ty cid arg) w).
Proof.
  intros H. unfold callback_1arg.
  rewrite (bind_ret _ _ _ _ _ (deref_callbacks_run _ _ _ H)). reflexivity.
Qed.

Lemma callback_narg_run (this : Z) (cb : FileCallbacks) (ty : uv_fs_type)
    (cid : Z) (args : jobject) (w : world) :
  callbacks w !! this = Some cb ->
  callback_narg this ty cid args w = Ret tt (push (EvCallbackN (_instance cb) ty cid args) w).
Proof.
  intros H. unfold callback_narg.
  rewrite (bind_ret _ _ _ _ _ (deref_callbacks_run _ _ _ H)). reflexivity.
Qed.

Lemma FileRequest_delete_run (p : Z) (rq : FileRequest) (w : world) :
  requests w !! p = Some rq ->
  FileRequest_delete p w = Ret tt (disposed p rq w).
Proof.
  intros H. unfold FileRequest_delete.
  rewrite (bind_ret _ _ _ _ _ (deref_request_run _ _ _ H)).
  unfold disposed, released.
  destruct (_read_buffer rq); reflexivity.
Qed.

Lemma released_requests (rq : FileRequest) (w : world) :
  requests (released rq w) = requests w.
Proof. unfold released. destruct (_read_buffer rq); reflexivity. Qed.

Lemma released_jheap (rq : FileRequest) (w : world) :
  jheap (released rq w) = jheap w.
Proof. unfold released. destruct (_read_buffer rq); reflexivity. Qed.

Lemma disposed_gone (p : Z) (rq : FileRequest) (w : world) :
  requests (disposed p rq w) !! p = None.
Proof. unfold disposed. simpl. apply lookup_delete_eq. Qed.

Lemma disposed_trace (p : Z) (rq : FileRequest) (w : world) :
  trace (disposed p rq w) = trace w ++ dispose_events p rq.
Proof.
  unfold disposed, released, dispose_events.
  destruct (_read_buffer rq); simpl; try reflexivity.
  rewrite <- app_assoc. reflexivity.
Qed.

(** The hook after its assertions, with the branch still to choose. *)
Lemma _fs_cb_run (b : build) (req : uv_fs_t) (rq : FileRequest) (w : world) :
  data req <> 0 ->
  requests w !! data req = Some rq ->
  _callback_ptr rq <> 0 ->
  _fs_cb b req w =
    ((if result req =? -1
      then fs_cb_error b (_callback_ptr rq) (data req) (fs_type req)
             (errorno req) (path req)
      else fs_cb b (_callback_ptr rq) (data req) (fs_type req)
             (result req) (ptr req));;
     emit EvReqCleanup;;
     FileRequest_delete (data req)) w.
Proof.
  intros Hdata Hreq Hcb. unfold _fs_cb.
  rewrite (bind_ret _ _ _ _ _ (assert_nonzero b _ _ w Hdata)).
  rewrite (bind_ret _ _ _ _ _ (deref_request_run _ _ _ Hreq)).
  rewrite (bind_ret _ _ _ _ _ (assert_nonzero b _ _ w Hcb)).
  reflexivity.
Qed.

(** The failure overload. *)
Lemma fs_cb_error_run (b : build) (this request : Z) (rq : FileRequest)
    (cb : FileCallbacks) (ty : uv_fs_type) (code : Z) (p : option string)
    (w : world) :
  requests w !! request = Some rq ->
  callbacks w !! this = Some cb ->
  fs_cb_error b this request ty code p w =
  Ret tt (push (EvCallbackN (_instance cb) ty (_callback_id rq)
                  (JObjectArray [JInteger (-1); JException code None None p])) w).
Proof.
  intros Hreq Hcb. unfold fs_cb_error.
  rewrite (bind_ret _ _ _ _ _ (deref_request_run _ _ _ Hreq)).
  unfold NewObjectArray. simpl.
  unfold mbind at 1, M_bind at 1. unfold mret at 1, M_ret at 1.
  rewrite (bind_ret _ _ _ _ _ (assert_true b _ w)).
  unfold SetObjectArrayElement. simpl.
  unfold mbind, M_bind, mret, M_ret.
  apply callback_narg_run. exact Hcb.
Qed.

(** ** Failure completions *)

(** C4, counterexample: the failed open is delivered as (-1, error), but
    the error object is built from the error code and the path alone: the
    system call name and the message are null, so no error object carrying
    an operation name, whatever name, is delivered. *)
Lemma C4_error_without_operation_name :
  trace (world_of (_fs_cb debug_build open_failed world1)) =
    [EvCallbackN 7%nat UV_FS_OPEN 5
       (JObjectArray [JInteger (-1); NewException 34 None None (Some "missing")]);
     EvReqCleanup; EvDeleteRequest 1] /\
  ~ (exists name : string,
       In (EvCallbackN 7%nat UV_FS_OPEN 5
             (JObjectArray [JInteger (-1);
                            NewException 34 (Some name) None (Some "missing")]))
          (trace (world_of (_fs_cb debug_build open_failed world1)))).
Proof.
  assert (E : trace (world_of (_fs_cb debug_build open_failed world1)) =
    [EvCallbackN 7%nat UV_FS_OPEN 5
       (JObjectArray [JInteger (-1); NewException 34 None None (Some "missing")]);
     EvReqCleanup; EvDeleteRequest 1]) by reflexivity.
  split; [exact E |].
  rewrite E. intros [name H]. simpl in H.
  destruct H as [H | [H | [H | []]]]; discriminate H.
Qed.

(** C4, amended: a completion with result -1 makes the hook deliver, in one
    array-valued call carrying the operation kind and the callback id, the
    pair (Integer -1, error object), the error object being built from the
    native error code and the request's path, with a null system call name
    and a null message; the request is then disposed. *)
Theorem C4_error_shape (b : build) (req : uv_fs_t) (rq : FileRequest)
    (cb : FileCallbacks) (w : world) :
  data req <> 0 ->
  requests w !! data req = Some rq ->
  _callback_ptr rq <> 0 ->
  callbacks w !! _callback_ptr rq = Some cb ->
  result req = -1 ->
  _fs_cb b req w =
    Ret tt (disposed (data req) rq (push EvReqCleanup
      (push (EvCallbackN (_instance cb) (fs_type req) (_callback_id rq)
               (JObjectArray [JInteger (-1);
                              NewException (errorno req) None None (path req)]))
         w))).
Proof.
  intros Hdata Hreq Hptr Hcb Hres.
  rewrite (_fs_cb_run b req rq w Hdata Hreq Hptr). rewrite Hres. simpl.
  rewrite (bind_ret _ _ _ _ _ (fs_cb_error_run b _ _ rq cb _ _ _ w Hreq Hcb)).
  unfold emit at 1, modify at 1, mbind at 1, M_bind at 1.
  apply FileRequest_delete_run. exact Hreq.
Qed.

Lemma C4_error_shape_witness :
  _fs_cb debug_build open_failed world1 =
    Ret tt (disposed 1 plain_request (push EvReqCleanup
      (push (EvCallbackN 7%nat UV_FS_OPEN 5
               (JObjectArray [JInteger (-1);
                              NewException 34 None None (Some "missing")]))
         world1))).
Proof.
  apply (C4_error_shape debug_build open_failed plain_request
           {| _instance := 7%nat |} world1);
    [simpl; lia | reflexivity | simpl; lia | reflexivity | reflexivity].
Defined.

(** ** Read completions *)

Lemma splice_nil (a : list jbyte) (start : Z) : splice a start [] = a.
Proof.
  unfold splice. simpl. rewrite Nat.add_0_r. apply take_drop.
Qed.

Lemma set_jheap_same (w : world) : set_jheap (jheap w) w = w.
Proof. destruct w; reflexivity. Qed.

(** An in-range [SetByteArrayRegion] from readable native memory. *)
Lemma SetByteArrayRegion_run (r : jref) (a : list jbyte) (start len : Z)
    (buf : option (list jbyte)) (w : world) :
  jheap w !! r = Some a ->
  0 <= start -> 0 <= len -> start + len <= Z.of_nat (length a) ->
  len <= Z.of_nat (length (default [] buf)) ->
  SetByteArrayRegion (JByteArray r) start len buf w =
  Ret tt (set_jheap
            (<[r := splice a start (take (Z.to_nat len) (default [] buf))]> (jheap w))
            (push (EvSetByteArrayRegion (JByteArray r) start len) w)).
Proof.
  intros Ha Hs Hl Hend Hmem.
  unfold SetByteArrayRegion, emit, modify, gets, mbind, M_bind, mret, M_ret.
  cbn [jheap push]. rewrite Ha.
  unfold region_ok. rewrite bool_decide_eq_true_2 by lia. cbn [negb].
  destruct (Z.eqb_spec len 0) as [-> | Hne].
  - cbn [Z.to_nat take]. rewrite splice_nil, insert_id by exact Ha.
    rewrite <- (set_jheap_same (push _ w)) at 1. reflexivity.
  - destruct buf as [mem |]; simpl in Hmem; [| lia].
    rewrite bool_decide_eq_true_2 by lia. reflexivity.
Qed.

(** The success overload on a read completion whose commit is in range. *)
Lemma splice_length (a : list jbyte) (start : Z) (bs : list jbyte) :
  0 <= start -> start + Z.of_nat (length bs) <= Z.of_nat (length a) ->
  length (splice a start bs) = length a.
Proof.
  intros Hs He. unfold splice.
  rewrite !length_app, length_take, length_drop. lia.
Qed.

Lemma splice_lookup_inside (a : list jbyte) (start : Z) (bs : list jbyte) (i : nat) :
  0 <= start -> start + Z.of_nat (length bs) <= Z.of_nat (length a) ->
  (i < length bs)%nat ->
  splice a start bs !! (Z.to_nat start + i)%nat = bs !! i.
Proof.
  intros Hs He Hi. unfold splice.
  rewrite lookup_app_r by (rewrite length_take; lia).
  rewrite length_take.
  replace (Z.to_nat start + i - Z.to_nat start `min` length a)%nat with i by lia.
  apply lookup_app_l. exact Hi.
Qed.

Lemma splice_lookup_outside (a : list jbyte) (start : Z) (bs : list jbyte) (i : nat) :
  0 <= start -> start + Z.of_nat (length bs) <= Z.of_nat (length a) ->
  (i < Z.to_nat start \/ Z.to_nat start + length bs <= i)%nat ->
  splice a start bs !! i = a !! i.
Proof.
  intros Hs He [Hi | Hi]; unfold splice.
  - rewrite lookup_app_l by (rewrite length_take; lia).
    apply lookup_take_lt. exact Hi.
  - rewrite lookup_app_r by (rewrite length_take; lia).
    rewrite length_take.
    rewrite lookup_app_r by lia.
    rewrite lookup_drop. f_equal. lia.
Qed.

Lemma splice_committed (a : list jbyte) (start n : Z) (scratch : list jbyte) :
  0 <= start -> 0 <= n <= Z.of_nat (length scratch) ->
  start + n <= Z.of_nat (length a) ->
  committed (splice a start (take (Z.to_nat n) scratch)) start n scratch.
Proof.
  intros Hs Hn He. unfold committed, splice.
  rewrite drop_app_length' by (rewrite length_take; lia).
  apply take_app_length'. rewrite length_take. lia.
Qed.

Lemma fs_cb_read_run (b : build) (this request : Z) (rq : FileRequest)
    (cb : FileCallbacks) (r : jref) (a : list jbyte)
    (n : Z) (p : native_ptr) (w : world) :
  requests w !! request = Some rq ->
  callbacks w !! this = Some cb ->
  _read_buffer rq = JByteArray r ->
  jheap w !! r = Some a ->
  0 <= n <= Z.of_nat (length (mem_of (_byte_array rq))) ->
  0 <= _read_buffer_offset rq ->
  _read_buffer_offset rq + n <= Z.of_nat (length a) ->
  Z.of_nat (length a) < 2 ^ 31 ->
  fs_cb b this request UV_FS_READ n p w =
  Ret tt
    (push (EvCallbackN (_instance cb) UV_FS_READ (_callback_id rq)
             (JObjectArray [JLong n; JByteArray r]))
       (set_jheap
          (<[r := splice a (_read_buffer_offset rq)
                    (take (Z.to_nat n) (mem_of (_byte_array rq)))]> (jheap w))
          (push (EvSetByteArrayRegion (JByteArray r) (_read_buffer_offset rq) n) w))).
Proof.
  intros Hreq Hcb Hbuf Ha Hn Hoff Hend Hlen.
  assert (En : to_jsize n = n) by (apply to_jsize_id; unfold jint_range; lia).
  assert (Eo : to_jsize (_read_buffer_offset rq) = _read_buffer_offset rq)
    by (apply to_jsize_id; unfold jint_range; lia).
  assert (El : to_jlong n = n) by (apply to_jlong_id; unfold jlong_range; lia).
  assert (Em : default [] (nb_mem <$> _byte_array rq) = mem_of (_byte_array rq))
    by (destruct (_byte_array rq); reflexivity).
  assert (Hcommit : get_array_region_from_bytes request (to_jsize n) w =
    Ret (JByteArray r)
      (set_jheap
         (<[r := splice a (_read_buffer_offset rq)
                   (take (Z.to_nat n) (mem_of (_byte_array rq)))]> (jheap w))
         (push (EvSetByteArrayRegion (JByteArray r) (_read_buffer_offset rq) n) w))).
  { unfold get_array_region_from_bytes.
    erewrite bind_ret by (apply deref_request_run; exact Hreq).
    rewrite Hbuf, En, Eo.
    erewrite bind_ret
      by (apply (SetByteArrayRegion_run r a _ n _ w); rewrite ?Em; tauto).
    rewrite Em. reflexivity. }
  unfold fs_cb.
  erewrite bind_ret by (apply deref_request_run; exact Hreq).
  erewrite bind_ret; [| unfold fs_cb_switch].
  2:{ erewrite bind_ret by reflexivity.
      erewrite bind_ret by apply assert_true.
      erewrite bind_ret by reflexivity.
      erewrite bind_ret by exact Hcommit.
      erewrite bind_ret by reflexivity.
      erewrite bind_ret by (apply callback_narg_run; exact Hcb).
      unfold Long_valueOf. rewrite El. reflexivity. }
  reflexivity.
Qed.

(** The scratch buffer of a request is as the constructor allocates it. *)
Lemma request_of_wf (w : world) (cb_ptr cid : Z) (read_buffer : jobject)
    (size offset : Z) :
  scratch_wf (request_of w cb_ptr cid read_buffer size offset).
Proof.
  unfold scratch_wf, scratch_size, request_of, scratch_of. cbn [_byte_array].
  destruct (Z.ltb_spec 0 size); cbn; [| reflexivity].
  rewrite length_fmap, length_seqZ. lia.
Qed.

(** C3, counterexample: the read that [_read] sets up for a Java array of
    three bytes, length 5 and offset 0, completed with 5 bytes. The
    completion counts as a success, and the receiver gets the pair
    (Long 5, destination) in one call; but the copy of five bytes into
    three was refused by the bounds check of the array, so the destination
    still holds its three zeroes and not the scratch bytes. *)
Lemma C3_read_count_beyond_destination :
  callbacks_made (trace (world_of (_fs_cb debug_build (read_done 5) world_short_dest))) =
    [EvCallbackN 7%nat UV_FS_READ 5 (JObjectArray [JLong 5; JByteArray 3%nat])] /\
  jheap (world_of (_fs_cb debug_build (read_done 5) world_short_dest)) !! 3%nat =
    Some [0; 0; 0] /\
  pending (world_of (_fs_cb debug_build (read_done 5) world_short_dest)) =
    Some ArrayIndexOutOfBounds /\
  ~ committed [0; 0; 0] 0 5 hello.
Proof.
  split; [reflexivity |]. split; [reflexivity |]. split; [reflexivity |].
  unfold committed. simpl. discriminate.
Qed.

(** C3, amended: a read completion with byte count [n], 0 <= n, no larger
    than the scratch buffer and with offset + n within the destination
    array, makes the hook copy the first [n] scratch bytes into the
    destination at the destination offset, leaving the rest of the array
    as it was, and deliver, in exactly one array-valued call and no other
    call, the pair (Long n, destination buffer). *)
Theorem C3_read_delivers_pair (b : build) (req : uv_fs_t) (rq : FileRequest)
    (cb : FileCallbacks) (r : jref) (a : list jbyte) (w : world) :
  data req <> 0 ->
  requests w !! data req = Some rq ->
  _callback_ptr rq <> 0 ->
  callbacks w !! _callback_ptr rq = Some cb ->
  fs_type req = UV_FS_READ ->
  _read_buffer rq = JByteArray r ->
  jheap w !! r = Some a ->
  scratch_wf rq ->
  0 <= result req <= scratch_size rq ->
  0 <= _read_buffer_offset rq ->
  _read_buffer_offset rq + result req <= Z.of_nat (length a) ->
  Z.of_nat (length a) < 2 ^ 31 ->
  exists w' a',
    _fs_cb b req w = Ret tt w' /\
    trace w' = trace w ++
      [EvSetByteArrayRegion (JByteArray r) (_read_buffer_offset rq) (result req);
       EvCallbackN (_instance cb) UV_FS_READ (_callback_id rq)
         (JObjectArray [JLong (result req); JByteArray r]);
       EvReqCleanup; EvDeleteGlobalRef r; EvDeleteRequest (data req)] /\
    callbacks_made (trace w') = callbacks_made (trace w) ++
      [EvCallbackN (_instance cb) UV_FS_READ (_callback_id rq)
         (JObjectArray [JLong (result req); JByteArray r])] /\
    jheap w' !! r = Some a' /\
    a' = splice a (_read_buffer_offset rq)
           (take (Z.to_nat (result req)) (mem_of (_byte_array rq))) /\
    length a' = length a /\
    committed a' (_read_buffer_offset rq) (result req) (mem_of (_byte_array rq)) /\
    (forall i, (i < Z.to_nat (_read_buffer_offset rq) \/
                Z.to_nat (_read_buffer_offset rq) + Z.to_nat (result req) <= i)%nat ->
       a' !! i = a !! i) /\
    (forall r', r' <> r -> jheap w' !! r' = jheap w !! r').
Proof.
  intros Hdata Hreq Hptr Hcb Hty Hbuf Ha Hwf Hsize Hoff Hend Hlen.
  assert (Hn : 0 <= result req <= Z.of_nat (length (mem_of (_byte_array rq))))
    by (rewrite Hwf; exact Hsize).
  set (bs := take (Z.to_nat (result req)) (mem_of (_byte_array rq))).
  assert (Hbs : length bs = Z.to_nat (result req))
    by (unfold bs; rewrite length_take; lia).
  eexists _, (splice a (_read_buffer_offset rq) bs). split.
  - rewrite (_fs_cb_run b req rq w Hdata Hreq Hptr).
    destruct (Z.eqb_spec (result req) (-1)) as [E | _]; [lia |].
    rewrite Hty.
    erewrite bind_ret
      by (eapply fs_cb_read_run; eassumption).
    erewrite bind_ret by reflexivity.
    apply FileRequest_delete_run. exact Hreq.
  - rewrite disposed_trace. unfold disposed, dispose_events.
    rewrite Hbuf. cbn [trace push set_jheap jheap set_requests].
    rewrite released_jheap. cbn [jheap push set_jheap].
    split; [rewrite <- !app_assoc; reflexivity |].
    split.
    { unfold callbacks_made. rewrite <- !app_assoc.
      rewrite List.filter_app. reflexivity. }
    split; [apply lookup_insert_eq |].
    split; [reflexivity |].
    split; [apply splice_length; lia |].
    split; [apply splice_committed; lia |].
    split; [intros i Hi; apply splice_lookup_outside; lia |].
    intros r' Hne. apply lookup_insert_ne. congruence.
Qed.

Lemma C3_read_witness :
  exists w' a',
    _fs_cb debug_build (read_done 5) world_reading = Ret tt w' /\
    trace w' = [] ++
      [EvSetByteArrayRegion (JByteArray 3%nat) 0 5;
       EvCallbackN 7%nat UV_FS_READ 5 (JObjectArray [JLong 5; JByteArray 3%nat]);
       EvReqCleanup; EvDeleteGlobalRef 3%nat; EvDeleteRequest 1] /\
    callbacks_made (trace w') = callbacks_made [] ++
      [EvCallbackN 7%nat UV_FS_READ 5 (JObjectArray [JLong 5; JByteArray 3%nat])] /\
    jheap w' !! 3%nat = Some a' /\
    a' = splice [0; 0; 0; 0; 0] 0 (take (Z.to_nat 5) hello) /\
    length a' = length [0; 0; 0; 0; 0] /\
    committed a' 0 5 hello /\
    (forall i, (i < Z.to_nat 0 \/ Z.to_nat 0 + Z.to_nat 5 <= i)%nat ->
       a' !! i = [0; 0; 0; 0; 0] !! i) /\
    (forall r', r' <> 3%nat -> jheap w' !! r' = jheap world_reading !! r').
Proof.
  apply (C3_read_delivers_pair debug_build (read_done 5) read_request
           {| _instance := 7%nat |} 3%nat [0; 0; 0; 0; 0] world_reading);
    try reflexivity; unfold scratch_size; simpl; lia.
Defined.

Example read_hello :
  jheap (world_of (_fs_cb debug_build (read_done 5) world_reading)) !! 3%nat
  = Some hello.
Proof. reflexivity. Qed.

(** ** What a computation adds to the trace *)

Lemma name_array_plain (o : jobject) : name_array o -> error_args o = false.
Proof.
  destruct o as [| | | | | | l | |]; simpl; try tauto.
  destruct l as [| e l]; [reflexivity |].
  intros H. inversion H as [| ? ? He _]; subst.
  destruct e; simpl in He; try discriminate He; reflexivity.
Qed.

Section Emits.
Variable P : event -> Prop.
Hypothesis P_plain : forall e, error_shaped e = false -> P e.

Lemma emits_ret {A} (a : A) (R : A -> Prop) : R a -> emits P (mret a) R.
Proof.
  intros Ha w. split.
  - exists []. simpl. rewrite app_nil_r. auto.
  - intros a' w' E. inversion E; subst. exact Ha.
Qed.

Lemma emits_die {A} (c : crash) (R : A -> Prop) : emits P (die c) R.
Proof.
  intros w. split.
  - exists []. simpl. rewrite app_nil_r. auto.
  - intros a' w' E. discriminate E.
Qed.

Lemma emits_bind {A B} (m : M A) (f : A -> M B) (R : A -> Prop) (S : B -> Prop) :
  emits P m R -> (forall a, R a -> emits P (f a) S) -> emits P (m ≫= f) S.
Proof.
  intros Hm Hf w. destruct (Hm w) as [(evs & Et & HP) HR].
  unfold mbind, M_bind. destruct (m w) as [a w1 | c w1] eqn:E.
  - specialize (HR a w1 eq_refl).
    destruct (Hf a HR w1) as [(evs' & Et' & HP') HS]. split.
    + exists (evs ++ evs'). simpl in Et. rewrite Et', Et, app_assoc.
      split; [reflexivity | apply Forall_app; auto].
    + exact HS.
  - split; [exists evs; auto | intros ? ? E'; discriminate E'].
Qed.

Lemma emits_weaken {A} (m : M A) (R S : A -> Prop) :
  emits P m R -> (forall a, R a -> S a) -> emits P m S.
Proof.
  intros Hm HRS w. destruct (Hm w) as [Ht HR]. split; [exact Ht |].
  intros a w' E. apply HRS. exact (HR a w' E).
Qed.

Lemma emits_gets {A} (f : world -> A) : emits P (gets f) any.
Proof.
  intros w. split; [| intros; exact I].
  exists []. simpl. rewrite app_nil_r. auto.
Qed.

Lemma emits_modify (f : world -> world) :
  (forall w, trace (f w) = trace w) -> emits P (modify f) any.
Proof.
  intros Hf w. split; [| intros; exact I].
  exists []. simpl. rewrite app_nil_r, Hf. auto.
Qed.

Lemma emits_emit (e : event) : P e -> emits P (emit e) any.
Proof.
  intros He w. split; [| intros; exact I].
  exists [e]. simpl. auto.
Qed.

Lemma emits_assert (b : build) (c : bool) (msg : string) :
  emits P (assert b c msg) any.
Proof.
  unfold assert. destruct (ndebug b); [apply emits_ret; exact I |].
  destruct c; [apply emits_ret; exact I | apply emits_die].
Qed.

Lemma emits_deref_request (p : Z) : emits P (deref_request p) any.
Proof.
  unfold deref_request. eapply emits_bind; [apply emits_gets |].
  intros [rq |] _; [apply emits_ret; exact I | apply emits_die].
Qed.

Lemma emits_deref_callbacks (p : Z) : emits P (deref_callbacks p) any.
Proof.
  unfold deref_callbacks. eapply emits_bind; [apply emits_gets |].
  intros [cb |] _; [apply emits_ret; exact I | apply emits_die].
Qed.

Lemma emits_callback_1arg (this : Z) (ty : uv_fs_type) (cid : Z) (arg : jobject) :
  emits P (callback_1arg this ty cid arg) any.
Proof.
  unfold callback_1arg. eapply emits_bind; [apply emits_deref_callbacks |].
  intros cb _. apply emits_emit. apply P_plain. reflexivity.
Qed.

Lemma emits_callback_narg (this : Z) (ty : uv_fs_type) (cid : Z) (args : jobject) :
  error_args args = false -> emits P (callback_narg this ty cid args) any.
Proof.
  intros Hargs. unfold callback_narg.
  eapply emits_bind; [apply emits_deref_callbacks |].
  intros cb _. apply emits_emit. apply P_plain. exact Hargs.
Qed.

Lemma emits_set_pending (t : option jthrowable) :
  emits P (modify (set_pending t)) any.
Proof. apply emits_modify. reflexivity. Qed.

Lemma emits_SetByteArrayRegion (array : jobject) (start len : Z)
    (buf : option (list jbyte)) :
  emits P (SetByteArrayRegion array start len buf) any.
Proof.
  unfold SetByteArrayRegion.
  eapply emits_bind; [apply emits_emit, P_plain; reflexivity |].
  intros _ _. destruct array; try apply emits_die.
  eapply emits_bind; [apply emits_gets |].
  intros h _. destruct (h !! r); [| apply emits_die].
  destruct (negb _); [apply emits_set_pending |].
  destruct (len =? 0); [apply emits_ret; exact I |].
  destruct buf; [| apply emits_die].
  destruct (bool_decide _); [| apply emits_die].
  apply emits_modify. reflexivity.
Qed.

Lemma emits_get_array_region_from_bytes (p : Z) (len : Z) :
  emits P (get_array_region_from_bytes p len) any.
Proof.
  unfold get_array_region_from_bytes.
  eapply emits_bind; [apply emits_deref_request |].
  intros rq _. eapply emits_bind; [apply emits_SetByteArrayRegion |].
  intros _ _. apply emits_ret. exact I.
Qed.

Lemma emits_DeleteGlobalRef (o : jobject) : emits P (DeleteGlobalRef o) any.
Proof.
  unfold DeleteGlobalRef. destruct o; try (apply emits_ret; exact I).
  eapply emits_bind; [apply emits_gets |]. intros n _.
  eapply emits_bind; [apply emits_modify; reflexivity |]. intros _ _.
  apply emits_emit, P_plain. reflexivity.
Qed.

Lemma emits_FileRequest_delete (p : Z) : emits P (FileRequest_delete p) any.
Proof.
  unfold FileRequest_delete.
  eapply emits_bind; [apply emits_deref_request |]. intros rq _.
  eapply emits_bind with (R := any).
  { destruct (_read_buffer rq); try (apply emits_ret; exact I);
      apply emits_DeleteGlobalRef. }
  intros _ _.
  eapply emits_bind; [apply emits_modify; reflexivity |]. intros _ _.
  apply emits_emit, P_plain. reflexivity.
Qed.
Lemma emits_NewStringUTF (p : native_ptr) :
  emits P (NewStringUTF p) (fun o => is_name o = true).
Proof.
  unfold NewStringUTF. destruct p; [apply emits_ret; reflexivity | apply emits_die |].
  destruct (c_str mem); [apply emits_ret; reflexivity | apply emits_die].
Qed.

Lemma emits_NewObjectArray (n : Z) :
  emits P (NewObjectArray n) name_array.
Proof.
  unfold NewObjectArray. destruct (n <? 0).
  - eapply emits_bind; [apply emits_set_pending |].
    intros _ _. apply emits_ret. exact I.
  - apply emits_ret. simpl. apply Forall_replicate. reflexivity.
Qed.

Lemma emits_set_name (names : jobject) (i : Z) (name : jobject) :
  name_array names -> is_name name = true ->
  emits P (SetObjectArrayElement names i name) name_array.
Proof.
  intros Hnames Hname. unfold SetObjectArrayElement.
  destruct names as [| | | | | | l | |]; try apply emits_die.
  destruct (bool_decide _).
  - apply emits_ret. simpl in *. apply Forall_insert; assumption.
  - eapply emits_bind; [apply emits_set_pending |].
    intros _ _. apply emits_ret. exact Hnames.
Qed.

Lemma emits_next_name (b : build) (p : native_ptr) :
  emits P (next_name b p) any.
Proof.
  unfold next_name. destruct p; try apply emits_die.
  destruct (strlen mem); [| apply emits_die].
  destruct (ndebug b); [apply emits_ret; exact I |].
  eapply emits_bind; [apply emits_assert |].
  intros _ _. apply emits_ret. exact I.
Qed.

Lemma emits_name_loop (b : build) (todo : nat) :
  forall (i : Z) (p : native_ptr) (names : jobject),
    name_array names ->
    emits P (name_loop b todo i p names) (fun r => name_array r.1).
Proof.
  induction todo as [| todo IH]; intros i p names Hnames.
  - apply emits_ret. exact Hnames.
  - cbn [name_loop].
    eapply emits_bind; [apply emits_NewStringUTF |]. intros name Hname.
    eapply emits_bind; [apply emits_set_name; assumption |].
    intros names' Hnames'.
    eapply emits_bind; [apply emits_next_name |]. intros p' _.
    apply IH. exact Hnames'.
Qed.

Lemma emits_as_statbuf (p : native_ptr) : emits P (as_statbuf p) any.
Proof. destruct p; simpl; try apply emits_die; apply emits_ret; exact I. Qed.

(** The success switch never delivers the failure shape. *)
Lemma emits_fs_cb_switch (b : build) (this request cid : Z) (ty : uv_fs_type)
    (n : Z) (p : native_ptr) :
  emits P (fs_cb_switch b this request cid ty n p) any.
Proof.
  destruct ty; cbn [fs_cb_switch]; try (apply emits_ret; exact I).
  - (* read *)
    eapply emits_bind with (R := fun a => a = JObjectArray [JNull; JNull]).
    { apply emits_ret. reflexivity. }
    intros args ->.
    eapply emits_bind; [apply emits_assert |]. intros _ _.
    eapply emits_bind
      with (R := fun a => a = JObjectArray [Long_valueOf n; JNull]).
    { apply emits_ret. reflexivity. }
    intros args ->.
    eapply emits_bind; [apply emits_get_array_region_from_bytes |].
    intros buffer _.
    eapply emits_bind
      with (R := fun a => a = JObjectArray [Long_valueOf n; buffer]).
    { apply emits_ret. reflexivity. }
    intros args ->.
    eapply emits_bind; [apply emits_callback_narg; reflexivity |].
    intros _ _. apply emits_ret. exact I.
  - (* sendfile: default *)
    eapply emits_bind; [apply emits_assert |]. intros _ _.
    apply emits_ret. exact I.
  - eapply emits_bind; [apply emits_as_statbuf |]. intros sb _.
    apply emits_ret. exact I.
  - eapply emits_bind; [apply emits_as_statbuf |]. intros sb _.
    apply emits_ret. exact I.
  - eapply emits_bind; [apply emits_as_statbuf |]. intros sb _.
    apply emits_ret. exact I.
  - (* readdir *)
    eapply emits_bind; [apply emits_NewObjectArray |]. intros names Hnames.
    eapply emits_bind; [apply emits_name_loop; exact Hnames |].
    intros [names' p'] Hnames'.
    eapply emits_bind;
      [apply emits_callback_narg, name_array_plain; exact Hnames' |].
    intros _ _. apply emits_ret. exact I.
  - (* readlink *)
    eapply emits_bind; [apply emits_NewStringUTF |]. intros link _.
    apply emits_ret. exact I.
Qed.

Lemma emits_fs_cb (b : build) (this request : Z) (ty : uv_fs_type)
    (n : Z) (p : native_ptr) :
  emits P (fs_cb b this request ty n p) any.
Proof.
  unfold fs_cb.
  eapply emits_bind; [apply emits_deref_request |]. intros rq _.
  eapply emits_bind; [apply emits_fs_cb_switch |]. intros [arg |] _.
  - apply emits_callback_1arg.
  - apply emits_ret. exact I.
Qed.

(** The part of the hook that follows the callback. *)
Lemma emits_hook_tail (p : Z) :
  emits P (emit EvReqCleanup;; FileRequest_delete p) any.
Proof.
  eapply emits_bind; [apply emits_emit, P_plain; reflexivity |].
  intros _ _. apply emits_FileRequest_delete.
Qed.
End Emits.

(** ** Classification of completions *)

Lemma top_plain : forall e, error_shaped e = false -> top e.
Proof. intros; exact I. Qed.

Lemma starts_after_ret {A B} (e : event) (m : M A) (f : A -> M B) (a : A) (w : world) :
  m w = Ret a w -> starts_at e (f a) w -> starts_at e (m ≫= f) w.
Proof.
  intros Hm H. unfold starts_at. rewrite (bind_ret _ _ _ _ _ Hm). exact H.
Qed.

Lemma starts_then {A B} (e : event) (m : M A) (f : A -> M B) (w : world) :
  starts_at e m w -> (forall a, emits top (f a) any) -> starts_at e (m ≫= f) w.
Proof.
  intros [rest Hm] Hf. unfold starts_at, mbind, M_bind.
  destruct (m w) as [a w1 | c w1]; simpl in Hm.
  - destruct (Hf a w1) as [(evs & Et & _) _].
    exists (rest ++ evs). rewrite Et, Hm, <- app_assoc. reflexivity.
  - exists rest. exact Hm.
Qed.

Lemma starts_SetByteArrayRegion (array : jobject) (start len : Z)
    (buf : option (list jbyte)) (w : world) :
  starts_at (EvSetByteArrayRegion array start len)
    (SetByteArrayRegion array start len buf) w.
Proof.
  exists []. unfold SetByteArrayRegion, emit, modify, gets, die, mbind, M_bind,
    mret, M_ret.
  destruct array; try reflexivity. cbn [jheap push].
  destruct (jheap w !! r); [| reflexivity].
  destruct (negb _); [reflexivity |].
  destruct (len =? 0); [reflexivity |].
  destruct buf; [| reflexivity].
  destruct (bool_decide _); reflexivity.
Qed.

Lemma emits_SetObjectArrayElement (array : jobject) (i : Z) (v : jobject) :
  emits top (SetObjectArrayElement array i v) any.
Proof.
  unfold SetObjectArrayElement. destruct array; try apply emits_die.
  destruct (bool_decide _); [apply emits_ret; exact I |].
  eapply emits_bind; [apply emits_set_pending |].
  intros _ _. apply emits_ret. exact I.
Qed.

Lemma emits_top_callback_narg (this : Z) (ty : uv_fs_type) (cid : Z) (args : jobject) :
  emits top (callback_narg this ty cid args) any.
Proof.
  unfold callback_narg. eapply emits_bind; [apply emits_deref_callbacks |].
  intros cb _. apply emits_emit. exact I.
Qed.

(** On a read, the success overload first hands the native result, cut to
    a jsize, to the buffer commit. *)
Lemma starts_fs_cb_read (b : build) (this request : Z) (rq : FileRequest)
    (n : Z) (p : native_ptr) (w : world) :
  requests w !! request = Some rq ->
  starts_at (EvSetByteArrayRegion (_read_buffer rq)
               (to_jsize (_read_buffer_offset rq)) (to_jsize n))
    (fs_cb b this request UV_FS_READ n p) w.
Proof.
  intros Hreq. unfold fs_cb.
  eapply starts_after_ret; [apply deref_request_run; exact Hreq |].
  apply starts_then.
  2:{ intros [arg |]; [apply emits_callback_1arg, top_plain |
                       apply emits_ret; exact I]. }
  cbn [fs_cb_switch].
  eapply starts_after_ret; [reflexivity |].
  eapply starts_after_ret; [apply assert_true |].
  eapply starts_after_ret; [reflexivity |].
  apply starts_then.
  2:{ intros buffer.
      eapply emits_bind; [apply emits_SetObjectArrayElement |]. intros args _.
      eapply emits_bind; [apply emits_top_callback_narg |]. intros _ _.
      apply emits_ret. exact I. }
  unfold get_array_region_from_bytes.
  eapply starts_after_ret; [apply deref_request_run; exact Hreq |].
  apply starts_then; [apply starts_SetByteArrayRegion |].
  intros _. apply emits_ret. exact I.
Qed.

(** C9: the hook takes the failure overload exactly when the native result
    is -1. With -1 it delivers the failure pair; with any other value, the
    negative ones included, it runs the success overload for the operation
    kind and delivers nothing of the failure shape; on a read the first
    thing it then does is the buffer commit, with the result as its byte
    count. *)
Theorem C9_failure_iff_minus_one (b : build) (req : uv_fs_t) (rq : FileRequest)
    (cb : FileCallbacks) (w : world) :
  data req <> 0 ->
  requests w !! data req = Some rq ->
  _callback_ptr rq <> 0 ->
  callbacks w !! _callback_ptr rq = Some cb ->
  exists evs,
    trace (world_of (_fs_cb b req w)) = trace w ++ evs /\
    (result req = -1 ->
     evs = EvCallbackN (_instance cb) (fs_type req) (_callback_id rq)
             (JObjectArray [JInteger (-1);
                            NewException (errorno req) None None (path req)])
           :: EvReqCleanup :: dispose_events (data req) rq) /\
    (result req <> -1 ->
     _fs_cb b req w =
       (fs_cb b (_callback_ptr rq) (data req) (fs_type req) (result req) (ptr req);;
        emit EvReqCleanup;; FileRequest_delete (data req)) w /\
     Forall (fun e => error_shaped e = false) evs /\
     (fs_type req = UV_FS_READ ->
      exists rest,
        evs = EvSetByteArrayRegion (_read_buffer rq)
                (to_jsize (_read_buffer_offset rq)) (to_jsize (result req))
              :: rest)).
Proof.
  intros Hdata Hreq Hptr Hcb.
  destruct (Z.eq_dec (result req) (-1)) as [E | E].
  - eexists. split; [| split; [intros _; reflexivity | intros H; contradiction]].
    rewrite (_fs_cb_run b req rq w Hdata Hreq Hptr). rewrite E.
    cbn [Z.eqb Pos.eqb].
    erewrite bind_ret by (apply fs_cb_error_run; eassumption).
    erewrite bind_ret by reflexivity.
    rewrite (FileRequest_delete_run _ rq) by exact Hreq.
    cbn [world_of]. rewrite disposed_trace. cbn [trace push].
    rewrite <- !app_assoc. reflexivity.
  - pose proof (_fs_cb_run b req rq w Hdata Hreq Hptr) as Hrun.
    apply Z.eqb_neq in E. rewrite E in Hrun. apply Z.eqb_neq in E.
    set (P := fun e => error_shaped e = false).
    assert (Hplain : forall e, error_shaped e = false -> P e) by (intros; assumption).
    assert (Hem : emits P
      (fs_cb b (_callback_ptr rq) (data req) (fs_type req) (result req) (ptr req);;
       emit EvReqCleanup;; FileRequest_delete (data req)) any).
    { eapply emits_bind; [apply emits_fs_cb; exact Hplain |].
      intros _ _. apply emits_hook_tail. exact Hplain. }
    destruct (Hem w) as [(evs & Et & Hevs) _].
    exists evs. rewrite Hrun. split; [exact Et |].
    split; [intros H; contradiction |]. intros _.
    split; [reflexivity |]. split; [exact Hevs |].
    intros Hty. rewrite Hty in Et.
    assert (Hst : starts_at
      (EvSetByteArrayRegion (_read_buffer rq)
         (to_jsize (_read_buffer_offset rq)) (to_jsize (result req)))
      (fs_cb b (_callback_ptr rq) (data req) UV_FS_READ (result req) (ptr req);;
       emit EvReqCleanup;; FileRequest_delete (data req)) w).
    { apply starts_then; [apply starts_fs_cb_read; exact Hreq |].
      intros _. apply emits_hook_tail, top_plain. }
    destruct Hst as [rest Hrest]. exists rest.
    rewrite Hrest in Et. apply app_inv_head in Et. symmetry. exact Et.
Qed.

(** The read of [world_reading] completing with -5: not a failure for the
    hook; -5 goes to the commit as the length, which the JNI bounds check
    rejects, and the callback receives (Long -5, buffer). *)
Lemma C9_negative_result_witness :
  exists evs,
    trace (world_of (_fs_cb debug_build (read_done (-5)) world_reading)) =
      trace world_reading ++ evs /\
    (result (read_done (-5)) = -1 ->
     evs = EvCallbackN 7%nat UV_FS_READ 5
             (JObjectArray [JInteger (-1); NewException 0 None None None])
           :: EvReqCleanup :: dispose_events 1 read_request) /\
    (result (read_done (-5)) <> -1 ->
     _fs_cb debug_build (read_done (-5)) world_reading =
       (fs_cb debug_build 100 1 UV_FS_READ (-5) PNull;;
        emit EvReqCleanup;; FileRequest_delete 1) world_reading /\
     Forall (fun e => error_shaped e = false) evs /\
     (UV_FS_READ = UV_FS_READ ->
      exists rest,
        evs = EvSetByteArrayRegion (JByteArray 3%nat) (to_jsize 0) (to_jsize (-5))
              :: rest)).
Proof.
  apply (C9_failure_iff_minus_one debug_build (read_done (-5)) read_request
           {| _instance := 7%nat |} world_reading);
    [simpl; lia | reflexivity | simpl; lia | reflexivity].
Defined.

Example read_minus_five :
  _fs_cb debug_build (read_done (-5)) world_reading =
  Ret tt (disposed 1 read_request (push EvReqCleanup
    (push (EvCallbackN 7%nat UV_FS_READ 5
             (JObjectArray [JLong (-5); JByteArray 3%nat]))
       (set_pending (Some ArrayIndexOutOfBounds)
          (push (EvSetByteArrayRegion (JByteArray 3%nat) 0 (-5)) world_reading))))).
Proof. reflexivity. Qed.

(** ** Exactly one callback, then the disposal *)

Lemma yields_ret {A} (a : A) (Q : A -> list mark -> Prop) :
  Q a [] -> yields (mret a) Q.
Proof.
  intros HQ w a' w' E. inversion E; subst.
  exists []. rewrite app_nil_r. auto.
Qed.

Lemma yields_die {A} (c : crash) (Q : A -> list mark -> Prop) : yields (die c) Q.
Proof. intros w a w' E. discriminate E. Qed.

Lemma yields_bind {A B} (m : M A) (f : A -> M B)
    (Q1 : A -> list mark -> Prop) (Q : B -> list mark -> Prop) :
  yields m Q1 ->
  (forall a l1, Q1 a l1 -> yields (f a) (fun b l2 => Q b (l1 ++ l2))) ->
  yields (m ≫= f) Q.
Proof.
  intros Hm Hf w b w' E. unfold mbind, M_bind in E.
  destruct (m w) as [a w1 | c w1] eqn:Em; [| discriminate E].
  destruct (Hm w a w1 Em) as (evs1 & Et1 & HQ1).
  destruct (Hf a _ HQ1 w1 b w' E) as (evs2 & Et2 & HQ).
  exists (evs1 ++ evs2). rewrite Et2, Et1, app_assoc. split; [reflexivity |].
  unfold marks in *. rewrite omap_app. exact HQ.
Qed.

Lemma yields_weaken {A} (m : M A) (Q Q' : A -> list mark -> Prop) :
  yields m Q -> (forall a l, Q a l -> Q' a l) -> yields m Q'.
Proof.
  intros Hm HQ w a w' E. destruct (Hm w a w' E) as (evs & Et & H).
  exists evs. auto.
Qed.

Lemma yields_bind_silent {A B} (m : M A) (f : A -> M B)
    (Q : B -> list mark -> Prop) :
  yields m silent -> (forall a, yields (f a) Q) -> yields (m ≫= f) Q.
Proof.
  intros Hm Hf. eapply yields_bind; [exact Hm |].
  intros a l1 ->. exact (Hf a).
Qed.

Lemma yields_gets {A} (f : world -> A) : yields (gets f) silent.
Proof.
  intros w a w' E. inversion E; subst. exists []. rewrite app_nil_r.
  split; reflexivity.
Qed.

Lemma yields_modify (f : world -> world) :
  (forall w, trace (f w) = trace w) -> yields (modify f) silent.
Proof.
  intros Hf w a w' E. inversion E; subst. exists [].
  rewrite app_nil_r, Hf. split; reflexivity.
Qed.

Lemma yields_emit (e : event) :
  yields (emit e) (fun _ l => l = marks [e]).
Proof.
  intros w a w' E. inversion E; subst. exists [e]. split; reflexivity.
Qed.

Lemma yields_emit_silent (e : event) :
  mark_of e = None -> yields (emit e) silent.
Proof.
  intros He w a w' E. inversion E; subst. exists [e].
  split; [reflexivity |]. unfold silent, marks. simpl. rewrite He. reflexivity.
Qed.

Lemma yields_assert (b : build) (c : bool) (msg : string) :
  yields (assert b c msg) silent.
Proof.
  unfold assert. destruct (ndebug b); [apply yields_ret; reflexivity |].
  destruct c; [apply yields_ret; reflexivity | apply yields_die].
Qed.

Lemma yields_deref_request (p : Z) : yields (deref_request p) silent.
Proof.
  unfold deref_request. apply yields_bind_silent; [apply yields_gets |].
  intros [rq |]; [apply yields_ret; reflexivity | apply yields_die].
Qed.

Lemma yields_deref_callbacks (p : Z) : yields (deref_callbacks p) silent.
Proof.
  unfold deref_callbacks. apply yields_bind_silent; [apply yields_gets |].
  intros [cb |]; [apply yields_ret; reflexivity | apply yields_die].
Qed.

Lemma yields_callback_1arg (this : Z) (ty : uv_fs_type) (cid : Z) (arg : jobject) :
  yields (callback_1arg this ty cid arg) (fun _ l => l = [Called]).
Proof.
  unfold callback_1arg. apply yields_bind_silent; [apply yields_deref_callbacks |].
  intros cb. apply yields_emit.
Qed.

Lemma yields_callback_narg (this : Z) (ty : uv_fs_type) (cid : Z) (args : jobject) :
  yields (callback_narg this ty cid args) (fun _ l => l = [Called]).
Proof.
  unfold callback_narg. apply yields_bind_silent; [apply yields_deref_callbacks |].
  intros cb. apply yields_emit.
Qed.

Lemma yields_set_pending (t : option jthrowable) :
  yields (modify (set_pending t)) silent.
Proof. apply yields_modify. reflexivity. Qed.

Lemma yields_SetByteArrayRegion (array : jobject) (start len : Z)
    (buf : option (list jbyte)) :
  yields (SetByteArrayRegion array start len buf) silent.
Proof.
  unfold SetByteArrayRegion.
  apply yields_bind_silent; [apply yields_emit_silent; reflexivity |].
  intros _. destruct array; try apply yields_die.
  apply yields_bind_silent; [apply yields_gets |].
  intros h. destruct (h !! r); [| apply yields_die].
  destruct (negb _); [apply yields_set_pending |].
  destruct (len =? 0); [apply yields_ret; reflexivity |].
  destruct buf; [| apply yields_die].
  destruct (bool_decide _); [| apply yields_die].
  apply yields_modify. reflexivity.
Qed.

Lemma yields_get_array_region_from_bytes (p : Z) (len : Z) :
  yields (get_array_region_from_bytes p len) silent.
Proof.
  unfold get_array_region_from_bytes.
  apply yields_bind_silent; [apply yields_deref_request |]. intros rq.
  apply yields_bind_silent; [apply yields_SetByteArrayRegion |]. intros _.
  apply yields_ret. reflexivity.
Qed.

Lemma yields_NewObjectArray (n : Z) : yields (NewObjectArray n) silent.
Proof.
  unfold NewObjectArray. destruct (n <? 0); [| apply yields_ret; reflexivity].
  apply yields_bind_silent; [apply yields_set_pending |].
  intros _. apply yields_ret. reflexivity.
Qed.

Lemma yields_SetObjectArrayElement (array : jobject) (i : Z) (v : jobject) :
  yields (SetObjectArrayElement array i v) silent.
Proof.
  unfold SetObjectArrayElement. destruct array; try apply yields_die.
  destruct (bool_decide _); [apply yields_ret; reflexivity |].
  apply yields_bind_silent; [apply yields_set_pending |].
  intros _. apply yields_ret. reflexivity.
Qed.

Lemma yields_NewStringUTF (p : native_ptr) : yields (NewStringUTF p) silent.
Proof.
  unfold NewStringUTF. destruct p;
    [apply yields_ret; reflexivity | apply yields_die |].
  destruct (c_str mem); [apply yields_ret; reflexivity | apply yields_die].
Qed.

Lemma yields_next_name (b : build) (p : native_ptr) : yields (next_name b p) silent.
Proof.
  unfold next_name. destruct p; try apply yields_die.
  destruct (strlen mem); [| apply yields_die].
  destruct (ndebug b); [apply yields_ret; reflexivity |].
  apply yields_bind_silent; [apply yields_assert |].
  intros _. apply yields_ret. reflexivity.
Qed.

Lemma yields_name_loop (b : build) (todo : nat) :
  forall (i : Z) (p : native_ptr) (names : jobject),
    yields (name_loop b todo i p names) silent.
Proof.
  induction todo as [| todo IH]; intros i p names.
  - apply yields_ret. reflexivity.
  - cbn [name_loop].
    apply yields_bind_silent; [apply yields_NewStringUTF |]. intros name.
    apply yields_bind_silent; [apply yields_SetObjectArrayElement |]. intros names'.
    apply yields_bind_silent; [apply yields_next_name |]. intros p'.
    apply IH.
Qed.

Lemma yields_as_statbuf (p : native_ptr) : yields (as_statbuf p) silent.
Proof. destruct p; simpl; try apply yields_die; apply yields_ret; reflexivity. Qed.

Lemma yields_fs_cb_switch (b : build) (this request cid : Z) (ty : uv_fs_type)
    (n : Z) (p : native_ptr) :
  yields (fs_cb_switch b this request cid ty n p) switch_post.
Proof.
  destruct ty; cbn [fs_cb_switch]; try (apply yields_ret; reflexivity).
  - (* read *)
    apply yields_bind_silent; [apply yields_NewObjectArray |]. intros args.
    apply yields_bind_silent; [apply yields_assert |]. intros _.
    apply yields_bind_silent; [apply yields_SetObjectArrayElement |]. intros args1.
    apply yields_bind_silent; [apply yields_get_array_region_from_bytes |].
    intros buffer.
    apply yields_bind_silent; [apply yields_SetObjectArrayElement |]. intros args2.
    eapply yields_bind; [apply yields_callback_narg |].
    intros _ l ->. apply yields_ret. reflexivity.
  - (* sendfile: default *)
    apply yields_bind_silent; [apply yields_assert |]. intros _.
    apply yields_ret. reflexivity.
  - apply yields_bind_silent; [apply yields_as_statbuf |]. intros sb.
    apply yields_ret. reflexivity.
  - apply yields_bind_silent; [apply yields_as_statbuf |]. intros sb.
    apply yields_ret. reflexivity.
  - apply yields_bind_silent; [apply yields_as_statbuf |]. intros sb.
    apply yields_ret. reflexivity.
  - (* readdir *)
    apply yields_bind_silent; [apply yields_NewObjectArray |]. intros names.
    apply yields_bind_silent; [apply yields_name_loop |]. intros [names' p'].
    eapply yields_bind; [apply yields_callback_narg |].
    intros _ l ->. apply yields_ret. reflexivity.
  - (* readlink *)
    apply yields_bind_silent; [apply yields_NewStringUTF |]. intros link.
    apply yields_ret. reflexivity.
Qed.

Lemma yields_fs_cb (b : build) (this request : Z) (ty : uv_fs_type)
    (n : Z) (p : native_ptr) :
  yields (fs_cb b this request ty n p) (fun _ l => l = [Called]).
Proof.
  unfold fs_cb.
  apply yields_bind_silent; [apply yields_deref_request |]. intros rq.
  eapply yields_bind; [apply yields_fs_cb_switch |].
  intros [arg |] l Hl; simpl in Hl; subst l.
  - apply yields_callback_1arg.
  - apply yields_ret. reflexivity.
Qed.

Lemma yields_fs_cb_error (b : build) (this request : Z) (ty : uv_fs_type)
    (code : Z) (p : option string) :
  yields (fs_cb_error b this request ty code p) (fun _ l => l = [Called]).
Proof.
  unfold fs_cb_error.
  apply yields_bind_silent; [apply yields_deref_request |]. intros rq.
  apply yields_bind_silent; [apply yields_NewObjectArray |]. intros args.
  apply yields_bind_silent; [apply yields_assert |]. intros _.
  apply yields_bind_silent; [apply yields_SetObjectArrayElement |]. intros args1.
  apply yields_bind_silent; [apply yields_SetObjectArrayElement |]. intros args2.
  apply yields_callback_narg.
Qed.

Lemma yields_DeleteGlobalRef (o : jobject) : yields (DeleteGlobalRef o) silent.
Proof.
  unfold DeleteGlobalRef. destruct o; try (apply yields_ret; reflexivity).
  apply yields_bind_silent; [apply yields_gets |]. intros n.
  apply yields_bind_silent; [apply yields_modify; reflexivity |]. intros _.
  apply yields_emit_silent. reflexivity.
Qed.

Lemma yields_FileRequest_delete (p : Z) :
  yields (FileRequest_delete p) (fun _ l => l = [Disposed]).
Proof.
  unfold FileRequest_delete.
  apply yields_bind_silent; [apply yields_deref_request |]. intros rq.
  apply yields_bind_silent.
  { destruct (_read_buffer rq); try (apply yields_ret; reflexivity);
      apply yields_DeleteGlobalRef. }
  intros _.
  apply yields_bind_silent; [apply yields_modify; reflexivity |]. intros _.
  apply yields_emit.
Qed.

(** X1: whenever the hook returns, on the failure branch as on the success
    branch and for every operation kind, it has made exactly one callback
    and then disposed of the request exactly once. *)
Lemma hook_once_when_it_returns (b : build) (req : uv_fs_t) :
  yields (_fs_cb b req) (fun _ l => l = [Called; Disposed]).
Proof.
  unfold _fs_cb.
  apply yields_bind_silent; [apply yields_assert |]. intros _.
  apply yields_bind_silent; [apply yields_deref_request |]. intros rq.
  apply yields_bind_silent; [apply yields_assert |]. intros _.
  eapply yields_bind with (Q1 := fun _ l => l = [Called]).
  { destruct (result req =? -1); [apply yields_fs_cb_error | apply yields_fs_cb]. }
  intros _ l ->.
  apply yields_bind_silent; [apply yields_emit_silent; reflexivity |]. intros _.
  eapply yields_weaken; [apply yields_FileRequest_delete |].
  intros _ l ->. reflexivity.
Qed.

(** ** One callback per completion *)

(** For these kinds a success completion is one single-argument call,
    followed by the disposal of the request. *)
Lemma _fs_cb_simple_run (b : build) (req : uv_fs_t) (rq : FileRequest)
    (cb : FileCallbacks) (arg : jobject) (w : world) :
  data req <> 0 ->
  requests w !! data req = Some rq ->
  _callback_ptr rq <> 0 ->
  callbacks w !! _callback_ptr rq = Some cb ->
  result req <> -1 ->
  simple_arg (fs_type req) (result req) = Some arg ->
  _fs_cb b req w =
    Ret tt (disposed (data req) rq (push EvReqCleanup
      (push (EvCallback1 (_instance cb) (fs_type req) (_callback_id rq) arg) w))).
Proof.
  intros Hdata Hreq Hptr Hcb Hres Harg.
  rewrite (_fs_cb_run b req rq w Hdata Hreq Hptr).
  apply Z.eqb_neq in Hres. rewrite Hres.
  assert (Hcall : fs_cb b (_callback_ptr rq) (data req) (fs_type req)
                    (result req) (ptr req) w =
                  Ret tt (push (EvCallback1 (_instance cb) (fs_type req)
                                  (_callback_id rq) arg) w)).
  { unfold fs_cb.
    erewrite bind_ret by (apply deref_request_run; exact Hreq).
    destruct (fs_type req); simpl in Harg; try discriminate Harg;
      inversion Harg; subst arg;
      (erewrite bind_ret by reflexivity);
      apply callback_1arg_run; exact Hcb. }
  erewrite bind_ret by exact Hcall.
  erewrite bind_ret by reflexivity.
  apply FileRequest_delete_run. exact Hreq.
Qed.

(** C1, the failing input: an asynchronous sendfile is accepted, and its
    request created, by [_sendfile]; when the engine completes it with
    result 10, the success switch has no case for it. A debug build stops
    in the assertion of the default branch: no callback has been made and
    the request is still alive. A build with NDEBUG goes on to the
    single-argument call with an argument that was never assigned. *)
Theorem C1_sendfile_completion_unhandled :
  Files__sendfile debug_build 1 0 10 5 100 0 no_sync world_idle =
    Ret 0 world_sendfile /\
  _fs_cb debug_build sendfile_done world_sendfile =
    Crashed (AssertionFailed "Unhandled eio response") world_sendfile /\
  requests world_sendfile !! 1 = Some plain_request /\
  callbacks_made (trace (world_of (_fs_cb debug_build sendfile_done world_sendfile)))
    = [] /\
  _fs_cb release_build sendfile_done world_sendfile =
    Ret tt (disposed 1 plain_request (push EvReqCleanup
      (push (EvCallback1 7%nat UV_FS_SENDFILE 5 JIndeterminate) world_sendfile))).
Proof.
  repeat split; reflexivity.
Qed.

(** ** Submission of reads and writes *)

Lemma new_request_run (cb_ptr id : Z) (read_buffer : jobject)
    (byte_array_size offset : Z) (w : world) :
  new_request cb_ptr id read_buffer byte_array_size offset w =
  Ret (brk w)
    (created (request_of w cb_ptr id read_buffer byte_array_size offset) w).
Proof.
  unfold new_request, FileRequest_new, new_jbytes, created, request_of,
    scratch_of, retained.
  destruct (0 <? byte_array_size) eqn:Hpos.
  - assert (Hneg : (byte_array_size <? 0) = false)
      by (apply Z.ltb_ge; apply Z.ltb_lt in Hpos; lia).
    rewrite Hneg. destruct read_buffer; reflexivity.
  - destruct read_buffer; reflexivity.
Qed.

Lemma created_request (rq : FileRequest) (w : world) :
  requests (created rq w) !! brk w = Some rq.
Proof. unfold created. cbn. apply lookup_insert_eq. Qed.

Lemma created_trace (rq : FileRequest) (w : world) :
  trace (created rq w) = trace (retained (_read_buffer rq) w).
Proof. reflexivity. Qed.

(** The request an asynchronous [_read] creates: its scratch buffer has
    [length - offset] bytes, and none at all unless that is positive, while
    the engine is told to transfer [length] bytes into it. *)
Lemma read_async_request (b : build) (loop_ptr : Z) (buffer : jobject)
    (len offset position callback callback_ptr r : Z)
    (engine : nbuf -> uv_sync) (w : world) :
  loop_ptr <> 0 ->
  callback <> 0 ->
  jlong_range (len - offset) ->
  let rq := request_of w callback_ptr callback buffer (len - offset) offset in
  Files__read b loop_ptr buffer len offset position callback callback_ptr
    r engine w =
  Ret r (push (EvSubmit UV_FS_READ (brk w) (scratch_of w (len - offset)) len)
           (created rq w)).
Proof.
  intros Hloop Hcb Hrange rq.
  unfold Files__read.
  erewrite bind_ret by (apply assert_nonzero; exact Hloop).
  apply Z.eqb_neq in Hcb. rewrite Hcb. cbn [negb].
  rewrite (to_jlong_id _ Hrange).
  erewrite bind_ret by apply new_request_run.
  erewrite bind_ret by (apply deref_request_run, created_request).
  reflexivity.
Qed.

(** C2, the failing input: an asynchronous read of 10 bytes to offset 4 of
    the array. The request's scratch buffer is allocated with 10 - 4 = 6
    bytes, and the engine is handed that buffer together with the transfer
    length 10. *)
Theorem C2_read_scratch_is_length_minus_offset :
  Files__read debug_build 1 (JByteArray 3%nat) 10 4 0 5 100 0
    (fun _ => no_sync) world_buffer = Ret 0 world_read_submitted /\
  (_byte_array <$> requests world_read_submitted !! 1) = Some (Some six_bytes) /\
  nb_size six_bytes = 6 /\
  length (nb_mem six_bytes) = 6%nat /\
  last (trace world_read_submitted) =
    Some (EvSubmit UV_FS_READ 1 (Some six_bytes) 10).
Proof.
  repeat split; reflexivity.
Qed.

(** With offset 0 the scratch buffer does have the transfer length. *)
Lemma read_scratch_offset_zero (w : world) (len : Z) :
  0 < len ->
  scratch_of w (len - 0) =
    Some {| nb_size := len; nb_mem := uninit w <$> seqZ 0 len |}.
Proof.
  intros H. unfold scratch_of. rewrite Z.sub_0_r.
  apply Z.ltb_lt in H. rewrite H. reflexivity.
Qed.

(** An in-range [GetByteArrayRegion] into a native buffer that is large
    enough. *)
Lemma GetByteArrayRegion_run (r : jref) (a : list jbyte) (start len : Z)
    (buf : option (list jbyte)) (w : world) :
  jheap w !! r = Some a ->
  0 <= start -> 0 <= len -> start + len <= Z.of_nat (length a) ->
  len <= Z.of_nat (length (default [] buf)) ->
  GetByteArrayRegion (JByteArray r) start len buf w =
  Ret ((fun mem => take (Z.to_nat len) (drop (Z.to_nat start) a)
                   ++ drop (Z.to_nat len) mem) <$> buf)
      (push (EvGetByteArrayRegion (JByteArray r) start len) w).
Proof.
  intros Ha Hs Hl Hend Hmem.
  unfold GetByteArrayRegion, emit, modify, gets, mbind, M_bind, mret, M_ret.
  cbn [jheap push]. rewrite Ha.
  unfold region_ok. rewrite bool_decide_eq_true_2 by lia. cbn [negb].
  destruct (Z.eqb_spec len 0) as [-> | Hne].
  - destruct buf; reflexivity.
  - destruct buf as [mem |]; simpl in Hmem; [| lia].
    rewrite bool_decide_eq_true_2 by lia. reflexivity.
Qed.

Lemma get_bytes_from_array_region_run (p : Z) (rq : FileRequest) (r : jref)
    (a : list jbyte) (len offset : Z) (w : world) :
  requests w !! p = Some rq ->
  jheap w !! r = Some a ->
  0 <= offset -> 0 <= len -> offset + len <= Z.of_nat (length a) ->
  len <= Z.of_nat (length (mem_of (_byte_array rq))) ->
  let stage := fun mem => take (Z.to_nat len) (drop (Z.to_nat offset) a)
                          ++ drop (Z.to_nat len) mem in
  let w1 := push (EvGetByteArrayRegion (JByteArray r) offset len) w in
  get_bytes_from_array_region p (JByteArray r) len offset w =
  Ret (refill stage (_byte_array rq))
      (set_requests
         (<[p := with_scratch rq (refill stage (_byte_array rq))]> (requests w1))
         w1).
Proof.
  intros Hreq Ha Hoff Hlen Hend Hmem stage w1.
  unfold get_bytes_from_array_region.
  erewrite bind_ret by (apply deref_request_run; exact Hreq).
  erewrite bind_ret.
  2:{ apply (GetByteArrayRegion_run r a offset len); try assumption.
      unfold mem_of in Hmem. destruct (_byte_array rq); exact Hmem. }
  destruct (_byte_array rq); reflexivity.
Qed.

Lemma mem_of_scratch_length (w : world) (n : Z) :
  0 <= n -> Z.of_nat (length (mem_of (scratch_of w n))) = n.
Proof.
  intros Hn. unfold scratch_of.
  destruct (Z.ltb_spec 0 n); simpl.
  - rewrite length_fmap, length_seqZ. lia.
  - lia.
Qed.

(** C6, amended: an asynchronous write with arguments (data, length,
    offset), 0 <= offset <= size of data, allocates a scratch buffer of the
    size of data and places in it the size - offset bytes of data from index
    offset to its end; so, whenever offset + length <= size, the first
    length bytes of the scratch buffer, the ones the engine is asked to
    write, are the length bytes of data starting at offset. *)
Theorem C6_write_stages_tail (b : build) (loop_ptr : Z) (r : jref)
    (a : list jbyte) (len offset position callback callback_ptr r0 : Z)
    (engine : nbuf -> uv_sync) (w : world) :
  loop_ptr <> 0 ->
  callback <> 0 ->
  jheap w !! r = Some a ->
  0 <= offset <= Z.of_nat (length a) ->
  Z.of_nat (length a) < 2 ^ 31 ->
  let size := Z.of_nat (length a) in
  exists w' rq,
    Files__write b loop_ptr (JByteArray r) len offset position callback
      callback_ptr r0 engine w = Ret r0 w' /\
    requests w' !! brk w = Some rq /\
    staged a (size - offset) offset
      (mem_of (scratch_of w size)) (mem_of (_byte_array rq)) /\
    (0 <= len -> offset + len <= size ->
     take (Z.to_nat len) (mem_of (_byte_array rq)) =
     take (Z.to_nat len) (drop (Z.to_nat offset) a)) /\
    last (trace w') = Some (EvSubmit UV_FS_WRITE (brk w) (_byte_array rq) len).
Proof.
  intros Hloop Hcb Ha Hoff Hsize size.
  set (rq0 := request_of w callback_ptr callback JNull size 0).
  set (stage := fun mem : list jbyte =>
         take (Z.to_nat (size - offset)) (drop (Z.to_nat offset) a)
         ++ drop (Z.to_nat (size - offset)) mem).
  assert (Hstage0 : size = 0 -> stage [] = []).
  { intros E. unfold stage. destruct a; [| simpl in size; lia].
    rewrite !drop_nil, take_nil. reflexivity. }
  assert (Hmem : mem_of (refill stage (scratch_of w size)) =
                 stage (mem_of (scratch_of w size))).
  { unfold scratch_of. destruct (Z.ltb_spec 0 size); [reflexivity |].
    simpl. symmetry. apply Hstage0. unfold size in *. lia. }
  exists (push (EvSubmit UV_FS_WRITE (brk w)
                  (refill stage (scratch_of w size)) len)
            (set_requests
               (<[brk w := with_scratch rq0 (refill stage (scratch_of w size))]>
                  (requests (push (EvGetByteArrayRegion (JByteArray r) offset
                                     (size - offset)) (created rq0 w))))
               (push (EvGetByteArrayRegion (JByteArray r) offset (size - offset))
                  (created rq0 w)))),
         (with_scratch rq0 (refill stage (scratch_of w size))).
  split; [| split; [| split; [| split]]].
  - unfold Files__write.
    erewrite bind_ret by (apply assert_nonzero; exact Hloop).
    apply Z.eqb_neq in Hcb. rewrite Hcb. cbn [negb].
    erewrite bind_ret.
    2:{ unfold GetArrayLength, gets, mbind, M_bind. rewrite Ha. reflexivity. }
    erewrite bind_ret by apply new_request_run.
    fold size. fold rq0.
    rewrite !to_jsize_id by (unfold jint_range, size; lia).
    erewrite bind_ret.
    2:{ apply (get_bytes_from_array_region_run (brk w) rq0 r a
                 (size - offset) offset (created rq0 w)).
        - apply created_request.
        - exact Ha.
        - lia.
        - unfold size; lia.
        - unfold size; lia.
        - unfold rq0, request_of. cbn [_byte_array].
          rewrite mem_of_scratch_length by (unfold size; lia). lia. }
    reflexivity.
  - cbn [requests set_requests push]. apply lookup_insert_eq.
  - unfold staged. cbn [_byte_array with_scratch]. exact Hmem.
  - intros Hlen Hend. cbn [_byte_array with_scratch]. rewrite Hmem. unfold stage.
    rewrite take_app_le.
    + rewrite take_take. f_equal. lia.
    + rewrite length_take, length_drop. unfold size in *. lia.
  - cbn [trace push]. apply last_snoc.
Qed.

(** C6, counterexample: an asynchronous write of length 2 from offset 1 of
    [1;2;3;4;5]. The scratch buffer, fresh, reads [-1;-1;-1;-1;-1]; before
    submission it holds [2;3;4;5;-1]: four bytes were placed in it, not
    exactly two. *)
Lemma C6_write_stages_more_than_length :
  (mem_of <$> (_byte_array <$>
     requests (world_of (Files__write debug_build 1 (JByteArray 4%nat) 2 1 0 5
                           100 0 (fun _ => no_sync) world_source)) !! 1))
    = Some [2; 3; 4; 5; -1] /\
  mem_of (scratch_of world_source 5) = [-1; -1; -1; -1; -1] /\
  ~ staged [1; 2; 3; 4; 5] 2 1 [-1; -1; -1; -1; -1] [2; 3; 4; 5; -1].
Proof.
  split; [reflexivity |]. split; [reflexivity |].
  unfold staged. simpl. discriminate.
Qed.

Lemma C6_write_witness :
  exists w' rq,
    Files__write debug_build 1 (JByteArray 4%nat) 2 1 0 5 100 0
      (fun _ => no_sync) world_source = Ret 0 w' /\
    requests w' !! brk world_source = Some rq /\
    staged [1; 2; 3; 4; 5] (5 - 1) 1
      (mem_of (scratch_of world_source 5)) (mem_of (_byte_array rq)) /\
    (0 <= 2 -> 1 + 2 <= 5 ->
     take (Z.to_nat 2) (mem_of (_byte_array rq)) =
     take (Z.to_nat 2) (drop (Z.to_nat 1) [1; 2; 3; 4; 5])) /\
    last (trace w') = Some (EvSubmit UV_FS_WRITE (brk world_source) (_byte_array rq) 2).
Proof.
  apply (C6_write_stages_tail debug_build 1 4%nat [1; 2; 3; 4; 5] 2 1 0 5 100 0
           (fun _ => no_sync) world_source);
    [lia | lia | reflexivity | simpl; lia | simpl; lia].
Defined.

(** ** Blocking reads *)

Lemma new_jbytes_run (n : Z) (w : world) :
  0 <= n ->
  new_jbytes n w = Ret {| nb_size := n; nb_mem := uninit w <$> seqZ 0 n |} w.
Proof.
  intros Hn. unfold new_jbytes.
  replace (n <? 0) with false by (symmetry; apply Z.ltb_ge; lia).
  reflexivity.
Qed.

Lemma engine_write_run (n : Z) (old bytes : list jbyte) :
  Z.of_nat (length old) = n ->
  Z.of_nat (length bytes) <= n ->
  engine_write {| nb_size := n; nb_mem := old |} bytes =
    Some {| nb_size := n; nb_mem := bytes ++ drop (length bytes) old |} /\
  Z.of_nat (length (bytes ++ drop (length bytes) old)) = n.
Proof.
  intros Hold Hfit. split.
  - unfold engine_write. cbn [nb_size nb_mem].
    rewrite bool_decide_eq_true_2 by exact Hfit. reflexivity.
  - rewrite length_app, length_drop. lia.
Qed.

Lemma fresh_length (w : world) (n : Z) :
  0 <= n -> Z.of_nat (length (uninit w <$> seqZ 0 n)) = n.
Proof. intros Hn. rewrite length_fmap, length_seqZ. lia. Qed.

(** A blocking read to offset 0 whose destination region lies within the
    array, served by an engine that stays within the [length] bytes of the
    transient buffer, copies the [length] bytes of that buffer (what the
    engine stored, then what the allocation held) into the region before it
    looks at the engine's answer: the region is overwritten for every
    return value, the negative and the short ones included. *)
Lemma read_sync_overwrites (b : build) (loop_ptr : Z) (r : jref)
    (a : list jbyte) (len position callback_ptr r0 : Z)
    (engine : nbuf -> uv_sync) (w : world) :
  loop_ptr <> 0 ->
  jheap w !! r = Some a ->
  0 <= len <= Z.of_nat (length a) ->
  Z.of_nat (length a) < 2 ^ 31 ->
  let base := {| nb_size := len; nb_mem := uninit w <$> seqZ 0 len |} in
  let done := engine base in
  Z.of_nat (length (sy_mem done)) <= len ->
  Files__read b loop_ptr (JByteArray r) len 0 position 0 callback_ptr
    r0 engine w =
  Ret (sy_r done)
    ((if sy_r done <? 0
      then set_pending (Some (Thrown (sy_code done) (Some "uv_fs_read") None None))
      else id)
       (push EvReqCleanup
          (set_jheap
             (<[r := splice a 0 (sy_mem done ++
                                 drop (length (sy_mem done)) (nb_mem base))]>
                (jheap w))
             (push (EvSetByteArrayRegion (JByteArray r) 0 len) w)))).
Proof.
  intros Hloop Ha Hlen Hsize base done Hmem.
  unfold Files__read.
  erewrite bind_ret by (apply assert_nonzero; exact Hloop).
  cbn [Z.eqb negb]. rewrite Z.sub_0_r.
  rewrite to_jlong_id by (unfold jlong_range; lia).
  rewrite !to_jsize_id by (unfold jint_range; lia).
  erewrite bind_ret by (apply new_jbytes_run; lia).
  fold base. fold done.
  destruct (engine_write_run len (uninit w <$> seqZ 0 len) (sy_mem done))
    as [Hwrite Hfilled]; [apply fresh_length; lia | exact Hmem |].
  fold base in Hwrite. rewrite Hwrite.
  erewrite bind_ret by reflexivity.
  cbn [nb_mem].
  set (mem := sy_mem done ++ drop (length (sy_mem done)) (uninit w <$> seqZ 0 len)) in *.
  erewrite bind_ret
    by (apply (SetByteArrayRegion_run r a 0 len (Some mem) w);
        simpl; lia || assumption).
  erewrite bind_ret by reflexivity.
  change (default [] (Some mem)) with mem.
  rewrite (take_ge mem) by lia.
  destruct (sy_r done <? 0); reflexivity.
Qed.

Example read_sync_failed_overwrites :
  jheap (world_of (Files__read debug_build 1 (JByteArray 3%nat) 8 0 0 0 0 0
                     failed_read world_buffer)) !! 3%nat =
  Some ([1; 2; 3; 4; 5; 6; 7; 8] ++ replicate 8 0).
Proof. reflexivity. Qed.

Example read_sync_short_overwrites :
  jheap (world_of (Files__read debug_build 1 (JByteArray 3%nat) 8 0 0 0 0 0
                     short_read world_buffer)) !! 3%nat =
  Some ([1; 2; 3; 4; 5; 6; 7; 8] ++ replicate 8 0).
Proof. reflexivity. Qed.

(** C10, the failing input: a blocking read of 2 bytes to offset 4 of the
    sixteen-byte array. The region 4..5 lies within the array, but the
    transient buffer is allocated with [length - offset] = -2 bytes, which
    no allocation can satisfy: the call ends there, before the engine is
    asked and before the copy; the array is untouched and no exception is
    pending. *)
Theorem C10_read_sync_offset_beyond_length :
  Files__read debug_build 1 (JByteArray 3%nat) 2 4 0 0 0 0 failed_read world_buffer
    = Crashed BadAlloc world_buffer /\
  Files__read release_build 1 (JByteArray 3%nat) 2 4 0 0 0 0 short_read world_buffer
    = Crashed BadAlloc world_buffer /\
  jheap world_buffer !! 3%nat = Some (replicate 16 0) /\
  trace world_buffer = [].
Proof.
  repeat split; reflexivity.
Qed.


(** * Properties beyond the claims *)

(** ** Frames: what the hook leaves alone *)

Lemma bind_assoc {A B C} (m : M A) (f : A -> M B) (g : B -> M C) (w : world) :
  ((m ≫= f) ≫= g) w = (m ≫= fun a => f a ≫= g) w.
Proof. unfold mbind, M_bind. destruct (m w); reflexivity. Qed.

Section Frame.
Context {X : Type}.
Variable f : world -> X.
Hypothesis f_push : forall e w, f (push e w) = f w.

Lemma preserves_ret {A} (a : A) : preserves f (mret a).
Proof. intros w. reflexivity. Qed.

Lemma preserves_die {A} (c : crash) : preserves f (die c : M A).
Proof. intros w. reflexivity. Qed.

Lemma preserves_bind {A B} (m : M A) (k : A -> M B) :
  preserves f m -> (forall a, preserves f (k a)) -> preserves f (m ≫= k).
Proof.
  intros Hm Hk w. specialize (Hm w). unfold mbind, M_bind.
  destruct (m w) as [a w1 | c w1]; simpl in Hm.
  - rewrite Hk. exact Hm.
  - exact Hm.
Qed.

Lemma preserves_gets {A} (g : world -> A) : preserves f (gets g).
Proof. intros w. reflexivity. Qed.

Lemma preserves_modify (g : world -> world) :
  (forall w, f (g w) = f w) -> preserves f (modify g).
Proof. intros Hg w. apply Hg. Qed.

Lemma preserves_emit (e : event) : preserves f (emit e).
Proof. apply preserves_modify. apply f_push. Qed.

Lemma preserves_assert (b : build) (c : bool) (msg : string) :
  preserves f (assert b c msg).
Proof.
  unfold assert. destruct (ndebug b); [apply preserves_ret |].
  destruct c; [apply preserves_ret | apply preserves_die].
Qed.

Lemma preserves_deref_request (p : Z) : preserves f (deref_request p).
Proof.
  unfold deref_request. apply preserves_bind; [apply preserves_gets |].
  intros [rq |]; [apply preserves_ret | apply preserves_die].
Qed.

Lemma preserves_deref_callbacks (p : Z) : preserves f (deref_callbacks p).
Proof.
  unfold deref_callbacks. apply preserves_bind; [apply preserves_gets |].
  intros [cb |]; [apply preserves_ret | apply preserves_die].
Qed.

Lemma preserves_callback_1arg (this : Z) (ty : uv_fs_type) (cid : Z) (arg : jobject) :
  preserves f (callback_1arg this ty cid arg).
Proof.
  unfold callback_1arg. apply preserves_bind; [apply preserves_deref_callbacks |].
  intros cb. apply preserves_emit.
Qed.

Lemma preserves_callback_narg (this : Z) (ty : uv_fs_type) (cid : Z) (args : jobject) :
  preserves f (callback_narg this ty cid args).
Proof.
  unfold callback_narg. apply preserves_bind; [apply preserves_deref_callbacks |].
  intros cb. apply preserves_emit.
Qed.

Lemma preserves_as_statbuf (p : native_ptr) : preserves f (as_statbuf p).
Proof. destruct p; simpl; try apply preserves_die; apply preserves_ret. Qed.

Lemma preserves_NewStringUTF (p : native_ptr) : preserves f (NewStringUTF p).
Proof.
  unfold NewStringUTF. destruct p; [apply preserves_ret | apply preserves_die |].
  destruct (c_str mem); [apply preserves_ret | apply preserves_die].
Qed.

Lemma preserves_next_name (b : build) (p : native_ptr) : preserves f (next_name b p).
Proof.
  unfold next_name. destruct p; try apply preserves_die.
  destruct (strlen mem); [| apply preserves_die].
  destruct (ndebug b); [apply preserves_ret |].
  apply preserves_bind; [apply preserves_assert |]. intros _. apply preserves_ret.
Qed.

(** The failure overload only makes its call. *)
Lemma preserves_fs_cb_error (b : build) (this request : Z) (ty : uv_fs_type)
    (code : Z) (p : option string) :
  preserves f (fs_cb_error b this request ty code p).
Proof.
  intros w.
  unfold fs_cb_error, deref_request, callback_narg, deref_callbacks,
    NewObjectArray, SetObjectArrayElement, assert, gets, emit, modify, die,
    mbind, M_bind, mret, M_ret.
  simpl. destruct (requests w !! request); simpl; [| reflexivity].
  destruct (ndebug b); simpl; destruct (callbacks w !! this); simpl;
    rewrite ?f_push; reflexivity.
Qed.

Section Pending.
Hypothesis f_pending : forall t w, f (set_pending t w) = f w.

Lemma preserves_set_pending (t : option jthrowable) :
  preserves f (modify (set_pending t)).
Proof. apply preserves_modify. apply f_pending. Qed.

Lemma preserves_NewObjectArray (n : Z) : preserves f (NewObjectArray n).
Proof.
  unfold NewObjectArray. destruct (n <? 0); [| apply preserves_ret].
  apply preserves_bind; [apply preserves_set_pending |].
  intros _. apply preserves_ret.
Qed.

Lemma preserves_SetObjectArrayElement (array : jobject) (i : Z) (v : jobject) :
  preserves f (SetObjectArrayElement array i v).
Proof.
  unfold SetObjectArrayElement. destruct array; try apply preserves_die.
  destruct (bool_decide _); [apply preserves_ret |].
  apply preserves_bind; [apply preserves_set_pending |].
  intros _. apply preserves_ret.
Qed.

Lemma preserves_name_loop (b : build) (todo : nat) :
  forall (i : Z) (p : native_ptr) (names : jobject),
    preserves f (name_loop b todo i p names).
Proof.
  induction todo as [| todo IH]; intros i p names.
  - apply preserves_ret.
  - cbn [name_loop].
    apply preserves_bind; [apply preserves_NewStringUTF |]. intros name.
    apply preserves_bind; [apply preserves_SetObjectArrayElement |]. intros names'.
    apply preserves_bind; [apply preserves_next_name |]. intros p'.
    apply IH.
Qed.

Lemma preserves_SetByteArrayRegion (array : jobject) (start len : Z)
    (buf : option (list jbyte)) :
  (forall h w, f (set_jheap h w) = f w) ->
  preserves f (SetByteArrayRegion array start len buf).
Proof.
  intros f_heap. unfold SetByteArrayRegion.
  apply preserves_bind; [apply preserves_emit |]. intros _.
  destruct array; try apply preserves_die.
  apply preserves_bind; [apply preserves_gets |]. intros h.
  destruct (h !! r); [| apply preserves_die].
  destruct (negb _); [apply preserves_set_pending |].
  destruct (len =? 0); [apply preserves_ret |].
  destruct buf; [| apply preserves_die].
  destruct (bool_decide _); [| apply preserves_die].
  apply preserves_modify. apply f_heap.
Qed.

(** The success switch: only the read branch needs [f] to ignore the Java
    heap. *)
Lemma preserves_fs_cb_switch (b : build) (this request cid : Z) (ty : uv_fs_type)
    (n : Z) (p : native_ptr) :
  (ty = UV_FS_READ -> forall h w, f (set_jheap h w) = f w) ->
  preserves f (fs_cb_switch b this request cid ty n p).
Proof.
  intros f_heap.
  destruct ty; cbn [fs_cb_switch]; try apply preserves_ret.
  - apply preserves_bind; [apply preserves_NewObjectArray |]. intros args.
    apply preserves_bind; [apply preserves_assert |]. intros _.
    apply preserves_bind; [apply preserves_SetObjectArrayElement |]. intros args1.
    apply preserves_bind.
    { unfold get_array_region_from_bytes.
      apply preserves_bind; [apply preserves_deref_request |]. intros rq.
      apply preserves_bind;
        [apply preserves_SetByteArrayRegion, f_heap; reflexivity |].
      intros _. apply preserves_ret. }
    intros buffer.
    apply preserves_bind; [apply preserves_SetObjectArrayElement |]. intros args2.
    apply preserves_bind; [apply preserves_callback_narg |]. intros _.
    apply preserves_ret.
  - apply preserves_bind; [apply preserves_assert |]. intros _. apply preserves_ret.
  - apply preserves_bind; [apply preserves_as_statbuf |]. intros sb. apply preserves_ret.
  - apply preserves_bind; [apply preserves_as_statbuf |]. intros sb. apply preserves_ret.
  - apply preserves_bind; [apply preserves_as_statbuf |]. intros sb. apply preserves_ret.
  - apply preserves_bind; [apply preserves_NewObjectArray |]. intros names.
    apply preserves_bind; [apply preserves_name_loop |]. intros [names' p'].
    apply preserves_bind; [apply preserves_callback_narg |]. intros _.
    apply preserves_ret.
  - apply preserves_bind; [apply preserves_NewStringUTF |]. intros link.
    apply preserves_ret.
Qed.

Lemma preserves_fs_cb (b : build) (this request : Z) (ty : uv_fs_type)
    (n : Z) (p : native_ptr) :
  (ty = UV_FS_READ -> forall h w, f (set_jheap h w) = f w) ->
  preserves f (fs_cb b this request ty n p).
Proof.
  intros f_heap. unfold fs_cb.
  apply preserves_bind; [apply preserves_deref_request |]. intros rq.
  apply preserves_bind; [apply preserves_fs_cb_switch; exact f_heap |].
  intros [arg |]; [apply preserves_callback_1arg | apply preserves_ret].
Qed.
End Pending.

(** The success switch of the kinds that build no array sets no pending
    exception either. *)
Lemma preserves_fs_cb_plain (b : build) (this request : Z) (ty : uv_fs_type)
    (n : Z) (p : native_ptr) :
  ty <> UV_FS_READ -> ty <> UV_FS_READDIR ->
  preserves f (fs_cb b this request ty n p).
Proof.
  intros Hread Hreaddir. unfold fs_cb.
  apply preserves_bind; [apply preserves_deref_request |]. intros rq.
  apply preserves_bind.
  { destruct ty; cbn [fs_cb_switch]; try apply preserves_ret;
      try contradiction.
    - apply preserves_bind; [apply preserves_assert |]. intros _.
      apply preserves_ret.
    - apply preserves_bind; [apply preserves_as_statbuf |]. intros sb.
      apply preserves_ret.
    - apply preserves_bind; [apply preserves_as_statbuf |]. intros sb.
      apply preserves_ret.
    - apply preserves_bind; [apply preserves_as_statbuf |]. intros sb.
      apply preserves_ret.
    - apply preserves_bind; [apply preserves_NewStringUTF |]. intros link.
      apply preserves_ret. }
  intros [arg |]; [apply preserves_callback_1arg | apply preserves_ret].
Qed.

Lemma preserves_DeleteGlobalRef (o : jobject) :
  (forall g w, f (set_grefs g w) = f w) -> preserves f (DeleteGlobalRef o).
Proof.
  intros f_grefs. unfold DeleteGlobalRef. destruct o; try apply preserves_ret.
  apply preserves_bind; [apply preserves_gets |]. intros n.
  apply preserves_bind; [apply preserves_modify; intros w; apply f_grefs |].
  intros _. apply preserves_emit.
Qed.

Lemma preserves_FileRequest_delete (p : Z) :
  (forall g w, f (set_grefs g w) = f w) ->
  (forall r w, f (set_requests r w) = f w) ->
  preserves f (FileRequest_delete p).
Proof.
  intros f_grefs f_requests. unfold FileRequest_delete.
  apply preserves_bind; [apply preserves_deref_request |]. intros rq.
  apply preserves_bind.
  { destruct (_read_buffer rq); try apply preserves_ret.
    apply preserves_DeleteGlobalRef. exact f_grefs. }
  intros _.
  apply preserves_bind; [apply preserves_modify; intros w; apply f_requests |].
  intros _. apply preserves_emit.
Qed.

(** The hook around its branch. *)
Lemma preserves_hook (b : build) (req : uv_fs_t) :
  (forall g w, f (set_grefs g w) = f w) ->
  (forall r w, f (set_requests r w) = f w) ->
  (forall rq : FileRequest,
     preserves f
       (if result req =? -1
        then fs_cb_error b (_callback_ptr rq) (data req) (fs_type req)
               (errorno req) (path req)
        else fs_cb b (_callback_ptr rq) (data req) (fs_type req)
               (result req) (ptr req))) ->
  preserves f (_fs_cb b req).
Proof.
  intros f_grefs f_requests Hbranch. unfold _fs_cb.
  apply preserves_bind; [apply preserves_assert |]. intros _.
  apply preserves_bind; [apply preserves_deref_request |]. intros rq.
  apply preserves_bind; [apply preserves_assert |]. intros _.
  apply preserves_bind; [apply Hbranch |]. intros _.
  apply preserves_bind; [apply preserves_emit |]. intros _.
  apply preserves_FileRequest_delete; assumption.
Qed.
End Frame.

(** X2: the hook writes to the Java arrays on a successful read only. On a
    failure completion, and on a success completion of any other kind, the
    Java heap is left as it was, whether the hook returns or crashes. *)
Theorem hook_writes_arrays_only_on_read (b : build) (req : uv_fs_t) (w : world) :
  result req = -1 \/ fs_type req <> UV_FS_READ ->
  jheap (world_of (_fs_cb b req w)) = jheap w.
Proof.
  intros H.
  apply (preserves_hook jheap (fun _ _ => eq_refl) b req);
    [reflexivity | reflexivity |].
  intros rq. destruct (Z.eqb_spec (result req) (-1)) as [E | E].
  - apply preserves_fs_cb_error. reflexivity.
  - destruct H as [H | H]; [contradiction |].
    apply preserves_fs_cb; [reflexivity | reflexivity |].
    intros Hty. contradiction.
Qed.

Lemma hook_writes_arrays_witness :
  jheap (world_of (_fs_cb debug_build read_failed world_reading)) =
  jheap world_reading.
Proof.
  apply (hook_writes_arrays_only_on_read debug_build read_failed world_reading).
  left. reflexivity.
Defined.

(** X3: an asynchronous failure is delivered as a value, never raised: on a
    completion with result -1 the pending Java exception is left as it was.
    The same holds for a success completion of every kind that builds no
    array (all but read and readdir). *)
Theorem hook_failure_raises_nothing (b : build) (req : uv_fs_t) (w : world) :
  result req = -1 \/
  (fs_type req <> UV_FS_READ /\ fs_type req <> UV_FS_READDIR) ->
  pending (world_of (_fs_cb b req w)) = pending w.
Proof.
  intros H.
  apply (preserves_hook pending (fun _ _ => eq_refl) b req);
    [reflexivity | reflexivity |].
  intros rq. destruct (Z.eqb_spec (result req) (-1)) as [E | E].
  - apply preserves_fs_cb_error. reflexivity.
  - destruct H as [H | [H1 H2]]; [contradiction |].
    apply preserves_fs_cb_plain; [reflexivity | assumption | assumption].
Qed.

Lemma hook_failure_raises_nothing_witness :
  pending (world_of (_fs_cb debug_build open_failed world1)) = pending world1.
Proof.
  apply (hook_failure_raises_nothing debug_build open_failed world1).
  left. reflexivity.
Defined.

(** ** Disposal *)

Lemma disposal_transfer (p : Z) (w w1 : world) (o : outcome unit) :
  requests w1 = requests w -> grefs w1 = grefs w ->
  disposal p w1 o -> disposal p w o.
Proof.
  intros Hr Hg. unfold disposal, gref_count. rewrite Hr, Hg. tauto.
Qed.

Lemma disposal_bind {A} (p : Z) (m : M A) (k : A -> M unit) (w : world) :
  preserves requests m -> preserves grefs m ->
  (forall a w1, disposal p w1 (k a w1)) ->
  disposal p w ((m ≫= k) w).
Proof.
  intros Hr Hg Hk. specialize (Hr w). specialize (Hg w).
  unfold mbind, M_bind. destruct (m w) as [a w1 | c w1]; simpl in Hr, Hg.
  - apply (disposal_transfer p w w1); auto.
  - split; assumption.
Qed.

Lemma disposal_delete (p : Z) (w : world) : disposal p w (FileRequest_delete p w).
Proof.
  destruct (requests w !! p) as [rq |] eqn:E.
  - rewrite (FileRequest_delete_run p rq w E). split.
    + unfold disposed. cbn [requests push set_requests]. rewrite released_requests.
      reflexivity.
    + intros rq' Hrq'. assert (rq' = rq) by congruence. subst rq'. intros obj.
      unfold disposed, released, holds_ref, gref_count.
      destruct (_read_buffer rq) as [| | | | | r | | |]; try reflexivity.
      cbn [grefs push set_requests set_grefs].
      destruct (bool_decide_reflect (r = obj)) as [-> | Hne].
      * rewrite lookup_insert_eq. reflexivity.
      * rewrite lookup_insert_ne by exact Hne. reflexivity.
  - unfold FileRequest_delete, deref_request, gets, mbind, M_bind. rewrite E.
    split; reflexivity.
Qed.

(** X4: the request is disposed of exactly when the hook returns. When it
    returns, the request has left the table of live requests, every other
    request is untouched, and one global reference has been given back on
    the destination buffer the request held, none on any other object. When
    the hook crashes, requests and global references are as they were. *)
Theorem hook_disposes_iff_it_returns (b : build) (req : uv_fs_t) (w : world) :
  disposal (data req) w (_fs_cb b req w).
Proof.
  unfold _fs_cb.
  apply disposal_bind; [apply preserves_assert; reflexivity .. |]. intros _ w1.
  apply disposal_bind; [apply preserves_deref_request; reflexivity .. |].
  intros rq w2.
  apply disposal_bind; [apply preserves_assert; reflexivity .. |]. intros _ w3.
  apply disposal_bind.
  - destruct (result req =? -1);
      [apply preserves_fs_cb_error | apply preserves_fs_cb]; reflexivity.
  - destruct (result req =? -1);
      [apply preserves_fs_cb_error | apply preserves_fs_cb]; reflexivity.
  - intros _ w4.
    apply disposal_bind; [apply preserves_emit; reflexivity .. |]. intros _ w5.
    apply disposal_delete.
Qed.

Lemma hook_disposes_witness :
  disposal 1 world_reading (_fs_cb debug_build (read_done 5) world_reading).
Proof.
  exact (hook_disposes_iff_it_returns debug_build (read_done 5) world_reading).
Defined.

Lemma hook_once_witness :
  exists evs,
    trace (world_of (_fs_cb debug_build open_failed world1)) = trace world1 ++ evs /\
    marks evs = [Called; Disposed].
Proof.
  exact (hook_once_when_it_returns debug_build open_failed world1 tt
           (world_of (_fs_cb debug_build open_failed world1)) eq_refl).
Defined.

(** ** Blocking calls *)

(** X5: a blocking status operation (close, unlink, mkdir, rmdir, rename,
    fsync, fdatasync, ftruncate, chmod, utime, futime, link, symlink,
    fchmod, chown, fchown) returns the engine's status; it releases the
    engine's request exactly once, on the failure path as on the success
    path; it raises the translated exception, with the name of the call and
    the path of the operation, exactly when the status is negative; it
    creates no request, makes no callback and touches no Java array. *)
Theorem status_blocking (ty : uv_fs_type) (syscall : string)
    (cpath : option string) (b : build) (loop_ptr callback_ptr r : Z)
    (done : uv_sync) (w : world) :
  loop_ptr <> 0 ->
  exists w',
    status_entry ty syscall cpath b loop_ptr 0 callback_ptr r done w =
      Ret (sy_r done) w' /\
    trace w' = trace w ++ [EvReqCleanup] /\
    requests w' = requests w /\ jheap w' = jheap w /\ grefs w' = grefs w /\
    pending w' =
      (if sy_r done <? 0
       then Some (Thrown (sy_code done) (Some syscall) None cpath)
       else pending w).
Proof.
  intros Hloop. unfold status_entry.
  erewrite bind_ret by (apply assert_nonzero; exact Hloop).
  cbn [Z.eqb negb].
  erewrite bind_ret by reflexivity.
  destruct (sy_r done <? 0); eexists; (split; [reflexivity |]);
    repeat split; reflexivity.
Qed.

Lemma status_blocking_witness :
  exists w',
    Files__unlink "missing" debug_build 1 0 0 0 unlink_failed world0 =
      Ret (sy_r unlink_failed) w' /\
    trace w' = trace world0 ++ [EvReqCleanup] /\
    requests w' = requests world0 /\ jheap w' = jheap world0 /\
    grefs w' = grefs world0 /\
    pending w' =
      (if sy_r unlink_failed <? 0
       then Some (Thrown (sy_code unlink_failed) (Some "uv_fs_unlink") None
                    (Some "missing"))
       else pending world0).
Proof.
  apply (status_blocking UV_FS_UNLINK "uv_fs_unlink" (Some "missing")
           debug_build 1 0 0 unlink_failed world0).
  lia.
Defined.

(** X6: the blocking open raises its exception exactly when the engine
    answers -1: any other answer, another negative one included, is
    returned as the descriptor with no exception raised. The engine's
    request is released in both cases. *)
Theorem open_blocking_raises_only_on_minus_one (b : build)
    (loop_ptr callback_ptr r : Z) (cpath : string) (done : uv_sync) (w : world) :
  loop_ptr <> 0 ->
  exists w',
    Files__open b loop_ptr cpath 0 callback_ptr r done w = Ret (sy_r done) w' /\
    trace w' = trace w ++ [EvReqCleanup] /\
    (sy_r done = -1 ->
     pending w' = Some (Thrown (sy_code done) (Some "uv_fs_open") None (Some cpath))) /\
    (sy_r done <> -1 -> pending w' = pending w).
Proof.
  intros Hloop. unfold Files__open.
  erewrite bind_ret by (apply assert_nonzero; exact Hloop).
  cbn [Z.eqb negb].
  erewrite bind_ret by reflexivity.
  destruct (Z.eqb_spec (sy_r done) (-1)) as [E | E]; eexists;
    (split; [reflexivity |]); (split; [reflexivity |]); split; intros H;
    try reflexivity; contradiction.
Qed.

Lemma open_blocking_witness :
  exists w',
    Files__open debug_build 1 "f" 0 0 0 open_minus_two world0 =
      Ret (sy_r open_minus_two) w' /\
    trace w' = trace world0 ++ [EvReqCleanup] /\
    (sy_r open_minus_two = -1 ->
     pending w' = Some (Thrown (sy_code open_minus_two) (Some "uv_fs_open") None
                          (Some "f"))) /\
    (sy_r open_minus_two <> -1 -> pending w' = pending world0).
Proof.
  apply (open_blocking_raises_only_on_minus_one debug_build 1 0 0 "f"
           open_minus_two world0).
  lia.
Defined.

(** ** Asynchronous submissions and their completions *)

Lemma status_async_run (ty : uv_fs_type) (syscall : string)
    (cpath : option string) (b : build) (loop_ptr callback callback_ptr r : Z)
    (done : uv_sync) (w : world) :
  loop_ptr <> 0 -> callback <> 0 ->
  status_entry ty syscall cpath b loop_ptr callback callback_ptr r done w =
  Ret r (push (EvSubmit ty (brk w) None 0)
           (created (request_of w callback_ptr callback JNull 0 0) w)).
Proof.
  intros Hloop Hcb. unfold status_entry.
  erewrite bind_ret by (apply assert_nonzero; exact Hloop).
  apply Z.eqb_neq in Hcb. rewrite Hcb. cbn [negb].
  unfold new_request0.
  erewrite bind_ret by apply new_request_run.
  reflexivity.
Qed.

(** X7: an asynchronous status operation creates exactly one request, at a
    fresh address, carrying the dispatcher and the callback id it was given
    and neither buffer nor scratch; it leaves every other request, the Java
    arrays, the global references and the pending exception alone, and
    returns the engine's answer to the submission. This holds for a
    negative answer too: a rejected submission raises nothing and its
    request stays alive. *)
Theorem status_async_submission (ty : uv_fs_type) (syscall : string)
    (cpath : option string) (b : build) (loop_ptr callback callback_ptr r : Z)
    (done : uv_sync) (w : world) :
  loop_ptr <> 0 -> callback <> 0 ->
  exists w',
    status_entry ty syscall cpath b loop_ptr callback callback_ptr r done w =
      Ret r w' /\
    requests w' !! brk w =
      Some {| _callback_ptr := callback_ptr; _callback_id := callback;
              _read_buffer_offset := 0; _read_buffer := JNull;
              _byte_array := None |} /\
    (forall p, p <> brk w -> requests w' !! p = requests w !! p) /\
    trace w' = trace w ++ [EvSubmit ty (brk w) None 0] /\
    pending w' = pending w /\ jheap w' = jheap w /\ grefs w' = grefs w.
Proof.
  intros Hloop Hcb. eexists. split; [apply status_async_run; assumption |].
  split; [apply created_request |].
  split.
  { intros p Hp. cbn. apply lookup_insert_ne. congruence. }
  repeat split; reflexivity.
Qed.

Lemma status_async_submission_witness :
  exists w',
    Files__close debug_build 1 5 100 (-1) no_sync world_idle = Ret (-1) w' /\
    requests w' !! brk world_idle =
      Some {| _callback_ptr := 100; _callback_id := 5;
              _read_buffer_offset := 0; _read_buffer := JNull;
              _byte_array := None |} /\
    (forall p, p <> brk world_idle -> requests w' !! p = requests world_idle !! p) /\
    trace w' = trace world_idle ++ [EvSubmit UV_FS_CLOSE (brk world_idle) None 0] /\
    pending w' = pending world_idle /\ jheap w' = jheap world_idle /\
    grefs w' = grefs world_idle.
Proof.
  apply (status_async_submission UV_FS_CLOSE "uv_fs_close" None debug_build
           1 5 100 (-1) no_sync world_idle); lia.
Defined.

Lemma _fs_cb_failure_run (b : build) (req : uv_fs_t) (rq : FileRequest)
    (cb : FileCallbacks) (w : world) :
  data req <> 0 ->
  requests w !! data req = Some rq ->
  _callback_ptr rq <> 0 ->
  callbacks w !! _callback_ptr rq = Some cb ->
  result req = -1 ->
  _fs_cb b req w =
    Ret tt (disposed (data req) rq (push EvReqCleanup
      (push (EvCallbackN (_instance cb) (fs_type req) (_callback_id rq)
               (JObjectArray [JInteger (-1);
                              NewException (errorno req) None None (path req)]))
         w))).
Proof.
  intros Hdata Hreq Hptr Hcb Hres.
  rewrite (_fs_cb_run b req rq w Hdata Hreq Hptr). rewrite Hres.
  cbn [Z.eqb Pos.eqb].
  erewrite bind_ret by (apply fs_cb_error_run; eassumption).
  erewrite bind_ret by reflexivity.
  apply FileRequest_delete_run. exact Hreq.
Qed.

(** X8: a status operation submitted asynchronously and then completed by
    the engine makes exactly one call, on the receiver bound to the
    dispatcher given at submission, with the operation kind and the callback
    id given at submission: the failure pair when the result is -1, else the
    value of the kind (null, Integer or Long of the result). Afterwards the
    request is gone and arrays, references and pending exception are as
    before the submission. *)
Theorem status_async_round (ty : uv_fs_type) (syscall : string)
    (cpath : option string) (b : build) (loop_ptr callback callback_ptr r : Z)
    (done : uv_sync) (cb : FileCallbacks) (n code : Z) (pth : option string)
    (q : native_ptr) (arg : jobject) (w : world) :
  loop_ptr <> 0 -> callback <> 0 -> callback_ptr <> 0 -> brk w <> 0 ->
  callbacks w !! callback_ptr = Some cb ->
  n = -1 \/ simple_arg ty n = Some arg ->
  let w1 := world_of (status_entry ty syscall cpath b loop_ptr callback
                        callback_ptr r done w) in
  exists w2,
    _fs_cb b (completion ty n code pth q (brk w)) w1 = Ret tt w2 /\
    trace w2 = trace w ++
      [EvSubmit ty (brk w) None 0;
       status_callback (_instance cb) ty callback n code pth arg;
       EvReqCleanup; EvDeleteRequest (brk w)] /\
    requests w2 = delete (brk w) (requests w) /\
    pending w2 = pending w /\ jheap w2 = jheap w /\ grefs w2 = grefs w.
Proof.
  intros Hloop Hcbid Hptr Hbrk Hcb Hn w1. subst w1.
  rewrite (status_async_run ty syscall cpath b loop_ptr callback callback_ptr
             r done w Hloop Hcbid).
  cbn [world_of].
  set (rq := request_of w callback_ptr callback JNull 0 0).
  set (w1 := push (EvSubmit ty (brk w) None 0) (created rq w)).
  assert (Hreq : requests w1 !! brk w = Some rq) by apply created_request.
  assert (Hcb1 : callbacks w1 !! callback_ptr = Some cb) by exact Hcb.
  destruct (Z.eq_dec n (-1)) as [-> | Hne].
  - eexists. split.
    { apply (_fs_cb_failure_run b (completion ty (-1) code pth q (brk w)) rq cb w1);
        [exact Hbrk | exact Hreq | exact Hptr | exact Hcb1 | reflexivity]. }
    rewrite disposed_trace. cbn.
    split; [rewrite <- !app_assoc; reflexivity |].
    split; [apply delete_insert_eq |].
    repeat split; reflexivity.
  - destruct Hn as [Hn | Hn]; [contradiction |].
    eexists. split.
    { apply (_fs_cb_simple_run b (completion ty n code pth q (brk w)) rq cb arg w1);
        [exact Hbrk | exact Hreq | exact Hptr | exact Hcb1 | exact Hne | exact Hn]. }
    rewrite disposed_trace. unfold status_callback.
    apply Z.eqb_neq in Hne. rewrite Hne. cbn.
    split; [rewrite <- !app_assoc; reflexivity |].
    split; [apply delete_insert_eq |].
    repeat split; reflexivity.
Qed.

Lemma status_async_round_witness :
  exists w2,
    _fs_cb debug_build (completion UV_FS_CLOSE 0 0 None PNull (brk world_idle))
      (world_of (Files__close debug_build 1 5 100 0 no_sync world_idle)) =
      Ret tt w2 /\
    trace w2 = trace world_idle ++
      [EvSubmit UV_FS_CLOSE (brk world_idle) None 0;
       status_callback 7%nat UV_FS_CLOSE 5 0 0 None JNull;
       EvReqCleanup; EvDeleteRequest (brk world_idle)] /\
    requests w2 = delete (brk world_idle) (requests world_idle) /\
    pending w2 = pending world_idle /\ jheap w2 = jheap world_idle /\
    grefs w2 = grefs world_idle.
Proof.
  apply (status_async_round UV_FS_CLOSE "uv_fs_close" None debug_build 1 5 100 0
           no_sync {| _instance := 7%nat |} 0 0 None PNull JNull world_idle);
    [lia | lia | lia | simpl; lia | reflexivity | right; reflexivity].
Defined.

(** ** Blocking reads, byte by byte *)

Lemma fresh_lookup (w : world) (n : Z) (i : nat) :
  (i < Z.to_nat n)%nat ->
  (uninit w <$> seqZ 0 n) !! i = Some (uninit w (Z.of_nat i)).
Proof.
  intros Hi. rewrite list_lookup_fmap.
  rewrite (lookup_seqZ_lt 0 n i) by lia. reflexivity.
Qed.

(** X9: a blocking read to offset 0 whose region lies in the destination
    array, served by an engine that stores at most [length] bytes, leaves
    the array with its length, with the bytes the engine stored at the
    start of the region, with the rest of the region filled from the
    memory the transient buffer was allocated with, and with every byte
    past the region, and every other array, as before; it returns the
    engine's answer and raises the translated exception exactly when that
    answer is negative. *)
Theorem read_blocking_frame (b : build) (loop_ptr : Z) (r : jref)
    (a : list jbyte) (len position callback_ptr r0 : Z)
    (engine : nbuf -> uv_sync) (w : world) :
  loop_ptr <> 0 ->
  jheap w !! r = Some a ->
  0 <= len <= Z.of_nat (length a) ->
  Z.of_nat (length a) < 2 ^ 31 ->
  let done := engine {| nb_size := len; nb_mem := uninit w <$> seqZ 0 len |} in
  Z.of_nat (length (sy_mem done)) <= len ->
  exists w' a',
    Files__read b loop_ptr (JByteArray r) len 0 position 0 callback_ptr
      r0 engine w = Ret (sy_r done) w' /\
    jheap w' !! r = Some a' /\
    length a' = length a /\
    (forall i, (i < length (sy_mem done))%nat -> a' !! i = sy_mem done !! i) /\
    (forall i, (length (sy_mem done) <= i < Z.to_nat len)%nat ->
       a' !! i = Some (uninit w (Z.of_nat i))) /\
    (forall i, (Z.to_nat len <= i)%nat -> a' !! i = a !! i) /\
    (forall r', r' <> r -> jheap w' !! r' = jheap w !! r') /\
    requests w' = requests w /\
    pending w' =
      (if sy_r done <? 0
       then Some (Thrown (sy_code done) (Some "uv_fs_read") None None)
       else pending w).
Proof.
  intros Hloop Ha Hlen Hsize done Hmem.
  pose proof (read_sync_overwrites b loop_ptr r a len position
                callback_ptr r0 engine w Hloop Ha Hlen Hsize Hmem) as Hrun.
  cbv zeta in Hrun. fold done in Hrun. cbn [nb_mem] in Hrun.
  set (fresh := uninit w <$> seqZ 0 len) in *.
  assert (Hfresh : Z.of_nat (length fresh) = len) by (apply fresh_length; lia).
  set (bs := sy_mem done ++ drop (length (sy_mem done)) fresh) in *.
  assert (Hbs : length bs = Z.to_nat len).
  { unfold bs. rewrite length_app, length_drop. lia. }
  eexists _, (splice a 0 bs). split; [exact Hrun |].
  assert (Hheap : forall w0 : world,
            jheap ((if sy_r done <? 0
                    then set_pending (Some (Thrown (sy_code done)
                                              (Some "uv_fs_read") None None))
                    else id) w0) = jheap w0)
    by (intros w0; destruct (sy_r done <? 0); reflexivity).
  rewrite Hheap. cbn [jheap push set_jheap].
  split; [apply lookup_insert_eq |].
  split; [apply splice_length; lia |].
  split.
  { intros i Hi.
    pose proof (splice_lookup_inside a 0 bs i ltac:(lia) ltac:(lia) ltac:(lia)) as E.
    change (Z.to_nat 0 + i)%nat with i in E. rewrite E.
    unfold bs. apply lookup_app_l. exact Hi. }
  split.
  { intros i Hi.
    pose proof (splice_lookup_inside a 0 bs i ltac:(lia) ltac:(lia) ltac:(lia)) as E.
    change (Z.to_nat 0 + i)%nat with i in E. rewrite E.
    unfold bs. rewrite lookup_app_r by lia.
    rewrite lookup_drop.
    replace (length (sy_mem done) + (i - length (sy_mem done)))%nat with i by lia.
    apply fresh_lookup. lia. }
  split; [intros i Hi; apply splice_lookup_outside; lia |].
  split; [intros r' Hne; apply lookup_insert_ne; congruence |].
  destruct (sy_r done <? 0); split; reflexivity.
Qed.

Lemma read_blocking_frame_witness :
  exists w' a',
    Files__read debug_build 1 (JByteArray 3%nat) 8 0 0 0 0 0 failed_read
      world_buffer =
      Ret (sy_r (failed_read {| nb_size := 8;
                                nb_mem := uninit world_buffer <$> seqZ 0 8 |}))
          w' /\
    jheap w' !! 3%nat = Some a' /\
    length a' = length (replicate 16 0 : list jbyte) /\
    (forall i, (i < length [1; 2; 3; 4; 5; 6; 7; 8])%nat ->
       a' !! i = [1; 2; 3; 4; 5; 6; 7; 8] !! i) /\
    (forall i, (length [1; 2; 3; 4; 5; 6; 7; 8] <= i < Z.to_nat 8)%nat ->
       a' !! i = Some (uninit world_buffer (Z.of_nat i))) /\
    (forall i, (Z.to_nat 8 <= i)%nat ->
       a' !! i = (replicate 16 0 : list jbyte) !! i) /\
    (forall r', r' <> 3%nat -> jheap w' !! r' = jheap world_buffer !! r') /\
    requests w' = requests world_buffer /\
    pending w' =
      (if -1 <? 0
       then Some (Thrown 9 (Some "uv_fs_read") None None)
       else pending world_buffer).
Proof.
  apply (read_blocking_frame debug_build 1 3%nat (replicate 16 0) 8 0 0 0
           failed_read world_buffer);
    [lia | reflexivity | simpl; lia | simpl; lia | simpl; lia].
Defined.

Lemma SetByteArrayRegion_past (r : jref) (a mem : list jbyte) (start len : Z)
    (w : world) :
  jheap w !! r = Some a ->
  0 <= start -> 0 < len -> start + len <= Z.of_nat (length a) ->
  Z.of_nat (length mem) < len ->
  SetByteArrayRegion (JByteArray r) start len (Some mem) w =
  Crashed NativeOutOfBounds (push (EvSetByteArrayRegion (JByteArray r) start len) w).
Proof.
  intros Ha Hs Hl Hend Hmem.
  unfold SetByteArrayRegion, emit, modify, gets, mbind, M_bind, mret, M_ret.
  cbn [jheap push]. rewrite Ha.
  unfold region_ok. rewrite bool_decide_eq_true_2 by lia. cbn [negb].
  replace (len =? 0) with false by (symmetry; apply Z.eqb_neq; lia).
  rewrite bool_decide_eq_false_2 by lia. reflexivity.
Qed.

(** X19: a blocking read with 0 < offset <= length whose region lies in the
    destination array cannot stay within the memory it allocates: the
    transient buffer has length - offset bytes, and whatever the engine
    stores, either the engine's write or the copy of [length] bytes into
    the array runs past its end. Nothing has been written to the Java
    array, raised or registered at that point. *)
Theorem read_blocking_past_buffer (b : build) (loop_ptr : Z) (r : jref)
    (a : list jbyte) (len offset position callback_ptr r0 : Z)
    (engine : nbuf -> uv_sync) (w : world) :
  loop_ptr <> 0 ->
  jheap w !! r = Some a ->
  0 < offset <= len ->
  offset + len <= Z.of_nat (length a) ->
  Z.of_nat (length a) < 2 ^ 31 ->
  exists w',
    Files__read b loop_ptr (JByteArray r) len offset position 0 callback_ptr
      r0 engine w = Crashed NativeOutOfBounds w' /\
    jheap w' = jheap w /\ pending w' = pending w /\ requests w' = requests w /\
    callbacks_made (trace w') = callbacks_made (trace w).
Proof.
  intros Hloop Ha Hoff Hend Hsize.
  unfold Files__read.
  erewrite bind_ret by (apply assert_nonzero; exact Hloop).
  cbn [Z.eqb negb].
  rewrite to_jlong_id by (unfold jlong_range; lia).
  rewrite !to_jsize_id by (unfold jint_range; lia).
  erewrite bind_ret by (apply new_jbytes_run; lia).
  set (fresh := uninit w <$> seqZ 0 (len - offset)).
  assert (Hfresh : Z.of_nat (length fresh) = len - offset)
    by (apply fresh_length; lia).
  set (base := {| nb_size := len - offset; nb_mem := fresh |}).
  unfold engine_write. cbn [nb_size nb_mem base].
  destruct (bool_decide_reflect
              (Z.of_nat (length (sy_mem (engine base))) <= len - offset))
    as [Hfit | Hpast].
  - erewrite bind_ret by reflexivity. cbn [nb_mem].
    erewrite bind_crashed.
    2:{ apply (SetByteArrayRegion_past r a _ offset len w);
          [exact Ha | lia | lia | exact Hend |].
        rewrite length_app, length_drop. lia. }
    eexists. split; [reflexivity |].
    repeat split.
    unfold callbacks_made. cbn [trace push].
    rewrite List.filter_app. simpl. apply app_nil_r.
  - eexists. split; [reflexivity |]. repeat split.
Qed.

Lemma read_blocking_past_buffer_witness :
  exists w',
    Files__read debug_build 1 (JByteArray 3%nat) 10 4 0 0 0 0 short_read
      world_buffer = Crashed NativeOutOfBounds w' /\
    jheap w' = jheap world_buffer /\ pending w' = pending world_buffer /\
    requests w' = requests world_buffer /\
    callbacks_made (trace w') = callbacks_made (trace world_buffer).
Proof.
  apply (read_blocking_past_buffer debug_build 1 3%nat (replicate 16 0) 10 4 0 0 0
           short_read world_buffer);
    [lia | reflexivity | lia | simpl; lia | simpl; lia].
Defined.

(** ** Read and readdir completions at their edges *)

(** The hook on a read completion whose commit is in range. *)
Lemma _fs_cb_read_run (b : build) (req : uv_fs_t) (rq : FileRequest)
    (cb : FileCallbacks) (r : jref) (a : list jbyte) (w : world) :
  data req <> 0 ->
  requests w !! data req = Some rq ->
  _callback_ptr rq <> 0 ->
  callbacks w !! _callback_ptr rq = Some cb ->
  fs_type req = UV_FS_READ ->
  _read_buffer rq = JByteArray r ->
  jheap w !! r = Some a ->
  0 <= result req <= Z.of_nat (length (mem_of (_byte_array rq))) ->
  0 <= _read_buffer_offset rq ->
  _read_buffer_offset rq + result req <= Z.of_nat (length a) ->
  Z.of_nat (length a) < 2 ^ 31 ->
  _fs_cb b req w =
  Ret tt (disposed (data req) rq (push EvReqCleanup
    (push (EvCallbackN (_instance cb) UV_FS_READ (_callback_id rq)
             (JObjectArray [JLong (result req); JByteArray r]))
       (set_jheap
          (<[r := splice a (_read_buffer_offset rq)
                    (take (Z.to_nat (result req)) (mem_of (_byte_array rq)))]>
             (jheap w))
          (push (EvSetByteArrayRegion (JByteArray r) (_read_buffer_offset rq)
                   (result req)) w))))).
Proof.
  intros Hdata Hreq Hptr Hcb Hty Hbuf Ha Hn Hoff Hend Hlen.
  rewrite (_fs_cb_run b req rq w Hdata Hreq Hptr).
  destruct (Z.eqb_spec (result req) (-1)) as [E | _]; [lia |].
  rewrite Hty.
  erewrite bind_ret by (eapply fs_cb_read_run; eassumption).
  erewrite bind_ret by reflexivity.
  apply FileRequest_delete_run. exact Hreq.
Qed.

(** X10: a read completion whose byte count does not fit the destination
    (negative other than -1, or reaching past the end of the array from the
    destination offset) is still delivered as a success: the commit is
    refused by the array bounds check, which leaves
    ArrayIndexOutOfBoundsException pending and the array untouched, and the
    receiver gets the pair (Long count, buffer) in one call; the request is
    disposed of. *)
Theorem read_completion_out_of_range (b : build) (req : uv_fs_t)
    (rq : FileRequest) (cb : FileCallbacks) (r : jref) (a : list jbyte)
    (w : world) :
  data req <> 0 ->
  requests w !! data req = Some rq ->
  _callback_ptr rq <> 0 ->
  callbacks w !! _callback_ptr rq = Some cb ->
  fs_type req = UV_FS_READ ->
  result req <> -1 ->
  _read_buffer rq = JByteArray r ->
  jheap w !! r = Some a ->
  region_ok a (to_jsize (_read_buffer_offset rq)) (to_jsize (result req)) = false ->
  exists w',
    _fs_cb b req w = Ret tt w' /\
    jheap w' = jheap w /\
    pending w' = Some ArrayIndexOutOfBounds /\
    callbacks_made (trace w') = callbacks_made (trace w) ++
      [EvCallbackN (_instance cb) UV_FS_READ (_callback_id rq)
         (JObjectArray [Long_valueOf (result req); JByteArray r])] /\
    requests w' = delete (data req) (requests w).
Proof.
  intros Hdata Hreq Hptr Hcb Hty Hres Hbuf Ha Hbad.
  assert (Hcommit : get_array_region_from_bytes (data req) (to_jsize (result req)) w =
    Ret (JByteArray r)
      (set_pending (Some ArrayIndexOutOfBounds)
         (push (EvSetByteArrayRegion (JByteArray r)
                  (to_jsize (_read_buffer_offset rq)) (to_jsize (result req))) w))).
  { unfold get_array_region_from_bytes.
    erewrite bind_ret by (apply deref_request_run; exact Hreq).
    rewrite Hbuf.
    unfold SetByteArrayRegion, emit, modify, gets, mbind, M_bind, mret, M_ret.
    cbn [jheap push]. rewrite Ha, Hbad. reflexivity. }
  eexists. split.
  - rewrite (_fs_cb_run b req rq w Hdata Hreq Hptr).
    apply Z.eqb_neq in Hres. rewrite Hres, Hty.
    erewrite bind_ret.
    2:{ unfold fs_cb.
        erewrite bind_ret by (apply deref_request_run; exact Hreq).
        erewrite bind_ret; [| unfold fs_cb_switch].
        2:{ erewrite bind_ret by reflexivity.
            erewrite bind_ret by apply assert_true.
            erewrite bind_ret by reflexivity.
            erewrite bind_ret by exact Hcommit.
            erewrite bind_ret by reflexivity.
            erewrite bind_ret by (apply callback_narg_run; exact Hcb).
            reflexivity. }
        reflexivity. }
    erewrite bind_ret by reflexivity.
    apply FileRequest_delete_run. exact Hreq.
  - unfold disposed. cbn [jheap pending requests trace push set_requests].
    rewrite released_jheap, released_requests.
    split; [reflexivity |]. split.
    { unfold released. rewrite Hbuf. reflexivity. }
    split; [| reflexivity].
    unfold released. rewrite Hbuf. cbn [trace push set_grefs set_pending].
    unfold callbacks_made. rewrite <- !app_assoc, List.filter_app. reflexivity.
Qed.

Lemma read_completion_out_of_range_witness :
  exists w',
    _fs_cb debug_build read_too_long world_reading = Ret tt w' /\
    jheap w' = jheap world_reading /\
    pending w' = Some ArrayIndexOutOfBounds /\
    callbacks_made (trace w') = callbacks_made (trace world_reading) ++
      [EvCallbackN 7%nat UV_FS_READ 5
         (JObjectArray [Long_valueOf 9; JByteArray 3%nat])] /\
    requests w' = delete 1 (requests world_reading).
Proof.
  apply (read_completion_out_of_range debug_build read_too_long read_request
           {| _instance := 7%nat |} 3%nat [0; 0; 0; 0; 0] world_reading);
    try reflexivity; simpl; lia.
Defined.



(** ** An asynchronous read from submission to completion *)

Lemma gref_count_insert (g : gmap jref nat) (r o : jref) (n : nat) :
  default 0%nat (<[r := n]> g !! o) =
  if bool_decide (r = o) then n else default 0%nat (g !! o).
Proof.
  destruct (bool_decide_reflect (r = o)) as [-> | Hne].
  - rewrite lookup_insert_eq. reflexivity.
  - rewrite lookup_insert_ne by exact Hne. reflexivity.
Qed.

(** X12: an asynchronous read with 0 <= offset < length, submitted, served by
    an engine that stores the bytes [mem] in the scratch buffer, no more
    than the length - offset bytes it was allocated with, and completed
    with a count [n] within [mem] and within the destination from [offset],
    ends with the first [n] bytes of [mem] in the destination array at
    [offset], one array-valued call (Long n, destination) on the receiver
    of the dispatcher given at submission with the callback id given at
    submission, the request gone, and as many global references on every
    Java object as before the submission. *)
Theorem read_async_round (b : build) (loop_ptr : Z) (r : jref) (a : list jbyte)
    (len offset position callback callback_ptr r0 : Z)
    (engine : nbuf -> uv_sync) (cb : FileCallbacks) (mem : list jbyte)
    (n code : Z) (pth : option string) (q : native_ptr) (w : world) :
  loop_ptr <> 0 -> callback <> 0 -> callback_ptr <> 0 -> brk w <> 0 ->
  callbacks w !! callback_ptr = Some cb ->
  jheap w !! r = Some a ->
  0 <= offset < len -> len < 2 ^ 63 ->
  Z.of_nat (length mem) <= len - offset ->
  0 <= n <= Z.of_nat (length mem) ->
  offset + n <= Z.of_nat (length a) ->
  Z.of_nat (length a) < 2 ^ 31 ->
  let w1 := world_of (Files__read b loop_ptr (JByteArray r) len offset position
                        callback callback_ptr r0 engine w) in
  exists w2 w3,
    engine_fills (brk w) mem w1 = Some w2 /\
    _fs_cb b (completion UV_FS_READ n code pth q (brk w)) w2 = Ret tt w3 /\
    trace w3 = trace w ++
      [EvNewGlobalRef r;
       EvSubmit UV_FS_READ (brk w) (scratch_of w (len - offset)) len;
       EvSetByteArrayRegion (JByteArray r) offset n;
       EvCallbackN (_instance cb) UV_FS_READ callback
         (JObjectArray [JLong n; JByteArray r]);
       EvReqCleanup; EvDeleteGlobalRef r; EvDeleteRequest (brk w)] /\
    jheap w3 !! r = Some (splice a offset (take (Z.to_nat n) mem)) /\
    (forall r', r' <> r -> jheap w3 !! r' = jheap w !! r') /\
    requests w3 = delete (brk w) (requests w) /\
    (forall o, gref_count w3 o = gref_count w o).
Proof.
  intros Hloop Hcbid Hptr Hbrk Hcb Ha Hoff Hlen Hfit Hn Hend Hsize w1.
  subst w1.
  rewrite (read_async_request b loop_ptr (JByteArray r) len offset position
             callback callback_ptr r0 engine w Hloop Hcbid)
    by (unfold jlong_range; lia).
  cbn [world_of].
  set (rq := request_of w callback_ptr callback (JByteArray r) (len - offset) offset).
  set (w1 := push (EvSubmit UV_FS_READ (brk w) (scratch_of w (len - offset)) len)
               (created rq w)).
  assert (Hreq1 : requests w1 !! brk w = Some rq) by apply created_request.
  set (fresh := uninit w <$> seqZ 0 (len - offset)).
  assert (Hscratch : _byte_array rq =
                     Some {| nb_size := len - offset; nb_mem := fresh |}).
  { unfold rq, request_of, scratch_of. cbn [_byte_array].
    replace (0 <? len - offset) with true by (symmetry; apply Z.ltb_lt; lia).
    reflexivity. }
  destruct (engine_write_run (len - offset) fresh mem) as [Hwrite Hfilled];
    [apply fresh_length; lia | exact Hfit |].
  set (filled := mem ++ drop (length mem) fresh) in *.
  set (rq2 := with_scratch rq (Some {| nb_size := len - offset; nb_mem := filled |})).
  set (w2 := set_requests (<[brk w := rq2]> (requests w1)) w1).
  assert (Hfill : engine_fills (brk w) mem w1 = Some w2).
  { unfold engine_fills. rewrite Hreq1. cbn [mbind option_bind].
    rewrite Hscratch. cbn [mbind option_bind].
    rewrite Hwrite. reflexivity. }
  assert (Hreq2 : requests w2 !! brk w = Some rq2) by apply lookup_insert_eq.
  exists w2. eexists. split; [exact Hfill |]. split.
  { apply (_fs_cb_read_run b (completion UV_FS_READ n code pth q (brk w)) rq2 cb r a w2);
      [exact Hbrk | exact Hreq2 | exact Hptr | exact Hcb | reflexivity
      | reflexivity | exact Ha | | | exact Hend | exact Hsize].
    - cbn. lia.
    - cbn. lia. }
  rewrite disposed_trace. unfold disposed, released, dispose_events.
  cbn.
  split; [rewrite <- !app_assoc; reflexivity |].
  split.
  { rewrite lookup_insert_eq. unfold filled.
    rewrite take_app_le by lia. reflexivity. }
  split; [intros r' Hne; apply lookup_insert_ne; congruence |].
  split.
  { rewrite delete_insert_eq. apply delete_insert_eq. }
  intros o. unfold gref_count. cbn.
  rewrite !gref_count_insert.
  destruct (bool_decide_reflect (r = o)) as [<- | Hne]; [| reflexivity].
  rewrite bool_decide_eq_true_2 by reflexivity. reflexivity.
Qed.

Lemma read_async_round_witness :
  exists w2 w3,
    engine_fills 1 [1; 2; 3; 4; 5; 6]
      (world_of (Files__read debug_build 1 (JByteArray 3%nat) 10 4 0 5 100 0
                   failed_read world_buffer)) = Some w2 /\
    _fs_cb debug_build (completion UV_FS_READ 6 0 None PNull 1) w2 = Ret tt w3 /\
    trace w3 = trace world_buffer ++
      [EvNewGlobalRef 3%nat;
       EvSubmit UV_FS_READ 1 (scratch_of world_buffer (10 - 4)) 10;
       EvSetByteArrayRegion (JByteArray 3%nat) 4 6;
       EvCallbackN 7%nat UV_FS_READ 5
         (JObjectArray [JLong 6; JByteArray 3%nat]);
       EvReqCleanup; EvDeleteGlobalRef 3%nat; EvDeleteRequest 1] /\
    jheap w3 !! 3%nat =
      Some (splice (replicate 16 0) 4 (take (Z.to_nat 6) [1; 2; 3; 4; 5; 6])) /\
    (forall r', r' <> 3%nat -> jheap w3 !! r' = jheap world_buffer !! r') /\
    requests w3 = delete 1 (requests world_buffer) /\
    (forall o, gref_count w3 o = gref_count world_buffer o).
Proof.
  apply (read_async_round debug_build 1 3%nat (replicate 16 0) 10 4 0 5 100 0
           failed_read {| _instance := 7%nat |} [1; 2; 3; 4; 5; 6] 6 0 None PNull
           world_buffer);
    try reflexivity; simpl; lia.
Defined.

(** ** Blocking writes *)

(** X13: a blocking write from a Java array of [size] bytes with
    0 <= offset <= size hands the engine a transient buffer of [size] bytes
    that starts with the size - offset bytes of the array from [offset] to
    its end; so the [len] bytes the engine is asked to write are the array's
    bytes offset .. offset + len whenever offset + len <= size. The call
    returns the engine's answer, raises the translated exception exactly
    when the answer is negative, and leaves the array, the requests and the
    global references as they were. *)
Theorem write_blocking_hands_tail (b : build) (loop_ptr : Z) (r : jref)
    (a : list jbyte) (len offset position callback_ptr r0 : Z)
    (engine : nbuf -> uv_sync) (w : world) :
  loop_ptr <> 0 ->
  jheap w !! r = Some a ->
  0 <= offset <= Z.of_nat (length a) ->
  Z.of_nat (length a) < 2 ^ 31 ->
  exists base w',
    Files__write b loop_ptr (JByteArray r) len offset position 0 callback_ptr
      r0 engine w = Ret (sy_r (engine base)) w' /\
    nb_size base = Z.of_nat (length a) /\
    length (nb_mem base) = length a /\
    take (length a - Z.to_nat offset) (nb_mem base) = drop (Z.to_nat offset) a /\
    (0 <= len -> offset + len <= Z.of_nat (length a) ->
     take (Z.to_nat len) (nb_mem base) =
     take (Z.to_nat len) (drop (Z.to_nat offset) a)) /\
    pending w' =
      (if sy_r (engine base) <? 0
       then Some (Thrown (sy_code (engine base)) (Some "uv_fs_write") None None)
       else pending w) /\
    jheap w' = jheap w /\ requests w' = requests w /\ grefs w' = grefs w /\
    callbacks_made (trace w') = callbacks_made (trace w).
Proof.
  intros Hloop Ha Hoff Hsize.
  set (size := Z.of_nat (length a)).
  set (fresh := uninit w <$> seqZ 0 size).
  assert (Hfresh : length fresh = length a).
  { unfold fresh. rewrite length_fmap, length_seqZ. unfold size. lia. }
  set (mem := take (Z.to_nat (size - offset)) (drop (Z.to_nat offset) a)
              ++ drop (Z.to_nat (size - offset)) fresh).
  set (base := {| nb_size := size; nb_mem := mem |}).
  assert (Htail : take (Z.to_nat (size - offset)) (drop (Z.to_nat offset) a) =
                  drop (Z.to_nat offset) a).
  { apply take_ge. rewrite length_drop. unfold size. lia. }
  assert (Hrun : Files__write b loop_ptr (JByteArray r) len offset position 0
                   callback_ptr r0 engine w =
                 Ret (sy_r (engine base))
                   ((if sy_r (engine base) <? 0
                     then set_pending (Some (Thrown (sy_code (engine base))
                                               (Some "uv_fs_write") None None))
                     else id)
                      (push EvReqCleanup
                         (push (EvGetByteArrayRegion (JByteArray r) offset
                                  (size - offset)) w)))).
  { unfold Files__write.
    erewrite bind_ret by (apply assert_nonzero; exact Hloop).
    cbn [Z.eqb negb].
    erewrite bind_ret.
    2:{ unfold GetArrayLength, gets, mbind, M_bind. rewrite Ha. reflexivity. }
    fold size.
    erewrite bind_ret by (apply new_jbytes_run; unfold size; lia).
    rewrite !to_jsize_id by (unfold jint_range, size; lia).
    cbn [nb_mem nb_size]. fold fresh.
    erewrite bind_ret.
    2:{ apply (GetByteArrayRegion_run r a offset (size - offset) (Some fresh) w);
          [exact Ha | lia | unfold size; lia | unfold size; lia |].
        change (default [] (Some fresh)) with fresh. rewrite Hfresh.
        unfold size. lia. }
    cbn [fmap option_fmap option_map default]. fold mem. fold base.
    erewrite bind_ret by reflexivity.
    change (engine {| nb_size := size; nb_mem := id mem |}) with (engine base).
    destruct (sy_r (engine base) <? 0); reflexivity. }
  exists base. eexists. split; [exact Hrun |].
  split; [reflexivity |].
  split.
  { cbn [nb_mem base]. unfold mem. rewrite Htail.
    rewrite length_app, !length_drop, Hfresh. unfold size. lia. }
  split.
  { cbn [nb_mem base]. unfold mem. rewrite Htail.
    rewrite take_app_le by (rewrite length_drop; lia).
    apply take_ge. rewrite length_drop. lia. }
  split.
  { intros Hlen Hend. cbn [nb_mem base]. unfold mem. rewrite Htail.
    apply take_app_le. rewrite length_drop. unfold size in *. lia. }
  assert (Hcalls : forall tr e1 e2, is_callback e1 = false ->
            is_callback e2 = false ->
            callbacks_made ((tr ++ [e1]) ++ [e2]) = callbacks_made tr).
  { intros tr e1 e2 H1 H2. unfold callbacks_made.
    rewrite !List.filter_app. simpl. rewrite H1, H2, !app_nil_r. reflexivity. }
  destruct (sy_r (engine base) <? 0); repeat split;
    try reflexivity; apply Hcalls; reflexivity.
Qed.

Lemma write_blocking_witness :
  exists base w',
    Files__write debug_build 1 (JByteArray 4%nat) 3 2 0 0 0 0 wrote_three
      world_source = Ret (sy_r (wrote_three base)) w' /\
    nb_size base = Z.of_nat (length [1; 2; 3; 4; 5]) /\
    length (nb_mem base) = length [1; 2; 3; 4; 5] /\
    take (length [1; 2; 3; 4; 5] - Z.to_nat 2) (nb_mem base) =
      drop (Z.to_nat 2) [1; 2; 3; 4; 5] /\
    (0 <= 3 -> 2 + 3 <= Z.of_nat (length [1; 2; 3; 4; 5]) ->
     take (Z.to_nat 3) (nb_mem base) =
     take (Z.to_nat 3) (drop (Z.to_nat 2) [1; 2; 3; 4; 5])) /\
    pending w' =
      (if sy_r (wrote_three base) <? 0
       then Some (Thrown (sy_code (wrote_three base)) (Some "uv_fs_write") None None)
       else pending world_source) /\
    jheap w' = jheap world_source /\ requests w' = requests world_source /\
    grefs w' = grefs world_source /\
    callbacks_made (trace w') = callbacks_made (trace world_source).
Proof.
  apply (write_blocking_hands_tail debug_build 1 4%nat [1; 2; 3; 4; 5] 3 2 0 0 0
           wrote_three world_source);
    [lia | reflexivity | simpl; lia | simpl; lia].
Defined.

(** ** Completions that carry a value read at [req->ptr] *)







(** ** The path of an open descriptor *)

Lemma digits_length (k : nat) :
  forall (fuel : nat) (n : Z) (acc : list ascii),
    0 <= n < 10 ^ Z.of_nat (S k) ->
    (length (digits fuel n acc) <= length acc + S k)%nat.
Proof.
  induction k as [| k IH]; intros fuel n acc Hn;
    destruct fuel as [| fuel]; cbn [digits]; try lia.
  - destruct (Z.ltb_spec n 10) as [_ | Hge]; [simpl; lia |].
    change (10 ^ Z.of_nat 1) with 10 in Hn. lia.
  - destruct (Z.ltb_spec n 10) as [_ | Hge]; [simpl; lia |].
    assert (Hdiv : 0 <= n / 10 < 10 ^ Z.of_nat (S k)).
    { rewrite (Nat2Z.inj_succ (S k)), Z.pow_succ_r in Hn by lia.
      split; [apply Z.div_pos; lia |].
      apply Z.div_lt_upper_bound; lia. }
    specialize (IH fuel (n / 10) (digit (n mod 10) :: acc) Hdiv).
    simpl in IH. lia.
Qed.

Lemma decimal_length (x : Z) :
  jint_range x -> (length (decimal x) <= 11)%nat.
Proof.
  intros [Hlo Hhi]. unfold decimal.
  destruct (Z.ltb_spec x 0).
  - cbn [length].
    pose proof (digits_length 9 20 (- x) []) as H9.
    cbn [length] in H9.
    assert (0 <= - x < 10 ^ Z.of_nat 10) by (change (10 ^ Z.of_nat 10) with 10000000000; lia).
    specialize (H9 ltac:(assumption)). lia.
  - pose proof (digits_length 9 20 x []) as H9.
    cbn [length] in H9.
    assert (0 <= x < 10 ^ Z.of_nat 10) by (change (10 ^ Z.of_nat 10) with 10000000000; lia).
    specialize (H9 ltac:(assumption)). lia.
Qed.

(** X16: the buffer [proc_path] is large enough for every descriptor: for any
    32-bit [fd], negative ones included, the name handed to the blocking
    readlink is "/proc/self/fd/" followed by all the decimal chars of [fd],
    none cut off. The call returns the chars of the answer before the first
    NUL; when the status is negative it returns NULL instead and raises the
    translated exception under the name "uv_fs_readlink", without a path.
    The engine's request is released once in both cases. *)
Theorem get_path_name_fits (b : build) (loop_ptr fd : Z)
    (engine : list ascii -> uv_sync) (s tl : list ascii) (w : world) :
  loop_ptr <> 0 -> jint_range fd -> nul_free s ->
  let name := chars "/proc/self/fd/" ++ decimal fd in
  sy_ptr (engine name) = PChars (s ++ NUL :: tl) ->
  proc_path fd = name /\
  Files__get_1path b loop_ptr fd engine w =
    (if sy_r (engine name) <? 0
     then Ret JNull
            (set_pending (Some (Thrown (sy_code (engine name))
                                  (Some "uv_fs_readlink") None None))
               (push EvReqCleanup w))
     else Ret (jstring_of s) (push EvReqCleanup w)).
Proof.
  intros Hloop Hfd Hs name Hptr.
  assert (Hname : proc_path fd = name).
  { unfold proc_path, snprintf, name, chars. apply take_ge.
    rewrite length_app. pose proof (decimal_length fd Hfd) as Hd.
    change (Z.to_nat (proc_path_size - 1)) with 26%nat.
    change (length (list_ascii_of_string "/proc/self/fd/")) with 14%nat. lia. }
  split; [exact Hname |].
  unfold Files__get_1path. rewrite Hname.
  erewrite bind_ret by (apply assert_nonzero; exact Hloop).
  rewrite Hptr.
  erewrite bind_ret.
  2:{ unfold NewStringUTF. rewrite c_str_name by exact Hs. reflexivity. }
  erewrite bind_ret by reflexivity.
  destruct (sy_r (engine name) <? 0); reflexivity.
Qed.

Lemma get_path_name_fits_witness :
  proc_path (- 2147483648) = chars "/proc/self/fd/" ++ decimal (- 2147483648) /\
  Files__get_1path debug_build 1 (- 2147483648) resolves_to_t world0 =
    (if sy_r (resolves_to_t (chars "/proc/self/fd/" ++ decimal (- 2147483648))) <? 0
     then Ret JNull
            (set_pending
               (Some (Thrown
                  (sy_code (resolves_to_t
                              (chars "/proc/self/fd/" ++ decimal (- 2147483648))))
                  (Some "uv_fs_readlink") None None))
               (push EvReqCleanup world0))
     else Ret (jstring_of (chars "t")) (push EvReqCleanup world0)).
Proof.
  apply (get_path_name_fits debug_build 1 (- 2147483648) resolves_to_t
           (chars "t") (chars "x") world0);
    [lia | unfold jint_range; lia | repeat constructor; discriminate
    | reflexivity].
Defined.

Example proc_path_of_smallest_descriptor :
  proc_path (- 2147483648) = chars "/proc/self/fd/-2147483648".
Proof. reflexivity. Qed.

(** ** An asynchronous write from submission to completion *)

Lemma write_async_run (b : build) (loop_ptr : Z) (r : jref)
    (a : list jbyte) (len offset position callback callback_ptr r0 : Z)
    (engine : nbuf -> uv_sync) (w : world) :
  loop_ptr <> 0 ->
  callback <> 0 ->
  jheap w !! r = Some a ->
  0 <= offset <= Z.of_nat (length a) ->
  Z.of_nat (length a) < 2 ^ 31 ->
  let size := Z.of_nat (length a) in
  let rq0 := request_of w callback_ptr callback JNull size 0 in
  let stage := fun mem : list jbyte =>
    take (Z.to_nat (size - offset)) (drop (Z.to_nat offset) a)
    ++ drop (Z.to_nat (size - offset)) mem in
  let w1 := push (EvGetByteArrayRegion (JByteArray r) offset (size - offset))
              (created rq0 w) in
  Files__write b loop_ptr (JByteArray r) len offset position callback
    callback_ptr r0 engine w =
  Ret r0
    (push (EvSubmit UV_FS_WRITE (brk w) (refill stage (scratch_of w size)) len)
       (set_requests
          (<[brk w := with_scratch rq0 (refill stage (scratch_of w size))]>
             (requests w1)) w1)).
Proof.
  intros Hloop Hcb Ha Hoff Hsize size rq0 stage w1.
  unfold Files__write.
  erewrite bind_ret by (apply assert_nonzero; exact Hloop).
  apply Z.eqb_neq in Hcb. rewrite Hcb. cbn [negb].
  erewrite bind_ret.
  2:{ unfold GetArrayLength, gets, mbind, M_bind. rewrite Ha. reflexivity. }
  erewrite bind_ret by apply new_request_run.
  fold size. fold rq0.
  rewrite !to_jsize_id by (unfold jint_range, size; lia).
  erewrite bind_ret.
  2:{ apply (get_bytes_from_array_region_run (brk w) rq0 r a
               (size - offset) offset (created rq0 w)).
      - apply created_request.
      - exact Ha.
      - lia.
      - unfold size; lia.
      - unfold size; lia.
      - unfold rq0, request_of. cbn [_byte_array].
        rewrite mem_of_scratch_length by (unfold size; lia). lia. }
  reflexivity.
Qed.

(** X17: an asynchronous write with 0 <= offset <= size of the source array,
    submitted and then completed by the engine, makes exactly one call, on
    the receiver of the dispatcher given at submission with the callback id
    given at submission: the failure pair when the result is -1, else the
    Long of the result. Afterwards the request and its scratch buffer are
    gone, and the source array, the global references and the pending
    exception are as before the submission: a write takes no reference on
    the array it copies from. *)
Theorem write_async_round (b : build) (loop_ptr : Z) (r : jref)
    (a : list jbyte) (len offset position callback callback_ptr r0 : Z)
    (engine : nbuf -> uv_sync) (cb : FileCallbacks) (n code : Z)
    (pth : option string) (q : native_ptr) (w : world) :
  loop_ptr <> 0 -> callback <> 0 -> callback_ptr <> 0 -> brk w <> 0 ->
  callbacks w !! callback_ptr = Some cb ->
  jheap w !! r = Some a ->
  0 <= offset <= Z.of_nat (length a) ->
  Z.of_nat (length a) < 2 ^ 31 ->
  let w1 := world_of (Files__write b loop_ptr (JByteArray r) len offset position
                        callback callback_ptr r0 engine w) in
  exists w2,
    _fs_cb b (completion UV_FS_WRITE n code pth q (brk w)) w1 = Ret tt w2 /\
    callbacks_made (trace w2) = callbacks_made (trace w) ++
      [status_callback (_instance cb) UV_FS_WRITE callback n code pth
         (Long_valueOf n)] /\
    requests w2 = delete (brk w) (requests w) /\
    pending w2 = pending w /\ jheap w2 = jheap w /\ grefs w2 = grefs w.
Proof.
  intros Hloop Hcbid Hptr Hbrk Hcb Ha Hoff Hsize w1. subst w1.
  rewrite (write_async_run b loop_ptr r a len offset position callback
             callback_ptr r0 engine w Hloop Hcbid Ha Hoff Hsize).
  cbn [world_of].
  set (size := Z.of_nat (length a)).
  set (rq0 := request_of w callback_ptr callback JNull size 0).
  set (stage := fun mem : list jbyte =>
         take (Z.to_nat (size - offset)) (drop (Z.to_nat offset) a)
         ++ drop (Z.to_nat (size - offset)) mem).
  set (rq := with_scratch rq0 (refill stage (scratch_of w size))).
  set (w0 := push (EvGetByteArrayRegion (JByteArray r) offset (size - offset))
               (created rq0 w)).
  set (w1 := push (EvSubmit UV_FS_WRITE (brk w) (refill stage (scratch_of w size)) len)
               (set_requests (<[brk w := rq]> (requests w0)) w0)).
  assert (Hreq : requests w1 !! brk w = Some rq) by apply lookup_insert_eq.
  assert (Hcb1 : callbacks w1 !! callback_ptr = Some cb) by exact Hcb.
  assert (Hcalls : forall e, is_callback e = true ->
            callbacks_made
              (trace w ++ [EvGetByteArrayRegion (JByteArray r) offset (size - offset);
                           EvSubmit UV_FS_WRITE (brk w)
                             (refill stage (scratch_of w size)) len;
                           e; EvReqCleanup; EvDeleteRequest (brk w)]) =
            callbacks_made (trace w) ++ [e]).
  { intros e He. unfold callbacks_made. rewrite List.filter_app. simpl.
    rewrite He. reflexivity. }
  destruct (Z.eq_dec n (-1)) as [-> | Hne].
  - eexists. split.
    { apply (_fs_cb_failure_run b (completion UV_FS_WRITE (-1) code pth q (brk w))
               rq cb w1);
        [exact Hbrk | exact Hreq | exact Hptr | exact Hcb1 | reflexivity]. }
    rewrite disposed_trace. cbn.
    split; [rewrite <- !app_assoc; apply Hcalls; reflexivity |].
    split; [rewrite delete_insert_eq; apply delete_insert_eq |].
    repeat split; reflexivity.
  - eexists. split.
    { apply (_fs_cb_simple_run b (completion UV_FS_WRITE n code pth q (brk w))
               rq cb (Long_valueOf n) w1);
        [exact Hbrk | exact Hreq | exact Hptr | exact Hcb1 | exact Hne
        | reflexivity]. }
    rewrite disposed_trace. unfold status_callback.
    apply Z.eqb_neq in Hne. rewrite Hne. cbn.
    split; [rewrite <- !app_assoc; apply Hcalls; reflexivity |].
    split; [rewrite delete_insert_eq; apply delete_insert_eq |].
    repeat split; reflexivity.
Qed.

Lemma write_async_round_witness :
  exists w2,
    _fs_cb debug_build (completion UV_FS_WRITE 3 0 None PNull (brk world_source))
      (world_of (Files__write debug_build 1 (JByteArray 4%nat) 3 2 0 5 100 0
                   wrote_three world_source)) = Ret tt w2 /\
    callbacks_made (trace w2) = callbacks_made (trace world_source) ++
      [status_callback 7%nat UV_FS_WRITE 5 3 0 None (Long_valueOf 3)] /\
    requests w2 = delete (brk world_source) (requests world_source) /\
    pending w2 = pending world_source /\ jheap w2 = jheap world_source /\
    grefs w2 = grefs world_source.
Proof.
  apply (write_async_round debug_build 1 4%nat [1; 2; 3; 4; 5] 3 2 0 5 100 0
           wrote_three {| _instance := 7%nat |} 3 0 None PNull world_source);
    try reflexivity; simpl; lia.
Defined.

(** ** What the entry points leave alone *)

Section EntryFrame.
Context {X : Type}.
Variable f : world -> X.
Hypothesis f_push : forall e w, f (push e w) = f w.
Hypothesis f_pending : forall t w, f (set_pending t w) = f w.
Hypothesis f_requests : forall r w, f (set_requests r w) = f w.
Hypothesis f_brk : forall p w, f (set_brk p w) = f w.

Lemma preserves_ThrowException (errorno : Z) (syscall message pth : option string) :
  preserves f (ThrowException errorno syscall message pth).
Proof. intros w. apply f_pending. Qed.

Lemma preserves_raise_if (c : bool) (errorno : Z)
    (syscall message pth : option string) :
  preserves f (if c then ThrowException errorno syscall message pth else mret tt).
Proof.
  destruct c; [apply preserves_ThrowException | apply preserves_ret].
Qed.

Lemma preserves_new_jbytes (n : Z) : preserves f (new_jbytes n).
Proof.
  unfold new_jbytes. destruct (n <? 0); [apply preserves_die |].
  apply preserves_bind; [apply preserves_gets |]. intros u.
  apply preserves_ret.
Qed.

Lemma preserves_new_request_plain (cb_ptr cid size offset : Z) :
  preserves f (new_request cb_ptr cid JNull size offset).
Proof.
  unfold new_request, FileRequest_new.
  apply preserves_bind.
  { destruct (0 <? size); [| apply preserves_ret].
    apply preserves_bind; [apply preserves_new_jbytes |]. intros nb.
    apply preserves_ret. }
  intros ba.
  apply preserves_bind; [apply preserves_ret |]. intros rb.
  apply preserves_bind; [apply preserves_gets |]. intros p.
  apply preserves_bind; [| intros _; apply preserves_ret].
  apply preserves_modify. intros w. rewrite f_brk. apply f_requests.
Qed.

Lemma preserves_uv_submit (ty : uv_fs_type) (p : Z) (buf : option nbuf) (len r : Z) :
  preserves f (uv_submit ty p buf len r).
Proof.
  unfold uv_submit.
  apply preserves_bind; [apply preserves_emit; exact f_push |]. intros _.
  apply preserves_ret.
Qed.

Lemma preserves_GetArrayLength (array : jobject) : preserves f (GetArrayLength array).
Proof.
  unfold GetArrayLength. destruct array; try apply preserves_die.
  apply preserves_bind; [apply preserves_gets |]. intros h.
  destruct (h !! _); [apply preserves_ret | apply preserves_die].
Qed.

Lemma preserves_GetByteArrayRegion (array : jobject) (start len : Z)
    (buf : option (list jbyte)) :
  preserves f (GetByteArrayRegion array start len buf).
Proof.
  unfold GetByteArrayRegion.
  apply preserves_bind; [apply preserves_emit; exact f_push |]. intros _.
  destruct array; try apply preserves_die.
  apply preserves_bind; [apply preserves_gets |]. intros h.
  destruct (h !! _) as [a |]; [| apply preserves_die].
  destruct (negb (region_ok a start len)).
  { apply preserves_bind; [| intros _; apply preserves_ret].
    apply preserves_modify. intros w. apply f_pending. }
  destruct (len =? 0); [apply preserves_ret |].
  destruct buf as [mem |]; [| apply preserves_die].
  destruct (bool_decide _); [apply preserves_ret | apply preserves_die].
Qed.

Lemma preserves_get_bytes_from_array_region (p : Z) (data : jobject)
    (len offset : Z) :
  preserves f (get_bytes_from_array_region p data len offset).
Proof.
  unfold get_bytes_from_array_region.
  apply preserves_bind; [apply preserves_deref_request |]. intros rq.
  apply preserves_bind; [apply preserves_GetByteArrayRegion |]. intros mem.
  apply preserves_bind; [| intros _; apply preserves_ret].
  apply preserves_modify. intros w. apply f_requests.
Qed.

Lemma preserves_Files__write (b : build) (loop_ptr : Z) (data : jobject)
    (len offset position callback callback_ptr r : Z) (engine : nbuf -> uv_sync) :
  preserves f (Files__write b loop_ptr data len offset position callback
                 callback_ptr r engine).
Proof.
  unfold Files__write.
  apply preserves_bind; [apply preserves_assert |]. intros _.
  destruct (negb (callback =? 0)).
  - apply preserves_bind; [apply preserves_GetArrayLength |]. intros size.
    apply preserves_bind; [apply preserves_new_request_plain |]. intros p.
    apply preserves_bind; [apply preserves_get_bytes_from_array_region |].
    intros base. apply preserves_uv_submit.
  - apply preserves_bind; [apply preserves_GetArrayLength |]. intros size.
    apply preserves_bind; [apply preserves_new_jbytes |]. intros base.
    apply preserves_bind; [apply preserves_GetByteArrayRegion |]. intros mem.
    apply preserves_bind; [apply preserves_emit; exact f_push |]. intros _.
    apply preserves_bind; [apply preserves_raise_if |]. intros _.
    apply preserves_ret.
Qed.

Lemma preserves_Files__sendfile (b : build) (loop_ptr offset len : Z)
    (callback callback_ptr r : Z) (done : uv_sync) :
  preserves f (Files__sendfile b loop_ptr offset len callback callback_ptr r done).
Proof.
  unfold Files__sendfile.
  apply preserves_bind; [apply preserves_assert |]. intros _.
  destruct (negb (callback =? 0)).
  - apply preserves_bind; [apply preserves_new_request_plain |]. intros p.
    apply preserves_uv_submit.
  - apply preserves_bind; [apply preserves_emit; exact f_push |]. intros _.
    apply preserves_bind; [apply preserves_raise_if |]. intros _.
    apply preserves_ret.
Qed.

Lemma preserves_status_entry (ty : uv_fs_type) (syscall : string)
    (cpath : option string) (b : build) (loop_ptr callback callback_ptr r : Z)
    (done : uv_sync) :
  preserves f (status_entry ty syscall cpath b loop_ptr callback callback_ptr r done).
Proof.
  unfold status_entry.
  apply preserves_bind; [apply preserves_assert |]. intros _.
  destruct (negb (callback =? 0)).
  - apply preserves_bind; [apply preserves_new_request_plain |]. intros p.
    apply preserves_uv_submit.
  - apply preserves_bind; [apply preserves_emit; exact f_push |]. intros _.
    apply preserves_bind; [apply preserves_raise_if |]. intros _.
    apply preserves_ret.
Qed.

Lemma preserves_Files__open (b : build) (loop_ptr : Z) (cpath : string)
    (callback callback_ptr r : Z) (done : uv_sync) :
  preserves f (Files__open b loop_ptr cpath callback callback_ptr r done).
Proof.
  unfold Files__open.
  apply preserves_bind; [apply preserves_assert |]. intros _.
  destruct (negb (callback =? 0)).
  - apply preserves_bind; [apply preserves_new_request_plain |]. intros p.
    apply preserves_uv_submit.
  - apply preserves_bind; [apply preserves_emit; exact f_push |]. intros _.
    apply preserves_bind; [apply preserves_raise_if |]. intros _.
    apply preserves_ret.
Qed.

Lemma preserves_stat_entry (ty : uv_fs_type) (syscall : string)
    (cpath : option string) (b : build) (loop_ptr callback callback_ptr : Z)
    (done : uv_sync) :
  preserves f (stat_entry ty syscall cpath b loop_ptr callback callback_ptr done).
Proof.
  unfold stat_entry.
  apply preserves_bind; [apply preserves_assert |]. intros _.
  destruct (negb (callback =? 0)).
  - apply preserves_bind; [apply preserves_new_request_plain |]. intros p.
    apply preserves_bind; [apply preserves_uv_submit |]. intros _.
    apply preserves_ret.
  - apply preserves_bind; [apply preserves_as_statbuf |]. intros sb.
    apply preserves_bind; [apply preserves_emit; exact f_push |]. intros _.
    apply preserves_bind; [apply preserves_raise_if |]. intros _.
    apply preserves_ret.
Qed.

Lemma preserves_Files__readlink (b : build) (loop_ptr : Z) (cpath : string)
    (callback callback_ptr : Z) (done : uv_sync) :
  preserves f (Files__readlink b loop_ptr cpath callback callback_ptr done).
Proof.
  unfold Files__readlink.
  apply preserves_bind; [apply preserves_assert |]. intros _.
  destruct (negb (callback =? 0)).
  - apply preserves_bind; [apply preserves_new_request_plain |]. intros p.
    apply preserves_bind; [apply preserves_uv_submit |]. intros _.
    apply preserves_ret.
  - apply preserves_bind; [apply preserves_NewStringUTF |]. intros link.
    apply preserves_bind; [apply preserves_emit; exact f_push |]. intros _.
    apply preserves_bind; [apply preserves_raise_if |]. intros _.
    apply preserves_ret.
Qed.

Lemma preserves_Files__readdir (b : build) (loop_ptr : Z) (cpath : string)
    (callback callback_ptr : Z) (done : uv_sync) :
  preserves f (Files__readdir b loop_ptr cpath callback callback_ptr done).
Proof.
  unfold Files__readdir.
  apply preserves_bind; [apply preserves_assert |]. intros _.
  destruct (negb (callback =? 0)).
  - apply preserves_bind; [apply preserves_new_request_plain |]. intros p.
    apply preserves_bind; [apply preserves_uv_submit |]. intros _.
    apply preserves_ret.
  - apply preserves_bind; [| intros names; apply preserves_bind;
                             [apply preserves_emit; exact f_push
                             | intros _; apply preserves_ret]].
    destruct (0 <=? sy_r done).
    + apply preserves_bind; [apply preserves_NewObjectArray; assumption |].
      intros names.
      apply preserves_bind; [apply preserves_name_loop; assumption |].
      intros [names' p']. apply preserves_ret.
    + apply preserves_bind; [apply preserves_ThrowException |]. intros _.
      apply preserves_ret.
Qed.

Lemma preserves_Files__get_1path (b : build) (loop_ptr fd : Z)
    (engine : list ascii -> uv_sync) :
  preserves f (Files__get_1path b loop_ptr fd engine).
Proof.
  unfold Files__get_1path.
  apply preserves_bind; [apply preserves_assert |]. intros _.
  apply preserves_bind; [apply preserves_NewStringUTF |]. intros link.
  apply preserves_bind; [apply preserves_emit; exact f_push |]. intros _.
  destruct (sy_r _ <? 0); [| apply preserves_ret].
  apply preserves_bind; [apply preserves_ThrowException |]. intros _.
  apply preserves_ret.
Qed.

End EntryFrame.

(** X18: of all the entry points only read touches a Java array or takes a
    global reference: write (blocking or not), sendfile, open, the sixteen
    status operations, the three stats, readlink, readdir and the path
    lookup leave every Java array and every global reference count as they
    found them, for all arguments and engine answers, and also when they
    raise or stop in an assertion or a bad pointer. *)
Theorem only_read_touches_java (b : build)
    (loop_ptr callback callback_ptr r : Z) (done : uv_sync) :
  (forall data len offset position engine,
     keeps_java (Files__write b loop_ptr data len offset position callback
                   callback_ptr r engine)) /\
  (forall offset len,
     keeps_java (Files__sendfile b loop_ptr offset len callback callback_ptr r done)) /\
  (forall cpath,
     keeps_java (Files__open b loop_ptr cpath callback callback_ptr r done)) /\
  (forall ty syscall cpath,
     keeps_java (status_entry ty syscall cpath b loop_ptr callback callback_ptr
                   r done)) /\
  (forall ty syscall cpath,
     keeps_java (stat_entry ty syscall cpath b loop_ptr callback callback_ptr done)) /\
  (forall cpath,
     keeps_java (Files__readlink b loop_ptr cpath callback callback_ptr done)) /\
  (forall cpath,
     keeps_java (Files__readdir b loop_ptr cpath callback callback_ptr done)) /\
  (forall fd engine, keeps_java (Files__get_1path b loop_ptr fd engine)).
Proof.
  unfold keeps_java.
  repeat split; intros;
    first
      [ apply preserves_Files__write | apply preserves_Files__sendfile
      | apply preserves_Files__open | apply preserves_status_entry
      | apply preserves_stat_entry | apply preserves_Files__readlink
      | apply preserves_Files__readdir | apply preserves_Files__get_1path ];
    reflexivity.
Qed.
